(** * Vocal biomarker service: a shallow embedding and its verified properties

    The development follows [packages/biomarker-service/biomarker_service.py]:
    the μ-law sample decoder, the per-session audio buffer, the feature
    extractor, the per-session risk assessment and the message loop of the
    WebSocket server.

    Conventions.
    - Python floats are modelled by rationals ([Q]).  Every float the service
      itself computes (decoded samples, the risk clamp) is exact in that
      model; what librosa, the numpy statistics and scikit-learn compute
      is left open: these libraries are interfaces ([Librosa], [Sklearn],
      [Base64]) over which the theorems quantify.
    - Python dictionaries keyed by session id are [gmap string _]; the
      feature dictionary, whose insertion order matters, is an association
      list.
    - Objects mutated in place (buffers, session records, scalers, models)
      are stored in the maps and written back after each mutation. *)

From Stdlib Require Import ZArith QArith Qminmax Qabs Lia Lqa.
From Stdlib.Strings Require Import Byte Ascii String.
From stdpp Require Import gmap strings list fin_maps pretty.

Local Open Scope Z_scope.

(** ** SampleDecoder: [BiomarkerService.decode_mulaw] *)

Module Mulaw.

Definition MULAW_BIAS : Z := 0x84.
Definition MULAW_MAX : Z := 0x1FFF.

(** The integer computed by one iteration of the loop, before the division by
    32768.0. *)
Definition decoded_val (b : byte) : Z :=
  let byte := Z.lxor (Z.of_N (Byte.to_N b)) 0xFF in
  let sign := Z.land byte 0x80 in
  let exponent := Z.shiftr (Z.land byte 0x70) 4 in
  let mantissa := Z.land byte 0x0F in
  let decoded_val :=
    if exponent =? 0 then Z.shiftl mantissa 1 + MULAW_BIAS
    else Z.shiftl (Z.shiftl mantissa 1 + MULAW_BIAS) (exponent - 1) in
  if sign =? 0 then decoded_val else - decoded_val.

(** [decoded_val / 32768.0]: the quotient of an integer below 2^24 by 2^15 is
    exact in single and double precision. *)
Definition decode_sample (b : byte) : Q := decoded_val b # 32768.

(** [decoded = []; for byte in encoded_data: ... decoded.append(...)].  The
    [except] branch is not reachable on a [bytes] argument: every operation of
    the loop body is total on 0..255. *)
Definition decode_mulaw (encoded_data : list byte) : list Q :=
  fold_left (fun decoded byte => decoded ++ [decode_sample byte]) encoded_data [].

(** The decoder as the specification words it, with bit positions and
    arithmetic instead of masks and shifts. *)
Definition spec_magnitude (exponent mantissa : Z) : Z :=
  if exponent =? 0 then mantissa * 2 + 0x84
  else (mantissa * 2 + 0x84) * 2 ^ (exponent - 1).

Definition spec_sample (b : byte) : Q :=
  let v := 255 - Z.of_N (Byte.to_N b) in
  let sign := Z.testbit v 7 in
  let exponent := (v / 16) mod 8 in
  let mantissa := v mod 16 in
  let magnitude := spec_magnitude exponent mantissa in
  (if sign then - magnitude else magnitude) # 32768.

End Mulaw.

(** ** SessionBuffer: [class AudioBuffer] *)

Module Deque.
Section Deque.
Context {A : Type}.

(** [collections.deque(maxlen=m).append(x)]: the element is appended and,
    when the bound is exceeded, the leftmost element is discarded. *)
Definition append (maxlen : Z) (d : list A) (x : A) : list A :=
  let d' := d ++ [x] in
  if maxlen <? Z.of_nat (length d') then tail d' else d'.

(** [deque.extend(xs)] appends the elements one by one, left to right. *)
Definition extend (maxlen : Z) (d : list A) (xs : list A) : list A :=
  fold_left (append maxlen) xs d.
End Deque.
End Deque.

Module AudioBuffer.

Record t := mk {
  sample_rate : Z;
  buffer_size : Z;
  buffer : list Q;
  frame_count : Z
}.

(** [int(x)] on a float truncates towards zero. *)
Definition int_of_Q (q : Q) : Z := Z.quot (Qnum q) (Z.pos (Qden q)).

(** [__init__]; [deque(maxlen=n)] raises [ValueError] for a negative [n]. *)
Definition init (sample_rate : Z) (buffer_duration : Q) : option t :=
  let buffer_size := int_of_Q (inject_Z sample_rate * buffer_duration) in
  if buffer_size <? 0 then None
  else Some (mk sample_rate buffer_size [] 0).

(** [AudioBuffer()], the only constructor call of the service. *)
Definition default : t := mk 8000 24000 [] 0.

Definition add_frame (self : t) (audio_data : list Q) : t * bool :=
  let buffer' := Deque.extend (buffer_size self) (buffer self) audio_data in
  let self' := mk (sample_rate self) (buffer_size self) buffer'
                  (frame_count self + Z.of_nat (length audio_data)) in
  (self', buffer_size self' <=? Z.of_nat (length buffer')).

Definition get_buffer (self : t) : list Q := buffer self.

Definition clear (self : t) : t :=
  mk (sample_rate self) (buffer_size self) [] 0.

(** Successive [add_frame] calls without any [clear]: the flags returned. *)
Fixpoint feed (self : t) (batches : list (list Q)) : t * list bool :=
  match batches with
  | [] => (self, [])
  | xs :: rest =>
      let '(self1, full) := add_frame self xs in
      let '(self2, flags) := feed self1 rest in
      (self2, full :: flags)
  end.

(** The driver of [process_audio_message]: [add_frame], and [clear] whenever
    it returned [True].  The result counts how often the window was ready. *)
Fixpoint feed_windows (self : t) (batches : list (list Q)) : t * nat :=
  match batches with
  | [] => (self, O)
  | xs :: rest =>
      let '(self1, full) := add_frame self xs in
      if full then
        let '(self2, n) := feed_windows (clear self1) rest in (self2, S n)
      else feed_windows self1 rest
  end.

(** Cumulative sample counts after each batch. *)
Fixpoint cumulative (acc : Z) (batches : list (list Q)) : list Z :=
  match batches with
  | [] => []
  | xs :: rest =>
      let acc' := acc + Z.of_nat (length xs) in acc' :: cumulative acc' rest
  end.

(** The cumulative count at which [add_frame] first returns [True]. *)
Definition first_ready (self : t) (batches : list (list Q)) : option Z :=
  snd <$> List.find (fun p => fst p) (zip (snd (feed self batches)) (cumulative 0 batches)).

(** The number of samples in a sequence of batches. *)
Definition total (batches : list (list Q)) : Z :=
  Z.of_nat (length (concat batches)).

Definition wf (self : t) : Prop :=
  0 <= buffer_size self /\ Z.of_nat (length (buffer self)) <= buffer_size self.

End AudioBuffer.

(** ** Insertion-ordered dictionaries: the feature [dict] *)

Module PyDict.

Definition t : Type := list (string * Q).

(** [d[k] = v]: an existing key keeps its position, a new key goes last. *)
Fixpoint set (k : string) (v : Q) (d : t) : t :=
  match d with
  | [] => [(k, v)]
  | (k', v') :: rest =>
      if String.eqb k k' then (k', v) :: rest else (k', v') :: set k v rest
  end.

(** [d.update({...})] assigns the pairs in the order of the literal. *)
Definition update (kvs : t) (d : t) : t :=
  fold_left (fun d kv => set (fst kv) (snd kv) d) kvs d.

(** A dictionary literal [{k1: v1, ...}]. *)
Definition literal (kvs : t) : t := update kvs [].

Definition keys (d : t) : list string := map fst d.

(** [list(d.values())] *)
Definition values (d : t) : list Q := map snd d.

End PyDict.

(** ** FeatureBackend: [class FeatureExtractor] *)

(** The signal-processing library.  Each call either returns its frames or
    raises (here [None]); the statistics are those of numpy. *)
Class Librosa := {
  yin : list Q -> Z -> Z -> Z -> option (list Q);
  spectral_centroid : list Q -> Z -> option (list Q);
  spectral_rolloff : list Q -> Z -> option (list Q);
  zero_crossing_rate : list Q -> option (list Q);
  mfcc : list Q -> Z -> Z -> option (list (list Q));
  rms : list Q -> option (list Q);
  np_mean : list Q -> Q;
  np_std : list Q -> Q;
  np_log : Q -> Q
}.

Module FeatureExtractor.

(** A [try] block over the dictionary being filled: the block either
    completes or raises, and the assignments made before the exception
    stay. *)
Definition block (A : Type) : Type := PyDict.t -> PyDict.t * option A.

Definition ret {A} (a : A) : block A := fun d => (d, Some a).

Definition bind {A B} (m : block A) (k : A -> block B) : block B :=
  fun d => match m d with
           | (d', Some a) => k a d'
           | (d', None) => (d', None)
           end.

(** A library call that may raise. *)
Definition call {A} (r : option A) : block A := fun d => (d, r).

(** [features[k] = v] *)
Definition assign (k : string) (v : Q) : block unit :=
  fun d => (PyDict.set k v d, Some tt).

Notation "x <- m ;; k" := (bind m (fun x => k))
  (at level 100, m at next level, right associativity).
Notation "m ;;; k" := (bind m (fun _ => k))
  (at level 100, right associativity).

(** [for i in range(n): body i] *)
Fixpoint for_range (body : nat -> block unit) (range : list nat) : block unit :=
  match range with
  | [] => ret tt
  | i :: rest => body i ;;; for_range body rest
  end.

(** [try: body except Exception: handler]; the handlers of this class only
    assign constants and do not raise. *)
Definition try_except (body : block unit) (handler : PyDict.t -> PyDict.t)
    (d : PyDict.t) : PyDict.t :=
  match body d with
  | (d', Some _) => d'
  | (d', None) => handler d'
  end.

Definition sample_rate : Z := 8000.

Definition mfcc_mean_key (i : nat) : string := "mfcc_" +:+ pretty i +:+ "_mean".
Definition mfcc_std_key (i : nat) : string := "mfcc_" +:+ pretty i +:+ "_std".

(** [np.max], [np.min]: [ValueError] on an empty array. *)
Definition np_max (l : list Q) : option Q :=
  match l with
  | [] => None
  | x :: rest => Some (fold_left Qmax rest x)
  end.

Definition np_min (l : list Q) : option Q :=
  match l with
  | [] => None
  | x :: rest => Some (fold_left Qmin rest x)
  end.

Definition Qltb (x y : Q) : bool := negb (Qle_bool y x).

Definition _get_zero_features : PyDict.t :=
  let features := PyDict.literal
    [("f0_mean", 0%Q); ("f0_std", 0%Q); ("f0_range", 0%Q);
     ("spectral_centroid_mean", 0%Q); ("spectral_centroid_std", 0%Q);
     ("spectral_rolloff_mean", 0%Q);
     ("zcr_mean", 0%Q); ("zcr_std", 0%Q);
     ("rms_mean", 0%Q); ("rms_std", 0%Q);
     ("log_energy_mean", 0%Q); ("log_energy_std", 0%Q)] in
  fold_left (fun features i =>
               PyDict.set (mfcc_std_key i) 0%Q
                 (PyDict.set (mfcc_mean_key i) 0%Q features))
            (seq 0 13) features.

(** [len(audio) == 0 or np.all(audio == 0)] *)
Definition silent (audio : list Q) : bool :=
  (length audio =? 0)%nat || forallb (fun x => Qeq_bool x 0) audio.

Section Extract.
Context `{L : Librosa}.

Definition f0_zeros (features : PyDict.t) : PyDict.t :=
  PyDict.set "f0_range" 0%Q
    (PyDict.set "f0_std" 0%Q (PyDict.set "f0_mean" 0%Q features)).

(** Fundamental frequency (F0) features *)
Definition f0_block (audio : list Q) : PyDict.t -> PyDict.t :=
  try_except
    (f0 <- call (yin audio 50 400 sample_rate) ;;
     let f0_valid := List.filter (fun x => Qltb 0 x) f0 in
     if (0 <? length f0_valid)%nat then
       assign "f0_mean" (np_mean f0_valid) ;;;
       assign "f0_std" (np_std f0_valid) ;;;
       hi <- call (np_max f0_valid) ;;
       lo <- call (np_min f0_valid) ;;
       assign "f0_range" (hi - lo)%Q
     else
       assign "f0_mean" 0%Q ;;;
       assign "f0_std" 0%Q ;;;
       assign "f0_range" 0%Q)
    f0_zeros.

Definition spectral_zeros (features : PyDict.t) : PyDict.t :=
  let features := PyDict.update
    [("spectral_centroid_mean", 0%Q); ("spectral_centroid_std", 0%Q);
     ("spectral_rolloff_mean", 0%Q);
     ("zcr_mean", 0%Q); ("zcr_std", 0%Q)] features in
  fold_left (fun features i =>
               PyDict.set (mfcc_std_key i) 0%Q
                 (PyDict.set (mfcc_mean_key i) 0%Q features))
            (seq 0 13) features.

(** Spectral features *)
Definition spectral_block (audio : list Q) : PyDict.t -> PyDict.t :=
  try_except
    (spectral_centroids <- call (spectral_centroid audio sample_rate) ;;
     assign "spectral_centroid_mean" (np_mean spectral_centroids) ;;;
     assign "spectral_centroid_std" (np_std spectral_centroids) ;;;
     rolloff <- call (spectral_rolloff audio sample_rate) ;;
     assign "spectral_rolloff_mean" (np_mean rolloff) ;;;
     zcr <- call (zero_crossing_rate audio) ;;
     assign "zcr_mean" (np_mean zcr) ;;;
     assign "zcr_std" (np_std zcr) ;;;
     mfccs <- call (mfcc audio sample_rate 13) ;;
     for_range (fun i =>
                  row <- call (mfccs !! i) ;;
                  assign (mfcc_mean_key i) (np_mean row) ;;;
                  assign (mfcc_std_key i) (np_std row))
               (seq 0 13))
    spectral_zeros.

Definition energy_zeros (features : PyDict.t) : PyDict.t :=
  PyDict.update
    [("rms_mean", 0%Q); ("rms_std", 0%Q);
     ("log_energy_mean", 0%Q); ("log_energy_std", 0%Q)] features.

(** Energy features *)
Definition energy_block (audio : list Q) : PyDict.t -> PyDict.t :=
  try_except
    (r <- call (rms audio) ;;
     assign "rms_mean" (np_mean r) ;;;
     assign "rms_std" (np_std r) ;;;
     let log_energy := map (fun x => np_log (x + (1 # 100000000))%Q) r in
     assign "log_energy_mean" (np_mean log_energy) ;;;
     assign "log_energy_std" (np_std log_energy))
    energy_zeros.

(** The path of [extract_basic_features] past the guard and the
    normalisation: the three blocks fill an empty dictionary in turn. *)
Definition extract_blocks (audio : list Q) : PyDict.t :=
  energy_block audio (spectral_block audio (f0_block audio [])).

Definition extract_basic_features (audio : list Q) : PyDict.t :=
  if silent audio
  then _get_zero_features
  else
    match np_max (map Qabs audio) with
    | None => _get_zero_features (* the outer [except] *)
    | Some peak =>
        let audio := map (fun x => x / (peak + (1 # 100000000)))%Q audio in
        extract_blocks audio
    end.
End Extract.

End FeatureExtractor.

(** ** SessionHistory, NoveltyModel and RiskScorer: [class RiskAssessment] *)

(** numpy and scikit-learn.  A scaler or a forest is an object with state of
    its own: fitting returns the object after the call together with the
    result, or [None] when the call raises. *)
Class Sklearn := {
  Scaler : Type;
  Forest : Type;
  np_array : list (list Q) -> option (list (list Q));
  StandardScaler : Scaler;
  fit_transform : Scaler -> list (list Q) -> Scaler * option (list (list Q));
  IsolationForest : Q -> Z -> Z -> Forest;
  fit : Forest -> list (list Q) -> Forest * option unit;
  decision_function : Forest -> list (list Q) -> option (list Q)
}.

(** Python's two-argument [max] and [min] keep the first argument unless the
    second is strictly larger (smaller). *)
Definition py_max (a b : Q) : Q := if FeatureExtractor.Qltb a b then b else a.
Definition py_min (a b : Q) : Q := if FeatureExtractor.Qltb b a then b else a.

(** [clamp(x, lo, hi)] of the specification. *)
Definition clamp (x lo hi : Q) : Q :=
  if FeatureExtractor.Qltb x lo then lo
  else if FeatureExtractor.Qltb hi x then hi else x.

Module RiskAssessment.
Section RiskAssessment.
Context `{S : Sklearn}.

Record t := mk {
  models : gmap string Forest;
  scalers : gmap string Scaler;
  feature_history : gmap string (list (list Q));
  contamination : Q;
  min_samples : Z
}.

Definition init (contamination : Q) : t := mk ∅ ∅ ∅ contamination 10.

(** [self.feature_history[patient_id]] on a [defaultdict(list)] *)
Definition history (self : t) (patient_id : string) : list (list Q) :=
  default [] (feature_history self !! patient_id).

(** [max(0.0, min(1.0, (0.5 - anomaly_score) / 1.0))] *)
Definition risk_of_score (anomaly_score : Q) : Q :=
  py_max 0 (py_min 1 (((1 # 2) - anomaly_score) / 1))%Q.

(** The body of the [try]: scale, fit and score.  [None] stands for an
    exception; the objects created or refitted before it stay in the
    maps. *)
Definition fit_and_score (self : t) (patient_id : string) : t * option Q :=
  match np_array (history self patient_id) with
  | None => (self, None)
  | Some X =>
      let scaler := default StandardScaler (scalers self !! patient_id) in
      let '(scaler, X_scaled) := fit_transform scaler X in
      let self := mk (models self) (<[patient_id := scaler]> (scalers self))
                     (feature_history self) (contamination self) (min_samples self) in
      match X_scaled with
      | None => (self, None)
      | Some X_scaled =>
          let model := default (IsolationForest (contamination self) 42 100)
                               (models self !! patient_id) in
          let '(model, fitted) := fit model X_scaled in
          let self := mk (<[patient_id := model]> (models self)) (scalers self)
                         (feature_history self) (contamination self) (min_samples self) in
          match fitted with
          | None => (self, None)
          | Some _ =>
              let latest_sample := drop (length X_scaled - 1) X_scaled in
              match decision_function model latest_sample with
              | None => (self, None)
              | Some scores => (self, head scores)
              end
          end
      end
  end.

(** The first half of [update_patient_model]: the vector is appended and
    the history cut to its last [max_history] rows. *)
Definition append_history (self : t) (patient_id : string)
    (features : PyDict.t) : t :=
  let feature_vector := PyDict.values features in
  let hist := history self patient_id ++ [feature_vector] in
  let max_history := 100%nat in
  let hist := if (max_history <? length hist)%nat
              then drop (length hist - max_history) hist else hist in
  mk (models self) (scalers self)
     (<[patient_id := hist]> (feature_history self))
     (contamination self) (min_samples self).

Definition update_patient_model (self : t) (patient_id : string)
    (features : PyDict.t) : t * (Q * string) :=
  let self := append_history self patient_id features in
  let n_samples := Z.of_nat (length (history self patient_id)) in
  if n_samples <? min_samples self then (self, (0%Q, "warming_up"))
  else
    match fit_and_score self patient_id with
    | (self, Some anomaly_score) => (self, (risk_of_score anomaly_score, "ok"))
    | (self, None) => (self, (0%Q, "error"))
    end.

(** Feeding a sequence of feature dictionaries for one patient. *)
Definition update_many (self : t) (patient_id : string)
    (windows : list PyDict.t) : t :=
  fold_left (fun self features => fst (update_patient_model self patient_id features))
            windows self.
End RiskAssessment.
End RiskAssessment.

(** ** StreamingServer: [class BiomarkerService] *)

(** [base64.b64decode]: the bytes, or [None] for [binascii.Error]. *)
Class Base64 := { b64decode : string -> option (list byte) }.

(** The entry of [active_sessions]. *)
Module Session.
Record t := mk { start_time : Q; frame_count : Z; last_risk : Q }.
End Session.

(** An inbound record after [json.loads]; an absent key is [None]. *)
Module Message.
Record t := mk {
  type : option string;
  chainRunId : option string;
  audio : option string;
  timestamp : option Q
}.
End Message.

(** The outbound record. *)
Module Risk.
Record t := mk {
  type : string;
  risk : Q;
  status : string;
  n : Z;
  chainRunId : string;
  timestamp : Q
}.
End Risk.

Module BiomarkerService.
Section BiomarkerService.
Context `{L : Librosa} `{S : Sklearn} `{B : Base64}.

Record t := mk {
  host : string;
  port : Z;
  risk_assessment : RiskAssessment.t;
  audio_buffers : gmap string AudioBuffer.t;
  active_sessions : gmap string Session.t
}.

Definition init (host : string) (port : Z) : t :=
  mk host port (RiskAssessment.init (1 # 10)) ∅ ∅.

Definition decode_mulaw : list byte -> list Q := Mulaw.decode_mulaw.

(** The second half of [process_audio_message], from "Get or create audio
    buffer for this session" on.  [time_] is the reading of [time.time()]
    during the call and [timestamp] the value of [message.get('timestamp')]. *)
Definition buffer_and_assess (time_ : Q) (self : t) (chain_run_id : string)
    (audio_data : list Q) (timestamp : option Q) : t * option Risk.t :=
  let self :=
    if bool_decide (audio_buffers self !! chain_run_id = None) then
      mk (host self) (port self) (risk_assessment self)
         (<[chain_run_id := AudioBuffer.default]> (audio_buffers self))
         (<[chain_run_id := Session.mk time_ 0 0]> (active_sessions self))
    else self in
  match audio_buffers self !! chain_run_id,
        active_sessions self !! chain_run_id with
  | Some buffer, Some session =>
      let '(buffer, buffer_full) := AudioBuffer.add_frame buffer audio_data in
      let session :=
        Session.mk (Session.start_time session)
                   (Session.frame_count session + Z.of_nat (length audio_data))
                   (Session.last_risk session) in
      if buffer_full then
        let audio_segment := AudioBuffer.get_buffer buffer in
        let features := FeatureExtractor.extract_basic_features audio_segment in
        let '(ra, (risk_score, status)) :=
          RiskAssessment.update_patient_model
            (risk_assessment self) chain_run_id features in
        let session :=
          Session.mk (Session.start_time session)
                     (Session.frame_count session) risk_score in
        let buffer := AudioBuffer.clear buffer in
        (mk (host self) (port self) ra
            (<[chain_run_id := buffer]> (audio_buffers self))
            (<[chain_run_id := session]> (active_sessions self)),
         Some (Risk.mk "risk" risk_score status
                 (Z.of_nat (length (RiskAssessment.history ra chain_run_id)))
                 chain_run_id
                 (default time_ timestamp)))
      else
        (mk (host self) (port self) (risk_assessment self)
            (<[chain_run_id := buffer]> (audio_buffers self))
            (<[chain_run_id := session]> (active_sessions self)),
         None)
  | _, _ => (self, None) (* [KeyError], caught by the outer [except] *)
  end.

Definition process_audio_message (time_ : Q) (self : t) (message : Message.t)
    : t * option Risk.t :=
  if negb (bool_decide (Message.type message = Some "audio")) then (self, None)
  else
    match Message.chainRunId message with
    | None | Some "" => (self, None)
    | Some chain_run_id =>
        match default "" (Message.audio message) with
        | "" => (self, None)
        | audio_b64 =>
            match b64decode audio_b64 with
            | None => (self, None)
            | Some audio_bytes =>
                let audio_data := decode_mulaw audio_bytes in
                if (length audio_data =? 0)%nat then (self, None)
                else buffer_and_assess time_ self chain_run_id audio_data
                       (Message.timestamp message)
            end
        end
    end.

(** One connection: the frames received until it closes, each with the
    clock reading at its arrival; [None] is a frame [json.loads] rejects.
    The result is the service afterwards and the records sent.  The
    [finally] clause of the handler only writes a log line. *)
Fixpoint handle_client (self : t) (frames : list (Q * option Message.t))
    : t * list Risk.t :=
  match frames with
  | [] => (self, [])
  | (_, None) :: rest => handle_client self rest
  | (time_, Some data) :: rest =>
      let '(self, response) := process_audio_message time_ self data in
      let '(self, sent) := handle_client self rest in
      (self, match response with Some r => r :: sent | None => sent end)
  end.

(** The per-session components of the service at one session id. *)
Definition session_state (self : t) (id : string) :=
  (audio_buffers self !! id,
   active_sessions self !! id,
   RiskAssessment.feature_history (risk_assessment self) !! id,
   RiskAssessment.scalers (risk_assessment self) !! id,
   RiskAssessment.models (risk_assessment self) !! id).

(** The messages [process_audio_message] drops before it looks at any
    session: wrong type, no session id, no payload, a payload that is not
    base64, or one that decodes to no sample. *)
Definition malformed (message : Message.t) : Prop :=
  Message.type message <> Some "audio" \/
  Message.chainRunId message = None \/ Message.chainRunId message = Some "" \/
  Message.audio message = None \/ Message.audio message = Some "" \/
  exists payload : string,
    Message.audio message = Some payload /\
    (b64decode payload = None \/
     exists bytes : list byte,
       b64decode payload = Some bytes /\ decode_mulaw bytes = []).

(** Every session id known to [self] in one of the five dictionaries is
    known to [self'] in the same one. *)
Definition grows (self self' : t) : Prop :=
  dom (audio_buffers self) ⊆ dom (audio_buffers self') /\
  dom (active_sessions self) ⊆ dom (active_sessions self') /\
  dom (RiskAssessment.feature_history (risk_assessment self))
    ⊆ dom (RiskAssessment.feature_history (risk_assessment self')) /\
  dom (RiskAssessment.scalers (risk_assessment self))
    ⊆ dom (RiskAssessment.scalers (risk_assessment self')) /\
  dom (RiskAssessment.models (risk_assessment self))
    ⊆ dom (RiskAssessment.models (risk_assessment self')).

(** Buffers and session records are created together, and every buffer
    has the default capacity and respects it. *)
Definition wf (self : t) : Prop :=
  forall id : string,
    match audio_buffers self !! id with
    | Some buffer =>
        AudioBuffer.wf buffer /\ AudioBuffer.buffer_size buffer = 24000 /\
        is_Some (active_sessions self !! id)
    | None => active_sessions self !! id = None
    end.
End BiomarkerService.
End BiomarkerService.

(** ** Executable instances of the external capabilities

    Small stand-ins on which the model can be run.  The theorems below
    hold for every instance of the classes; these serve the worked examples. *)

Module Demo.

Definition mean (l : list Q) : Q :=
  match l with
  | [] => 0%Q
  | _ => Qred (fold_left Qplus l 0 / inject_Z (Z.of_nat (length l)))%Q
  end.

Definition spread (l : list Q) : Q :=
  match FeatureExtractor.np_max l, FeatureExtractor.np_min l with
  | Some hi, Some lo => Qred (hi - lo)%Q
  | _, _ => 0%Q
  end.

(** Every call succeeds. *)
Definition librosa : Librosa := {|
  yin audio _ _ _ := Some audio;
  spectral_centroid audio _ := Some (map Qabs audio);
  spectral_rolloff audio _ := Some audio;
  zero_crossing_rate audio := Some audio;
  mfcc audio _ n_mfcc := Some (replicate (Z.to_nat n_mfcc) audio);
  rms audio := Some (map Qabs audio);
  np_mean := mean;
  np_std := spread;
  np_log x := x
|}.

(** The spectral and energy front ends raise. *)
Definition librosa_faulty : Librosa := {|
  yin audio _ _ _ := Some audio;
  spectral_centroid audio _ := Some (map Qabs audio);
  spectral_rolloff audio _ := None;
  zero_crossing_rate audio := Some audio;
  mfcc audio _ n_mfcc := None;
  rms audio := None;
  np_mean := mean;
  np_std := spread;
  np_log x := x
|}.

(** Every front end raises. *)
Definition librosa_down : Librosa := {|
  yin _ _ _ _ := None;
  spectral_centroid _ _ := None;
  spectral_rolloff _ _ := None;
  zero_crossing_rate _ := None;
  mfcc _ _ _ := None;
  rms _ := None;
  np_mean := mean;
  np_std := spread;
  np_log x := x
|}.

Definition same_width (X : list (list Q)) : bool :=
  match X with
  | [] => true
  | row :: rest => forallb (fun r => (length r =? length row)%nat) rest
  end.

(** Scalers and forests count their fits.  [np.array] rejects a ragged
    history; scaling is the identity; the score of a sample is its first
    coordinate, and scoring raises on a sample whose first coordinate is
    negative. *)
Definition sklearn : Sklearn := {|
  Scaler := nat;
  Forest := nat;
  np_array X := if same_width X then Some X else None;
  StandardScaler := O;
  fit_transform s X := (S s, Some X);
  IsolationForest _ _ _ := O;
  fit f X := (S f, Some tt);
  decision_function _ rows :=
    match rows with
    | (x :: _) :: _ => if FeatureExtractor.Qltb x 0 then None else Some [x]
    | _ => None
    end
|}.

(** The lenient decoder of Python's [binascii.a2b_base64], which
    [base64.b64decode] calls: characters outside the alphabet are skipped,
    decoding stops at a completed padding, and leftover sextets raise. *)
Definition b64_value (c : ascii) : option Z :=
  let n := Z.of_N (N_of_ascii c) in
  if (65 <=? n) && (n <=? 90) then Some (n - 65)
  else if (97 <=? n) && (n <=? 122) then Some (n - 71)
  else if (48 <=? n) && (n <=? 57) then Some (n + 4)
  else if n =? 43 then Some 62
  else if n =? 47 then Some 63
  else None.

Definition byte_of_Z (z : Z) : byte :=
  default x00 (Byte.of_N (Z.to_N (z mod 256))).

Fixpoint a2b_base64 (data : list ascii) (quad_pos leftchar pads : Z)
    (out : list byte) : option (list byte) :=
  match data with
  | [] => if quad_pos =? 0 then Some out else None
  | c :: rest =>
      if Ascii.eqb c "="%char then
        if (2 <=? quad_pos) && (4 <=? quad_pos + (pads + 1)) then Some out
        else a2b_base64 rest quad_pos leftchar
               (if 2 <=? quad_pos then pads + 1 else pads) out
      else
        match b64_value c with
        | None => a2b_base64 rest quad_pos leftchar pads out
        | Some v =>
            if quad_pos =? 0 then a2b_base64 rest 1 v 0 out
            else if quad_pos =? 1 then
              a2b_base64 rest 2 (Z.land v 0x0f) 0
                (out ++ [byte_of_Z (Z.lor (Z.shiftl leftchar 2) (Z.shiftr v 4))])
            else if quad_pos =? 2 then
              a2b_base64 rest 3 (Z.land v 0x03) 0
                (out ++ [byte_of_Z (Z.lor (Z.shiftl leftchar 4) (Z.shiftr v 2))])
            else
              a2b_base64 rest 0 0 0
                (out ++ [byte_of_Z (Z.lor (Z.shiftl leftchar 6) v)])
        end
  end.

Definition is_ascii (s : string) : bool :=
  forallb (fun c => (N_of_ascii c <? 128)%N) (list_ascii_of_string s).

Definition base64 : Base64 := {|
  b64decode s :=
    if is_ascii s then a2b_base64 (list_ascii_of_string s) 0 0 0 [] else None
|}.

(** A feature dictionary in extraction order whose first entry is [x]. *)
Definition window (x : Q) : PyDict.t :=
  PyDict.set "f0_mean" x (@FeatureExtractor.extract_blocks librosa [1%Q]).

(** One audio record of the wire protocol. *)
Definition audio_message (id payload : string) : Message.t :=
  Message.mk (Some "audio") (Some id) (Some payload) None.

End Demo.

(** A record carrying the single byte 0xFF, one sample of μ-law silence. *)
Definition one_sample (id : string) : Message.t :=
  Demo.audio_message id "/w==".

(** A service in which session "s1" is one sample short of a window. *)
Definition nearly_full : @BiomarkerService.t Demo.sklearn :=
  BiomarkerService.mk "127.0.0.1" 9091 (RiskAssessment.init (1 # 10))
    {[ "s1" := AudioBuffer.mk 8000 24000
                 (replicate (Z.to_nat 23999) (132 # 32768)%Q) 23999 ]}
    {[ "s1" := Session.mk 0 23999 0 ]}.

(** A run on the demonstration backend: nine windows warm the model up, the
    tenth makes the scoring call raise, the eleventh is scored. *)
Definition demo_warm : @RiskAssessment.t Demo.sklearn :=
  RiskAssessment.update_many (RiskAssessment.init (1 # 10)) "p"
    (replicate 9 (Demo.window 1)).

Definition demo_fault : @RiskAssessment.t Demo.sklearn * (Q * string) :=
  RiskAssessment.update_patient_model demo_warm "p" (Demo.window (-1)).

Definition demo_next : @RiskAssessment.t Demo.sklearn * (Q * string) :=
  RiskAssessment.update_patient_model (fst demo_fault) "p" (Demo.window 0).

(** ** Key order of a feature dictionary *)

(** What an assignment does to the list of keys. *)
Definition add_key (k : string) (ks : list string) : list string :=
  if bool_decide (k ∈ ks) then ks else ks ++ [k].

Definition add_keys (new ks : list string) : list string :=
  fold_left (fun ks k => add_key k ks) new ks.

(** [writes m ks]: the block [m] assigns exactly the keys [ks], in that
    order, when it completes, and a prefix of them when it raises. *)
Definition writes {A} (m : FeatureExtractor.block A) (ks : list string) : Prop :=
  forall d,
    match m d with
    | (d', Some _) => PyDict.keys d' = add_keys ks (PyDict.keys d)
    | (d', None) =>
        exists pre, pre `prefix_of` ks /\ PyDict.keys d' = add_keys pre (PyDict.keys d)
    end.

Definition f0_keys : list string := ["f0_mean"; "f0_std"; "f0_range"].

Definition mfcc_keys : list string :=
  flat_map (fun i => [FeatureExtractor.mfcc_mean_key i; FeatureExtractor.mfcc_std_key i])
           (seq 0 13).

Definition spectral_keys : list string :=
  ["spectral_centroid_mean"; "spectral_centroid_std"; "spectral_rolloff_mean";
   "zcr_mean"; "zcr_std"] ++ mfcc_keys.

Definition energy_keys : list string :=
  ["rms_mean"; "rms_std"; "log_energy_mean"; "log_energy_std"].

(** The order in which [extract_basic_features] fills the dictionary. *)
Definition extraction_order : list string := f0_keys ++ spectral_keys ++ energy_keys.

(** The order in which [_get_zero_features] fills it. *)
Definition zero_order : list string :=
  f0_keys ++ ["spectral_centroid_mean"; "spectral_centroid_std"; "spectral_rolloff_mean";
              "zcr_mean"; "zcr_std"] ++ energy_keys ++ mfcc_keys.

(** ** Further vocabulary for the properties below *)

(** The value of a byte as the loop of [decode_mulaw] sees it. *)
Definition byte_Z (b : byte) : Z := Z.of_N (Byte.to_N b).

(** The 256 bytes, in order. *)
Definition all_bytes : list byte :=
  omap (fun n => Byte.of_N (N.of_nat n)) (seq 0 256).

(** Whether two bytes decode to the same integer, and whether they are equal
    or are the two spellings of one value: bits 6 and 5 set in both and only
    bit 4 different. *)
Definition same_decoded (b1 b2 : byte) : bool :=
  Mulaw.decoded_val b1 =? Mulaw.decoded_val b2.

Definition same_code (b1 b2 : byte) : bool :=
  Byte.eqb b1 b2
  || ((Z.lxor (byte_Z b1) (byte_Z b2) =? 16) && (Z.land (byte_Z b1) 0x60 =? 0x60)).

(** [d.get(k)] on a feature dictionary. *)
Fixpoint dict_get (k : string) (d : PyDict.t) : option Q :=
  match d with
  | [] => None
  | (k', v) :: rest => if String.eqb k k' then Some v else dict_get k rest
  end.

(** The bodies of the three [try] statements of [extract_basic_features],
    named so that "the body raises" can be said. *)
Section Bodies.
Context `{L : Librosa}.
Import FeatureExtractor.

Definition f0_body (audio : list Q) : block unit :=
  f0 <- call (yin audio 50 400 sample_rate) ;;
  let f0_valid := List.filter (fun x => Qltb 0 x) f0 in
  if (0 <? length f0_valid)%nat then
    assign "f0_mean" (np_mean f0_valid) ;;;
    assign "f0_std" (np_std f0_valid) ;;;
    hi <- call (np_max f0_valid) ;;
    lo <- call (np_min f0_valid) ;;
    assign "f0_range" (hi - lo)%Q
  else
    assign "f0_mean" 0%Q ;;;
    assign "f0_std" 0%Q ;;;
    assign "f0_range" 0%Q.

Definition spectral_body (audio : list Q) : block unit :=
  spectral_centroids <- call (spectral_centroid audio sample_rate) ;;
  assign "spectral_centroid_mean" (np_mean spectral_centroids) ;;;
  assign "spectral_centroid_std" (np_std spectral_centroids) ;;;
  rolloff <- call (spectral_rolloff audio sample_rate) ;;
  assign "spectral_rolloff_mean" (np_mean rolloff) ;;;
  zcr <- call (zero_crossing_rate audio) ;;
  assign "zcr_mean" (np_mean zcr) ;;;
  assign "zcr_std" (np_std zcr) ;;;
  mfccs <- call (mfcc audio sample_rate 13) ;;
  for_range (fun i =>
               row <- call (mfccs !! i) ;;
               assign (mfcc_mean_key i) (np_mean row) ;;;
               assign (mfcc_std_key i) (np_std row))
            (seq 0 13).

Definition energy_body (audio : list Q) : block unit :=
  r <- call (rms audio) ;;
  assign "rms_mean" (np_mean r) ;;;
  assign "rms_std" (np_std r) ;;;
  let log_energy := map (fun x => np_log (x + (1 # 100000000))%Q) r in
  assign "log_energy_mean" (np_mean log_energy) ;;;
  assign "log_energy_std" (np_std log_energy).
End Bodies.

(** [audio / (np.max(np.abs(audio)) + 1e-8)] for a given peak. *)
Definition normalize (peak : Q) (audio : list Q) : list Q :=
  map (fun x => x / (peak + (1 # 100000000)))%Q audio.

(** [leaves m ks]: the block [m] changes no entry outside the keys [ks],
    whether it completes or raises. *)
Definition leaves {A} (m : FeatureExtractor.block A) (ks : list string) : Prop :=
  forall (d : PyDict.t) (k : string), k ∉ ks -> dict_get k (fst (m d)) = dict_get k d.

(** A backend whose scaler always raises. *)
Definition sklearn_unscalable : Sklearn := {|
  Scaler := nat;
  Forest := nat;
  np_array X := if Demo.same_width X then Some X else None;
  StandardScaler := O;
  fit_transform s X := (S s, None);
  IsolationForest _ _ _ := O;
  fit f X := (S f, Some tt);
  decision_function _ rows := Some [0%Q]
|}.

(** Nine windows on that backend. *)
Definition unscalable_warm : @RiskAssessment.t sklearn_unscalable :=
  RiskAssessment.update_many (RiskAssessment.init (1 # 10)) "p"
    (replicate 9 (Demo.window 1)).

(** [carries message id bytes]: an audio record for session [id] whose
    payload decodes to the non-empty byte string [bytes]. *)
Definition carries `{B : Base64} (message : Message.t) (id : string)
    (bytes : list byte) : Prop :=
  Message.type message = Some "audio" /\
  Message.chainRunId message = Some id /\ id <> "" /\
  exists payload : string,
    Message.audio message = Some payload /\ payload <> "" /\
    b64decode payload = Some bytes /\ bytes <> [].

(** Between two messages no stored buffer is full. *)
Definition settled `{S : Sklearn} (self : BiomarkerService.t) : Prop :=
  BiomarkerService.wf self /\
  forall (id : string) (buffer : AudioBuffer.t),
    BiomarkerService.audio_buffers self !! id = Some buffer ->
    Z.of_nat (length (AudioBuffer.buffer buffer)) < 24000.

(** Every row of every history has 38 entries. *)
Definition rectangular `{S : Sklearn} (ra : RiskAssessment.t) : Prop :=
  forall (pid : string) (rows : list (list Q)),
    RiskAssessment.feature_history ra !! pid = Some rows ->
    Forall (fun row => length row = 38%nat) rows.

(** No stored sample is zero. *)
Definition audible `{S : Sklearn} (self : BiomarkerService.t) : Prop :=
  forall (id : string) (buffer : AudioBuffer.t),
    BiomarkerService.audio_buffers self !! id = Some buffer ->
    Forall (fun x => Qeq_bool x 0 = false) (AudioBuffer.buffer buffer).

(** The frames of a connection that carries one session's audio in the
    chunks given. *)
Definition stream_of `{B : Base64} (id : string)
    (frames : list (Q * option Message.t)) (chunks : list (list byte)) : Prop :=
  Forall2 (fun frame bytes =>
             exists message, snd frame = Some message /\ carries message id bytes)
          frames chunks.

(** * Properties *)

(** ** The transport decoder instance on sample payloads *)

Example b64_ok : @b64decode Demo.base64 "/wB/" = Some [xff; x00; x7f].
Proof. reflexivity. Qed.
Example b64_padded : @b64decode Demo.base64 "/w==" = Some [xff].
Proof. reflexivity. Qed.
Example b64_stray : @b64decode Demo.base64 "/w!=
=" = Some [xff].
Proof. reflexivity. Qed.
Example b64_bad_padding : @b64decode Demo.base64 "/w" = None.
Proof. reflexivity. Qed.
Example b64_one_left : @b64decode Demo.base64 "/wB/A" = None.
Proof. reflexivity. Qed.

(** ** The feature extractor on sample windows *)

Example keys_all_calls_succeed :
  PyDict.keys (@FeatureExtractor.extract_basic_features Demo.librosa [1 # 2; - (1 # 4)]%Q)
  = extraction_order.
Proof. vm_compute. reflexivity. Qed.

Example keys_some_calls_raise :
  PyDict.keys (@FeatureExtractor.extract_basic_features Demo.librosa_faulty
                 [1 # 2; - (1 # 4)]%Q)
  = extraction_order.
Proof. vm_compute. reflexivity. Qed.

Example keys_all_calls_raise :
  @FeatureExtractor.extract_basic_features Demo.librosa_down [1 # 2; - (1 # 4)]%Q
  = map (fun k => (k, 0%Q)) extraction_order.
Proof. vm_compute. reflexivity. Qed.

Example keys_silent_window :
  @FeatureExtractor.extract_basic_features Demo.librosa [0; 0; 0]%Q
  = map (fun k => (k, 0%Q)) zero_order.
Proof. vm_compute. reflexivity. Qed.

Example init_default : AudioBuffer.init 8000 3 = Some AudioBuffer.default.
Proof. reflexivity. Qed.

Example decode_silence :
  Mulaw.decode_mulaw [xff; x7f; x00; x80]
  = [132 # 32768; - 132 # 32768; - 10368 # 32768; 10368 # 32768]%Q.
Proof. reflexivity. Qed.

(** ** The sample decoder *)

Section FoldAppend.
Context {A B : Type} (f : A -> B).

Lemma fold_left_snoc (l : list A) (acc : list B) :
  fold_left (fun acc x => acc ++ [f x]) l acc = acc ++ map f l.
Proof.
  revert acc. induction l as [|x l IH]; intros acc; simpl.
  - by rewrite app_nil_r.
  - rewrite IH, <- app_assoc. reflexivity.
Qed.
End FoldAppend.

Lemma decode_mulaw_map (bs : list byte) :
  Mulaw.decode_mulaw bs = map Mulaw.decode_sample bs.
Proof. unfold Mulaw.decode_mulaw. by rewrite fold_left_snoc. Qed.

Lemma decode_sample_spec (b : byte) : Mulaw.decode_sample b = Mulaw.spec_sample b.
Proof. destruct b; reflexivity. Qed.

Lemma decoded_val_range (b : byte) :
  132 <= Z.abs (Mulaw.decoded_val b) <= 10368.
Proof. destruct b; vm_compute; split; discriminate. Qed.

Lemma decode_sample_range (b : byte) :
  (-1 <= Mulaw.decode_sample b <= 1)%Q.
Proof.
  pose proof (decoded_val_range b) as H.
  unfold Mulaw.decode_sample, Qle; simpl. lia.
Qed.

(** No byte decodes to the sample 0: the magnitude is at least the bias. *)
Lemma decode_sample_nonzero (b : byte) : Qeq_bool (Mulaw.decode_sample b) 0 = false.
Proof. destruct b; reflexivity. Qed.

(** C6: [decode_mulaw] returns one sample per byte, in order, the empty
    input gives the empty output, each sample is the one the stated μ-law
    algorithm computes from its byte (bits inverted, sign in bit 7, exponent
    in bits 6-4, mantissa in bits 3-0, biased magnitude shifted by the
    exponent, sign applied, divided by 32768), and each lies in [-1, 1]. *)
Theorem decode_mulaw_length_preserving (b : list byte) :
  length (Mulaw.decode_mulaw b) = length b /\
  Mulaw.decode_mulaw [] = [] /\
  (forall i : nat, Mulaw.decode_mulaw b !! i = Mulaw.spec_sample <$> b !! i) /\
  Forall (fun x => -1 <= x <= 1)%Q (Mulaw.decode_mulaw b).
Proof.
  rewrite decode_mulaw_map. repeat split.
  - apply length_map.
  - intros i. rewrite list_lookup_fmap.
    destruct (b !! i); simpl; [|done]. by rewrite decode_sample_spec.
  - apply List.Forall_forall. intros x Hx. apply in_map_iff in Hx as (c & <- & _).
    apply decode_sample_range.
Qed.

(** ** The audio buffer *)

Section DequeFacts.
Context {A : Type}.
Implicit Types (d xs : list A) (m : Z).

Lemma deque_append_length m d x :
  0 <= m -> Z.of_nat (length d) <= m ->
  Z.of_nat (length (Deque.append m d x)) = Z.min (Z.of_nat (length d) + 1) m.
Proof.
  intros Hm Hd. unfold Deque.append.
  rewrite length_app; simpl.
  destruct (Z.ltb_spec m (Z.of_nat (length d + 1))) as [Hlt|Hge].
  - destruct d as [|y d]; simpl in *; [lia|].
    rewrite length_app; simpl. lia.
  - rewrite length_app; simpl. lia.
Qed.

Lemma deque_extend_length m xs d :
  0 <= m -> Z.of_nat (length d) <= m ->
  Z.of_nat (length (Deque.extend m d xs))
  = Z.min (Z.of_nat (length d) + Z.of_nat (length xs)) m.
Proof.
  intros Hm. revert d. unfold Deque.extend.
  induction xs as [|x xs IH]; intros d Hd; simpl.
  - lia.
  - pose proof (deque_append_length m d x Hm Hd) as Ha.
    rewrite IH by lia. lia.
Qed.

(** The deque keeps the most recent [m] elements. *)
Lemma deque_append_drop m d x :
  0 <= m -> Z.of_nat (length d) <= m ->
  Deque.append m d x = drop (length d + 1 - Z.to_nat m) (d ++ [x]).
Proof.
  intros Hm Hd. unfold Deque.append. rewrite length_app; simpl.
  destruct (Z.ltb_spec m (Z.of_nat (length d + 1))) as [Hlt|Hge].
  - replace (length d + 1 - Z.to_nat m)%nat with 1%nat by lia.
    by destruct (d ++ [x]).
  - replace (length d + 1 - Z.to_nat m)%nat with 0%nat by lia. done.
Qed.

Lemma deque_extend_drop m xs d :
  0 <= m -> Z.of_nat (length d) <= m ->
  Deque.extend m d xs = drop (length (d ++ xs) - Z.to_nat m) (d ++ xs).
Proof.
  intros Hm. revert d. unfold Deque.extend.
  induction xs as [|x xs IH]; intros d Hd; simpl.
  - rewrite app_nil_r. replace (length d - Z.to_nat m)%nat with 0%nat by lia. done.
  - pose proof (deque_append_length m d x Hm Hd) as Ha.
    rewrite IH by lia.
    rewrite deque_append_drop by done.
    rewrite (cons_middle x d xs), app_assoc.
    set (k := (length d + 1 - Z.to_nat m)%nat).
    assert (Hk : (k <= length (d ++ [x]))%nat) by (rewrite length_app; simpl; lia).
    rewrite <- (drop_app_le (d ++ [x]) xs k) by done.
    rewrite drop_drop. f_equal.
    rewrite !length_app, length_drop, !length_app; simpl. lia.
Qed.
End DequeFacts.

Lemma add_frame_flag (b : AudioBuffer.t) (xs : list Q) :
  AudioBuffer.wf b ->
  snd (AudioBuffer.add_frame b xs)
  = (AudioBuffer.buffer_size b
     <=? Z.of_nat (length (AudioBuffer.buffer b)) + Z.of_nat (length xs)).
Proof.
  intros [Hm Hd]. unfold AudioBuffer.add_frame; simpl.
  rewrite deque_extend_length by done.
  destruct (Z.leb_spec (AudioBuffer.buffer_size b)
              (Z.of_nat (length (AudioBuffer.buffer b)) + Z.of_nat (length xs)));
    [apply Z.leb_le | apply Z.leb_gt]; lia.
Qed.

Lemma add_frame_wf (b : AudioBuffer.t) (xs : list Q) :
  AudioBuffer.wf b -> AudioBuffer.wf (fst (AudioBuffer.add_frame b xs)).
Proof.
  intros [Hm Hd]. unfold AudioBuffer.wf, AudioBuffer.add_frame; simpl.
  rewrite deque_extend_length by done. lia.
Qed.

Lemma add_frame_buffer_length (b : AudioBuffer.t) (xs : list Q) :
  AudioBuffer.wf b ->
  Z.of_nat (length (AudioBuffer.buffer (fst (AudioBuffer.add_frame b xs))))
  = Z.min (Z.of_nat (length (AudioBuffer.buffer b)) + Z.of_nat (length xs))
          (AudioBuffer.buffer_size b).
Proof. intros [Hm Hd]. simpl. by apply deque_extend_length. Qed.

Lemma add_frame_size (b : AudioBuffer.t) (xs : list Q) :
  AudioBuffer.buffer_size (fst (AudioBuffer.add_frame b xs)) = AudioBuffer.buffer_size b.
Proof. reflexivity. Qed.

Lemma clear_wf (b : AudioBuffer.t) :
  0 <= AudioBuffer.buffer_size b -> AudioBuffer.wf (AudioBuffer.clear b).
Proof. intros Hm. split; simpl; lia. Qed.

Lemma default_wf : AudioBuffer.wf AudioBuffer.default.
Proof. split; simpl; lia. Qed.

(** Without a [clear] the flags depend on the cumulative count alone. *)
Lemma feed_flags (batches : list (list Q)) (b : AudioBuffer.t) (acc : Z) :
  AudioBuffer.wf b -> 0 <= acc ->
  Z.of_nat (length (AudioBuffer.buffer b)) = Z.min acc (AudioBuffer.buffer_size b) ->
  snd (AudioBuffer.feed b batches)
  = map (fun c => AudioBuffer.buffer_size b <=? c) (AudioBuffer.cumulative acc batches).
Proof.
  revert b acc. induction batches as [|xs rest IH]; intros b acc Hwf Hacc Hlen; [done|].
  cbn [AudioBuffer.feed AudioBuffer.cumulative map].
  pose proof (add_frame_flag b xs Hwf) as Hflag.
  pose proof (add_frame_wf b xs Hwf) as Hwf'.
  pose proof (add_frame_buffer_length b xs Hwf) as Hlen'.
  destruct (AudioBuffer.add_frame b xs) as [b1 full] eqn:Hadd.
  simpl in Hflag, Hwf', Hlen'.
  assert (Hsize : AudioBuffer.buffer_size b1 = AudioBuffer.buffer_size b).
  { change b1 with (fst (b1, full)). rewrite <- Hadd. apply add_frame_size. }
  specialize (IH b1 (acc + Z.of_nat (length xs)) Hwf').
  destruct (AudioBuffer.feed b1 rest) as [b2 flags]. simpl in *.
  rewrite IH, Hsize by lia. f_equal.
  subst full. destruct Hwf as [Hm Hd].
  destruct (Z.leb_spec (AudioBuffer.buffer_size b) (acc + Z.of_nat (length xs)));
    [apply Z.leb_le | apply Z.leb_gt]; lia.
Qed.

Lemma total_uniform (s : Z) (batches : list (list Q)) :
  Forall (fun xs => Z.of_nat (length xs) = s) batches ->
  AudioBuffer.total batches = s * Z.of_nat (length batches).
Proof.
  unfold AudioBuffer.total. induction 1 as [|xs rest Hxs _ IH]; simpl; [lia|].
  rewrite length_app. lia.
Qed.

(** With [clear] after every full window and batches of one size [s] that
    divides the capacity, the buffer never overshoots: it fills to exactly
    the capacity, and the windows counted are the samples over the
    capacity. *)
Lemma feed_windows_uniform (s : Z) (batches : list (list Q)) (b : AudioBuffer.t) :
  0 < s -> (s | AudioBuffer.buffer_size b) ->
  (s | Z.of_nat (length (AudioBuffer.buffer b))) ->
  Z.of_nat (length (AudioBuffer.buffer b)) < AudioBuffer.buffer_size b ->
  Forall (fun xs => Z.of_nat (length xs) = s) batches ->
  Z.of_nat (snd (AudioBuffer.feed_windows b batches))
  = (Z.of_nat (length (AudioBuffer.buffer b)) + s * Z.of_nat (length batches))
    / AudioBuffer.buffer_size b.
Proof.
  intros Hs. revert b.
  induction batches as [|xs rest IH]; intros b Hdiv Hc Hlt Hall.
  - simpl. rewrite Z.mul_0_r, Z.add_0_r. symmetry. apply Z.div_small. lia.
  - apply Forall_cons in Hall as [Hxs Hall].
    assert (Hwf : AudioBuffer.wf b) by (split; lia).
    assert (Hfit : Z.of_nat (length (AudioBuffer.buffer b)) + s <= AudioBuffer.buffer_size b).
    { destruct Hdiv as [a Ha], Hc as [c Hc'].
      assert (c < a) by nia. assert ((c + 1) * s <= a * s) by nia. lia. }
    cbn [AudioBuffer.feed_windows].
    pose proof (add_frame_flag b xs Hwf) as Hflag.
    pose proof (add_frame_buffer_length b xs Hwf) as Hlen.
    pose proof (add_frame_size b xs) as Hsize.
    destruct (AudioBuffer.add_frame b xs) as [b1 full]. simpl in Hflag, Hlen, Hsize.
    rewrite Hxs in Hflag, Hlen. subst full.
    replace (Z.of_nat (length (xs :: rest))) with (1 + Z.of_nat (length rest))
      by (simpl; lia).
    destruct (Z.leb_spec (AudioBuffer.buffer_size b)
                (Z.of_nat (length (AudioBuffer.buffer b)) + s)) as [Hfull|Hpart].
    + specialize (IH (AudioBuffer.clear b1)).
      destruct (AudioBuffer.feed_windows (AudioBuffer.clear b1) rest) as [b2 k].
      simpl in IH |- *. rewrite Hsize in IH.
      rewrite Nat2Z.inj_succ, IH; [| done | apply Z.divide_0_r | lia | done].
      replace (Z.of_nat (length (AudioBuffer.buffer b)) + s * (1 + Z.of_nat (length rest)))
        with (1 * AudioBuffer.buffer_size b + (0 + s * Z.of_nat (length rest))) by lia.
      rewrite Z.div_add_l by lia. lia.
    + specialize (IH b1). rewrite Hsize, Hlen in IH.
      rewrite IH; [| done | | lia | done].
      * f_equal. lia.
      * rewrite Z.min_l by lia. by apply Z.divide_add_r.
Qed.

(** C9, as the code has it: [add_frame] returns [True] exactly when the
    samples added since the last [clear] reach the capacity, whatever the
    batching, so it never fires early and, without a [clear], the flags
    depend on the cumulative count alone; a fresh default buffer has
    capacity 24000.  When every batch has the same size and that size
    divides the capacity (one sample at a time in particular), clearing after
    each full window makes the window ready exactly once per 24000 samples. *)
Theorem add_frame_ready_at_capacity
    (b : AudioBuffer.t) (xs : list Q) (batches : list (list Q)) (s : Z)
    (Hwf : AudioBuffer.wf b) (Hs : 0 < s) (Hdiv : (s | 24000))
    (Hall : Forall (fun ys => Z.of_nat (length ys) = s) batches) :
  snd (AudioBuffer.add_frame b xs)
  = (AudioBuffer.buffer_size b
     <=? Z.of_nat (length (AudioBuffer.buffer b)) + Z.of_nat (length xs)) /\
  (forall parts : list (list Q),
      snd (AudioBuffer.feed AudioBuffer.default parts)
      = map (fun c => 24000 <=? c) (AudioBuffer.cumulative 0 parts)) /\
  Z.of_nat (snd (AudioBuffer.feed_windows AudioBuffer.default batches))
  = AudioBuffer.total batches / 24000.
Proof.
  split; [by apply add_frame_flag|]. split.
  - intros parts. apply (feed_flags parts AudioBuffer.default 0 default_wf); simpl; lia.
  - rewrite (total_uniform s) by done.
    rewrite (feed_windows_uniform s batches AudioBuffer.default); try done.
    apply Z.divide_0_r.
Qed.

Lemma add_frame_ready_at_capacity_witness :
  AudioBuffer.wf AudioBuffer.default /\ 0 < 1 /\ (1 | 24000) /\
  Forall (fun ys => Z.of_nat (length ys) = 1) [[0%Q]; [1%Q]] /\
  snd (AudioBuffer.add_frame AudioBuffer.default [0%Q]) = false /\
  Z.of_nat (snd (AudioBuffer.feed_windows AudioBuffer.default [[0%Q]; [1%Q]])) = 0.
Proof.
  assert (Hall : Forall (fun ys => Z.of_nat (length ys) = 1) [[0%Q]; [1%Q]])
    by (repeat constructor).
  assert (Hdiv : (1 | 24000)) by (exists 24000; reflexivity).
  pose proof (add_frame_ready_at_capacity AudioBuffer.default [0%Q] [[0%Q]; [1%Q]] 1
                default_wf eq_refl Hdiv Hall) as (H1 & _ & H3).
  split; [exact default_wf|]. split; [exact eq_refl|]. split; [exact Hdiv|].
  split; [exact Hall|]. split; [exact H1 | exact H3].
Defined.

(** C9 as stated fails when a batch runs past the capacity: a single batch of
    24001 samples makes the buffer ready at the count 24001, and 48000
    samples make it ready twice when fed one at a time but only once when fed
    as one batch, the surplus being discarded by the [clear]. *)
Lemma add_frame_batch_overshoot :
  let samples := replicate (Z.to_nat 48000) 0%Q in
  snd (AudioBuffer.feed_windows AudioBuffer.default (map (fun x => [x]) samples)) = 2%nat /\
  snd (AudioBuffer.feed_windows AudioBuffer.default [samples]) = 1%nat /\
  AudioBuffer.total [samples] / 24000 = 2 /\
  AudioBuffer.first_ready AudioBuffer.default [replicate (Z.to_nat 24001) 0%Q]
  = Some 24001 /\
  ~ (forall batches : list (list Q),
        Z.of_nat (snd (AudioBuffer.feed_windows AudioBuffer.default batches))
        = AudioBuffer.total batches / 24000).
Proof.
  intros samples.
  assert (Hlen : Z.of_nat (length samples) = 48000).
  { unfold samples. rewrite length_replicate. apply Z2Nat.id. lia. }
  clearbody samples.
  assert (Hbatch : snd (AudioBuffer.feed_windows AudioBuffer.default [samples]) = 1%nat).
  { cbn [AudioBuffer.feed_windows].
    pose proof (add_frame_flag AudioBuffer.default samples default_wf) as Hflag.
    destruct (AudioBuffer.add_frame AudioBuffer.default samples) as [b1 full].
    rewrite Hlen in Hflag. simpl in Hflag. subst full. reflexivity. }
  assert (Htotal : AudioBuffer.total [samples] / 24000 = 2).
  { unfold AudioBuffer.total. simpl concat. rewrite app_nil_r, Hlen. reflexivity. }
  split; [|split; [exact Hbatch|split; [exact Htotal|split]]].
  - apply Nat2Z.inj.
    rewrite (feed_windows_uniform 1).
    + rewrite length_map, Hlen. reflexivity.
    + lia.
    + exists 24000; reflexivity.
    + exists 0; reflexivity.
    + simpl; lia.
    + apply List.Forall_forall. intros ys Hys. apply in_map_iff in Hys as (y & <- & _).
      reflexivity.
  - unfold AudioBuffer.first_ready.
    set (one := replicate (Z.to_nat 24001) 0%Q).
    assert (Hone : Z.of_nat (length one) = 24001).
    { unfold one. rewrite length_replicate. apply Z2Nat.id. lia. }
    clearbody one.
    rewrite (feed_flags _ AudioBuffer.default 0 default_wf) by (simpl; lia).
    cbn [AudioBuffer.cumulative]. rewrite Hone. reflexivity.
  - intros Hall. specialize (Hall [samples]).
    rewrite Hbatch, Htotal in Hall. discriminate.
Qed.

(** ** The feature dictionary *)

Lemma keys_set (k : string) (v : Q) (d : PyDict.t) :
  PyDict.keys (PyDict.set k v d) = add_key k (PyDict.keys d).
Proof.
  unfold add_key. induction d as [|[k' v'] d IH]; simpl; [done|].
  destruct (String.eqb_spec k k') as [->|Hne].
  - rewrite bool_decide_eq_true_2 by left. done.
  - simpl. rewrite IH. unfold PyDict.keys.
    destruct (decide (k ∈ map fst d)) as [Hin|Hout].
    + rewrite !bool_decide_eq_true_2; [done | by right | done].
    + rewrite !bool_decide_eq_false_2; [done | | done].
      intros [?|?]%elem_of_cons; done.
Qed.

Lemma add_key_mono (k k' : string) (ks : list string) : k ∈ ks -> k ∈ add_key k' ks.
Proof. unfold add_key. case_bool_decide; set_solver. Qed.

Lemma add_key_in (k : string) (ks : list string) : k ∈ add_key k ks.
Proof. unfold add_key. case_bool_decide; set_solver. Qed.

Lemma add_keys_mono (new ks : list string) (k : string) : k ∈ ks -> k ∈ add_keys new ks.
Proof.
  revert ks. induction new as [|k' new IH]; intros ks Hk; simpl; [done|].
  apply IH. by apply add_key_mono.
Qed.

Lemma add_keys_in (new ks : list string) (k : string) : k ∈ new -> k ∈ add_keys new ks.
Proof.
  revert ks. induction new as [|k' new IH]; intros ks Hk; simpl.
  - by apply elem_of_nil in Hk.
  - apply elem_of_cons in Hk as [->|Hk]; [|by apply IH].
    apply add_keys_mono, add_key_in.
Qed.

Lemma add_keys_absorb (new ks : list string) :
  (forall k, k ∈ new -> k ∈ ks) -> add_keys new ks = ks.
Proof.
  induction new as [|k new IH]; intros Hall; simpl; [done|].
  unfold add_key. rewrite bool_decide_eq_true_2 by (apply Hall; left).
  apply IH. intros k' Hk'. apply Hall. by right.
Qed.

Lemma add_keys_app (p q ks : list string) :
  add_keys (p ++ q) ks = add_keys q (add_keys p ks).
Proof. apply fold_left_app. Qed.

(** Assigning a prefix of the keys first does not change where they end up. *)
Lemma add_keys_prefix (pre new ks : list string) :
  pre `prefix_of` new -> add_keys new (add_keys pre ks) = add_keys new ks.
Proof.
  intros [suf ->]. rewrite !add_keys_app. f_equal.
  apply add_keys_absorb. intros k Hk. by apply add_keys_in.
Qed.

Section Writes.
Import FeatureExtractor.

Lemma writes_ret {A} (a : A) : writes (ret a) [].
Proof. intros d. reflexivity. Qed.

Lemma writes_call {A} (r : option A) : writes (call r) [].
Proof. intros d. unfold call. destruct r; [done|]. exists []. done. Qed.

Lemma writes_assign (k : string) (v : Q) : writes (assign k v) [k].
Proof. intros d. apply keys_set. Qed.

Lemma writes_bind {A B} (m : block A) (f : A -> block B) (p q r : list string) :
  writes m p -> (forall a, writes (f a) q) -> p ++ q = r -> writes (bind m f) r.
Proof.
  intros Hm Hf <- d. unfold bind. specialize (Hm d).
  destruct (m d) as [d1 [a|]].
  - specialize (Hf a d1). destruct (f a d1) as [d2 [b|]].
    + by rewrite Hf, Hm, add_keys_app.
    + destruct Hf as (pre & Hpre & ->). exists (p ++ pre). split.
      * by apply prefix_app.
      * by rewrite Hm, add_keys_app.
  - destruct Hm as (pre & Hpre & ->). exists pre. split; [|done].
    by apply prefix_app_r.
Qed.

Lemma writes_if {A} (c : bool) (m1 m2 : block A) (ks : list string) :
  writes m1 ks -> writes m2 ks -> writes (if c then m1 else m2) ks.
Proof. by destruct c. Qed.

Lemma writes_for_range (body : nat -> block unit) (f : nat -> list string)
    (range : list nat) :
  (forall i, writes (body i) (f i)) -> writes (for_range body range) (flat_map f range).
Proof.
  intros Hbody. induction range as [|i range IH]; simpl.
  - apply writes_ret.
  - by eapply writes_bind.
Qed.

(** A [try] whose handler assigns all the keys of its body leaves the keys
    in the same order whether or not the body raises, and wherever. *)
Lemma try_except_keys (body : block unit) (handler : PyDict.t -> PyDict.t)
    (ks : list string) (d : PyDict.t) :
  writes body ks ->
  (forall d', PyDict.keys (handler d') = add_keys ks (PyDict.keys d')) ->
  PyDict.keys (try_except body handler d) = add_keys ks (PyDict.keys d).
Proof.
  intros Hbody Hhandler. unfold try_except. specialize (Hbody d).
  destruct (body d) as [d' [[]|]]; [done|].
  destruct Hbody as (pre & Hpre & Hkeys).
  by rewrite Hhandler, Hkeys, add_keys_prefix.
Qed.
End Writes.

Lemma keys_update (kvs d : PyDict.t) :
  PyDict.keys (PyDict.update kvs d) = add_keys (map fst kvs) (PyDict.keys d).
Proof.
  unfold PyDict.update. revert d.
  induction kvs as [|[k v] kvs IH]; intros d; simpl; [done|].
  by rewrite IH, keys_set.
Qed.

Lemma keys_mfcc_zeros (range : list nat) (d : PyDict.t) :
  PyDict.keys
    (fold_left (fun features i =>
                  PyDict.set (FeatureExtractor.mfcc_std_key i) 0%Q
                    (PyDict.set (FeatureExtractor.mfcc_mean_key i) 0%Q features))
               range d)
  = add_keys
      (flat_map (fun i => [FeatureExtractor.mfcc_mean_key i; FeatureExtractor.mfcc_std_key i])
                range)
      (PyDict.keys d).
Proof.
  revert d. induction range as [|i range IH]; intros d; simpl; [done|].
  by rewrite IH, !keys_set.
Qed.

Ltac solve_writes :=
  cbv zeta;
  lazymatch goal with
  | |- writes (FeatureExtractor.bind _ _) _ =>
      eapply writes_bind; [solve_writes | intros ?; solve_writes | reflexivity]
  | |- writes (FeatureExtractor.call _) _ => apply writes_call
  | |- writes (FeatureExtractor.assign _ _) _ => apply writes_assign
  | |- writes (FeatureExtractor.ret _) _ => apply writes_ret
  | |- writes (if _ then _ else _) _ => apply writes_if; solve_writes
  | |- writes (FeatureExtractor.for_range _ _) _ =>
      eapply (writes_for_range _
                (fun i => [FeatureExtractor.mfcc_mean_key i;
                           FeatureExtractor.mfcc_std_key i]));
      intros ?; solve_writes
  end.

Section ExtractKeys.
Context `{L : Librosa}.
Import FeatureExtractor.

Lemma f0_block_keys (audio : list Q) (d : PyDict.t) :
  PyDict.keys (f0_block audio d) = add_keys f0_keys (PyDict.keys d).
Proof.
  apply try_except_keys.
  - solve_writes.
  - intros d'. unfold f0_zeros. by rewrite !keys_set.
Qed.

Lemma spectral_block_keys (audio : list Q) (d : PyDict.t) :
  PyDict.keys (spectral_block audio d) = add_keys spectral_keys (PyDict.keys d).
Proof.
  apply try_except_keys.
  - solve_writes.
  - intros d'. unfold spectral_zeros.
    by rewrite keys_mfcc_zeros, keys_update, <- add_keys_app.
Qed.

Lemma energy_block_keys (audio : list Q) (d : PyDict.t) :
  PyDict.keys (energy_block audio d) = add_keys energy_keys (PyDict.keys d).
Proof.
  apply try_except_keys.
  - solve_writes.
  - intros d'. unfold energy_zeros. by rewrite keys_update.
Qed.

(** Whatever the library calls return or raise, the three blocks leave the
    38 keys in extraction order. *)
Lemma extract_blocks_keys (audio : list Q) :
  PyDict.keys (extract_blocks audio) = extraction_order.
Proof.
  unfold extract_blocks.
  rewrite energy_block_keys, spectral_block_keys, f0_block_keys.
  vm_compute. reflexivity.
Qed.
End ExtractKeys.

Lemma zero_features_keys :
  PyDict.keys FeatureExtractor._get_zero_features = zero_order.
Proof. vm_compute. reflexivity. Qed.

Lemma zero_features_values :
  PyDict.values FeatureExtractor._get_zero_features = replicate 38 0%Q.
Proof. vm_compute. reflexivity. Qed.

(** The guard of [extract_basic_features] decides the order of the keys. *)
Lemma extract_basic_features_keys `{L : Librosa} (audio : list Q) :
  PyDict.keys (FeatureExtractor.extract_basic_features audio)
  = if FeatureExtractor.silent audio then zero_order else extraction_order.
Proof.
  unfold FeatureExtractor.extract_basic_features.
  destruct (FeatureExtractor.silent audio) eqn:Hs; [apply zero_features_keys|].
  destruct audio as [|x audio]; [discriminate|]. simpl.
  apply extract_blocks_keys.
Qed.

(** C1 fails on the code: both paths of [extract_basic_features] produce the
    same 38 keys, but not in the same order.  A window that passes the guard
    is filled in extraction order whatever the library calls do, with the
    cepstral features at positions 8 to 33 and the energy features last; the
    zero vector of [_get_zero_features], returned for an empty or all-zero
    window, has the energy features at positions 8 to 11 and the cepstral
    features last.  [list(features.values())] therefore puts different
    features at the same position of a history row. *)
Theorem zero_features_order_differs `{L : Librosa} (audio : list Q) :
  PyDict.keys (FeatureExtractor.extract_basic_features audio)
  = (if FeatureExtractor.silent audio then zero_order else extraction_order) /\
  FeatureExtractor.silent [0; 0; 0]%Q = true /\
  FeatureExtractor.silent [1 # 2; - (1 # 4)]%Q = false /\
  length zero_order = 38%nat /\ length extraction_order = 38%nat /\
  zero_order ≡ₚ extraction_order /\
  extraction_order !! 8%nat = Some "mfcc_0_mean" /\
  zero_order !! 8%nat = Some "rms_mean" /\
  PyDict.keys (FeatureExtractor.extract_basic_features [0; 0; 0]%Q)
  <> PyDict.keys (FeatureExtractor.extract_basic_features [1 # 2; - (1 # 4)]%Q).
Proof.
  split; [apply extract_basic_features_keys|].
  repeat split; try reflexivity.
  - unfold zero_order, extraction_order, spectral_keys.
    apply Permutation_app; [done|]. rewrite <- app_assoc.
    apply Permutation_app; [done|]. apply Permutation_app_comm.
  - rewrite !extract_basic_features_keys. simpl. discriminate.
Qed.

(** Audio that went through the decoder never takes the zero path: a
    decoded sample is at least 132/32768 in magnitude. *)
Lemma decoded_window_not_silent (bs : list byte) :
  bs <> [] -> FeatureExtractor.silent (Mulaw.decode_mulaw bs) = false.
Proof.
  rewrite decode_mulaw_map. destruct bs as [|b bs]; [done|]. intros _.
  unfold FeatureExtractor.silent. simpl. by rewrite decode_sample_nonzero.
Qed.

(** ** History, scoring and the risk states *)

Section RiskFacts.
Context `{S : Sklearn}.
Import RiskAssessment.
Implicit Types (self : t) (pid : string) (features : PyDict.t).

(** The slice [l[-100:]]. *)
Lemma append_history_lookup self pid features :
  history (append_history self pid features) pid
  = drop (length (history self pid ++ [PyDict.values features]) - 100)
         (history self pid ++ [PyDict.values features]).
Proof.
  unfold append_history, history at 1; simpl. rewrite lookup_insert_eq; simpl.
  destruct (Nat.ltb_spec 100 (length (history self pid ++ [PyDict.values features])))
    as [Hgt|Hle]; [done|].
  replace (length (history self pid ++ [PyDict.values features]) - 100)%nat
    with 0%nat by lia. done.
Qed.

Lemma append_history_other self pid features (other : string) :
  pid <> other ->
  feature_history (append_history self pid features) !! other
  = feature_history self !! other.
Proof. intros Hne. unfold append_history; simpl. by rewrite lookup_insert_ne. Qed.

Lemma fit_and_score_history self pid :
  feature_history (fst (fit_and_score self pid)) = feature_history self.
Proof.
  unfold fit_and_score.
  destruct (np_array _) as [X|]; [|done].
  destruct (fit_transform _ X) as [sc [Xs|]]; [|done].
  destruct (fit _ Xs) as [fo [[]|]]; [|done].
  by destruct (decision_function fo _).
Qed.

Lemma fit_and_score_min_samples self pid :
  min_samples (fst (fit_and_score self pid)) = min_samples self.
Proof.
  unfold fit_and_score.
  destruct (np_array _) as [X|]; [|done].
  destruct (fit_transform _ X) as [sc [Xs|]]; [|done].
  destruct (fit _ Xs) as [fo [[]|]]; [|done].
  by destruct (decision_function fo _).
Qed.

(** Fitting touches the scaler and the model of this patient only. *)
Lemma fit_and_score_other self pid (other : string) :
  pid <> other ->
  scalers (fst (fit_and_score self pid)) !! other = scalers self !! other /\
  models (fst (fit_and_score self pid)) !! other = models self !! other.
Proof.
  intros Hne. unfold fit_and_score.
  destruct (np_array _) as [X|]; [|done].
  destruct (fit_transform _ X) as [sc [Xs|]]; simpl;
    [|by rewrite lookup_insert_ne].
  destruct (fit _ Xs) as [fo [[]|]]; simpl;
    [|by rewrite !lookup_insert_ne].
  destruct (decision_function fo _); simpl; by rewrite !lookup_insert_ne.
Qed.

Lemma update_feature_history self pid features :
  feature_history (fst (update_patient_model self pid features))
  = feature_history (append_history self pid features).
Proof.
  unfold update_patient_model.
  destruct (_ <? _); [done|].
  pose proof (fit_and_score_history (append_history self pid features) pid) as H.
  by destruct (fit_and_score _ pid) as [self' [raw|]].
Qed.

Lemma update_min_samples self pid features :
  min_samples (fst (update_patient_model self pid features)) = min_samples self.
Proof.
  unfold update_patient_model.
  destruct (_ <? _); [done|].
  pose proof (fit_and_score_min_samples (append_history self pid features) pid) as H.
  by destruct (fit_and_score _ pid) as [self' [raw|]].
Qed.

(** The history after a call, whatever its status. *)
Lemma update_history self pid features :
  history (fst (update_patient_model self pid features)) pid
  = drop (length (history self pid ++ [PyDict.values features]) - 100)
         (history self pid ++ [PyDict.values features]).
Proof.
  rewrite <- append_history_lookup. unfold history.
  by rewrite update_feature_history.
Qed.

Lemma update_history_length self pid features :
  length (history (fst (update_patient_model self pid features)) pid)
  = Nat.min 100 (length (history self pid) + 1).
Proof. rewrite update_history, length_drop, length_app. cbn [length]. lia. Qed.

Lemma drop_last_app {A} (k : nat) (a b : list A) :
  drop (length (drop (length a - k) a ++ b) - k) (drop (length a - k) a ++ b)
  = drop (length (a ++ b) - k) (a ++ b).
Proof.
  destruct (Nat.le_gt_cases (length a) k) as [Hle|Hgt].
  - replace (length a - k)%nat with 0%nat by lia. done.
  - rewrite !length_app, length_drop.
    replace (length a - (length a - k) + length b - k)%nat with (length b) by lia.
    replace (length a + length b - k)%nat with ((length a - k) + length b)%nat by lia.
    rewrite <- drop_drop. f_equal. rewrite drop_app_le by lia. done.
Qed.

Lemma update_many_history (windows : list PyDict.t) self pid :
  (length (history self pid) <= 100)%nat ->
  history (update_many self pid windows) pid
  = drop (length (history self pid ++ map PyDict.values windows) - 100)
         (history self pid ++ map PyDict.values windows).
Proof.
  unfold update_many. revert self.
  induction windows as [|w windows IH]; intros self Hlen.
  - cbn [fold_left map]. rewrite app_nil_r.
    replace (length (history self pid) - 100)%nat with 0%nat by lia. done.
  - cbn [fold_left map]. rewrite IH.
    + rewrite update_history, drop_last_app, <- app_assoc. done.
    + rewrite update_history_length. lia.
Qed.

Lemma init_history (c : Q) pid : history (init c) pid = [].
Proof. unfold history, init; simpl. by rewrite lookup_empty. Qed.

Lemma update_other self pid features (other : string) :
  pid <> other ->
  feature_history (fst (update_patient_model self pid features)) !! other
  = feature_history self !! other /\
  scalers (fst (update_patient_model self pid features)) !! other
  = scalers self !! other /\
  models (fst (update_patient_model self pid features)) !! other
  = models self !! other.
Proof.
  intros Hne. split.
  - by rewrite update_feature_history, append_history_other.
  - unfold update_patient_model.
    destruct (_ <? _); [done|].
    pose proof (fit_and_score_other (append_history self pid features) pid other Hne)
      as [Hs Hm].
    by destruct (fit_and_score _ pid) as [self' [raw|]].
Qed.
End RiskFacts.

(** *** The clamp *)

Lemma Qltb_lt (x y : Q) : FeatureExtractor.Qltb x y = true <-> (x < y)%Q.
Proof.
  unfold FeatureExtractor.Qltb. rewrite negb_true_iff.
  split.
  - intros H. apply Qnot_le_lt. intros Hle. apply Qle_bool_iff in Hle. congruence.
  - intros H. destruct (Qle_bool y x) eqn:E; [|done].
    apply Qle_bool_iff in E. exfalso. by apply (Qlt_not_le x y).
Qed.

Lemma Qltb_ge (x y : Q) : FeatureExtractor.Qltb x y = false <-> (y <= x)%Q.
Proof.
  unfold FeatureExtractor.Qltb. rewrite negb_false_iff. apply Qle_bool_iff.
Qed.

Lemma py_clamp_eq (x : Q) : (py_max 0 (py_min 1 x) == clamp x 0 1)%Q.
Proof.
  unfold py_max, py_min, clamp.
  destruct (FeatureExtractor.Qltb x 1) eqn:H1;
    destruct (FeatureExtractor.Qltb x 0) eqn:H0;
    destruct (FeatureExtractor.Qltb 1 x) eqn:H2;
    destruct (FeatureExtractor.Qltb 0 x) eqn:H3;
    try reflexivity;
    repeat match goal with
           | H : FeatureExtractor.Qltb _ _ = true |- _ => apply Qltb_lt in H
           | H : FeatureExtractor.Qltb _ _ = false |- _ => apply Qltb_ge in H
           end;
    try (apply Qle_antisym; assumption);
    exfalso; lra.
Qed.

Lemma py_clamp_range (x : Q) : (0 <= py_max 0 (py_min 1 x) <= 1)%Q.
Proof.
  unfold py_max, py_min.
  destruct (FeatureExtractor.Qltb x 1) eqn:H1.
  - destruct (FeatureExtractor.Qltb 0 x) eqn:H0.
    + apply Qltb_lt in H1, H0. split; lra.
    + split; lra.
  - simpl. split; lra.
Qed.

Lemma risk_of_score_range (raw : Q) :
  (0 <= RiskAssessment.risk_of_score raw <= 1)%Q.
Proof. apply py_clamp_range. Qed.

Section RiskTheorems.
Context `{S : Sklearn}.
Import RiskAssessment.

(** The status and the risk of a call, by cases. *)
Lemma update_result (self : t) (pid : string) (features : PyDict.t) :
  let appended := append_history self pid features in
  snd (update_patient_model self pid features)
  = if Z.of_nat (length (history appended pid)) <? min_samples self
    then (0%Q, "warming_up")
    else match snd (fit_and_score appended pid) with
         | Some raw => (risk_of_score raw, "ok")
         | None => (0%Q, "error")
         end.
Proof.
  unfold update_patient_model; simpl.
  destruct (_ <? _); [done|].
  by destruct (fit_and_score _ pid) as [self' [raw|]].
Qed.

Lemma update_risk_range (self : t) (pid : string) (features : PyDict.t) :
  (0 <= fst (snd (update_patient_model self pid features)) <= 1)%Q.
Proof.
  rewrite update_result. simpl.
  destruct (_ <? _); [simpl; lra|].
  destruct (snd (fit_and_score _ pid)); simpl; [apply risk_of_score_range | lra].
Qed.
End RiskTheorems.

(** C5: after every call of [update_patient_model] the history of the
    patient has at most 100 rows, and appending 101 vectors to an empty
    history leaves exactly the last 100 in their original order; in general
    the history holds the most recent 100 of the vectors appended, the oldest
    being dropped from the front. *)
Theorem history_bounded_fifo `{S : Sklearn} (self : RiskAssessment.t) (pid : string)
    (features : PyDict.t) (c : Q) (windows : list PyDict.t)
    (Hlen : length windows = 101%nat) :
  (length (RiskAssessment.history
             (fst (RiskAssessment.update_patient_model self pid features)) pid)
   <= 100)%nat /\
  RiskAssessment.history (RiskAssessment.update_many (RiskAssessment.init c) pid windows) pid
  = tail (map PyDict.values windows) /\
  (forall ws : list PyDict.t,
      RiskAssessment.history (RiskAssessment.update_many (RiskAssessment.init c) pid ws) pid
      = drop (length ws - 100) (map PyDict.values ws)).
Proof.
  split; [rewrite update_history_length; lia|].
  assert (Hgen : forall ws : list PyDict.t,
             RiskAssessment.history
               (RiskAssessment.update_many (RiskAssessment.init c) pid ws) pid
             = drop (length ws - 100) (map PyDict.values ws)).
  { intros ws. rewrite update_many_history; rewrite init_history; [|simpl; lia].
    by rewrite app_nil_l, length_map. }
  split; [|exact Hgen].
  rewrite Hgen, Hlen. replace (101 - 100)%nat with 1%nat by lia.
  by destruct (map PyDict.values windows).
Qed.

Lemma history_bounded_fifo_witness :
  let windows := map (fun i => [("f0_mean", inject_Z (Z.of_nat i))]) (seq 0 101) in
  length windows = 101%nat /\
  @RiskAssessment.history Demo.sklearn
    (RiskAssessment.update_many (RiskAssessment.init (1 # 10)) "p" windows) "p"
  = tail (map PyDict.values windows).
Proof.
  intros windows. split; [reflexivity|].
  apply (@history_bounded_fifo Demo.sklearn (RiskAssessment.init (1 # 10)) "p"
           (Demo.window 0) (1 # 10) windows eq_refl).
Defined.

Lemma demo_run :
  length (RiskAssessment.history demo_warm "p") = 9%nat /\
  RiskAssessment.min_samples demo_warm = 10 /\
  snd demo_fault = (0%Q, "error") /\
  length (RiskAssessment.history (fst demo_fault) "p") = 10%nat /\
  snd demo_next = ((1 # 2)%Q, "ok") /\
  length (RiskAssessment.history (fst demo_next) "p") = 11%nat /\
  snd (RiskAssessment.fit_and_score
         (RiskAssessment.append_history demo_warm "p" (Demo.window (-1))) "p") = None.
Proof. vm_compute. repeat split. Qed.

(** C3: with [min_samples] at its value 10, a call of [update_patient_model]
    returns risk 0.0 and "warming_up" while the history, the new vector
    included, has fewer than 10 rows, whatever the vector; from 10 rows on it
    returns "ok" with the clamped score when scaling, fitting and scoring
    succeed, and risk 0.0 with "error" when any of them raises.  Nothing of
    the status is kept in the state: on the demonstration backend a window
    that returns "error" is followed by one that returns "ok". *)
Theorem risk_state_machine `{S : Sklearn} (self : RiskAssessment.t) (pid : string)
    (features : PyDict.t) (Hmin : RiskAssessment.min_samples self = 10) :
  let appended := RiskAssessment.append_history self pid features in
  let n := Z.of_nat (length (RiskAssessment.history appended pid)) in
  let result := snd (RiskAssessment.update_patient_model self pid features) in
  (n < 10 -> result = (0%Q, "warming_up")) /\
  (10 <= n -> forall raw : Q,
      snd (RiskAssessment.fit_and_score appended pid) = Some raw ->
      result = (RiskAssessment.risk_of_score raw, "ok")) /\
  (10 <= n -> snd (RiskAssessment.fit_and_score appended pid) = None ->
      result = (0%Q, "error")) /\
  RiskAssessment.history
    (fst (RiskAssessment.update_patient_model self pid features)) pid
  = RiskAssessment.history appended pid /\
  RiskAssessment.min_samples
    (fst (RiskAssessment.update_patient_model self pid features)) = 10 /\
  (snd demo_fault = (0%Q, "error") /\ snd demo_next = ((1 # 2)%Q, "ok")).
Proof.
  intros appended n result. unfold result. rewrite update_result, Hmin.
  fold appended. fold n.
  split; [|split; [|split; [|split; [|split]]]].
  - intros Hn. by rewrite (proj2 (Z.ltb_lt n 10) Hn).
  - intros Hn raw Hraw. rewrite (proj2 (Z.ltb_ge n 10) Hn). by rewrite Hraw.
  - intros Hn Hraw. rewrite (proj2 (Z.ltb_ge n 10) Hn). by rewrite Hraw.
  - unfold RiskAssessment.history. by rewrite update_feature_history.
  - by rewrite update_min_samples.
  - split; apply demo_run.
Qed.

Lemma risk_state_machine_witness :
  let fresh := @RiskAssessment.init Demo.sklearn (1 # 10) in
  let appended x := RiskAssessment.append_history (fst demo_fault) "p" (Demo.window x) in
  (RiskAssessment.min_samples fresh = 10 /\
   snd (RiskAssessment.update_patient_model fresh "p" (Demo.window 1))
   = (0%Q, "warming_up")) /\
  (RiskAssessment.min_samples (fst demo_fault) = 10 /\
   snd (RiskAssessment.fit_and_score (appended 0%Q) "p") = Some 0%Q /\
   snd (RiskAssessment.update_patient_model (fst demo_fault) "p" (Demo.window 0))
   = (RiskAssessment.risk_of_score 0, "ok")) /\
  (RiskAssessment.min_samples demo_warm = 10 /\
   snd (RiskAssessment.fit_and_score
          (RiskAssessment.append_history demo_warm "p" (Demo.window (-1))) "p") = None /\
   snd (RiskAssessment.update_patient_model demo_warm "p" (Demo.window (-1)))
   = (0%Q, "error")).
Proof.
  intros fresh appended.
  assert (Hmin0 : RiskAssessment.min_samples fresh = 10) by reflexivity.
  assert (Hmin1 : RiskAssessment.min_samples (fst demo_fault) = 10)
    by (vm_compute; reflexivity).
  assert (Hmin2 : RiskAssessment.min_samples demo_warm = 10) by (vm_compute; reflexivity).
  assert (Hn0 : Z.of_nat (length (RiskAssessment.history
                  (RiskAssessment.append_history fresh "p" (Demo.window 1)) "p")) < 10)
    by (vm_compute; reflexivity).
  assert (Hn1 : 10 <= Z.of_nat (length (RiskAssessment.history (appended 0%Q) "p")))
    by (vm_compute; discriminate).
  assert (Hn2 : 10 <= Z.of_nat (length (RiskAssessment.history
                  (RiskAssessment.append_history demo_warm "p" (Demo.window (-1))) "p")))
    by (vm_compute; discriminate).
  assert (Hraw1 : snd (RiskAssessment.fit_and_score (appended 0%Q) "p") = Some 0%Q)
    by (vm_compute; reflexivity).
  assert (Hraw2 : snd (RiskAssessment.fit_and_score
                    (RiskAssessment.append_history demo_warm "p" (Demo.window (-1))) "p")
                  = None) by (vm_compute; reflexivity).
  split; [|split].
  - split; [exact Hmin0|].
    exact (proj1 (@risk_state_machine Demo.sklearn fresh "p" (Demo.window 1) Hmin0) Hn0).
  - split; [exact Hmin1|]. split; [exact Hraw1|].
    exact (proj1 (proj2 (@risk_state_machine Demo.sklearn (fst demo_fault) "p"
                           (Demo.window 0) Hmin1)) Hn1 0%Q Hraw1).
  - split; [exact Hmin2|]. split; [exact Hraw2|].
    exact (proj1 (proj2 (proj2 (@risk_state_machine Demo.sklearn demo_warm "p"
                                  (Demo.window (-1)) Hmin2))) Hn2 Hraw2).
Defined.

(** C4: the risk of an "ok" result is [max(0.0, min(1.0, (0.5 - raw) / 1.0))]
    of the raw score of this call, which is the clamp of [(0.5 - raw) / 1.0]
    to [0, 1]: raw scores 0.5, -0.5 and 1.5 give 0, 1 and 0, and every raw
    score, and every result of [update_patient_model], gives a risk within
    [0, 1]. *)
Theorem risk_score_affine_clamp `{S : Sklearn} (self : RiskAssessment.t) (pid : string)
    (features : PyDict.t) (raw : Q)
    (Hok : snd (snd (RiskAssessment.update_patient_model self pid features)) = "ok") :
  (exists raw' : Q,
      snd (RiskAssessment.fit_and_score
             (RiskAssessment.append_history self pid features) pid) = Some raw' /\
      fst (snd (RiskAssessment.update_patient_model self pid features))
      = RiskAssessment.risk_of_score raw') /\
  (RiskAssessment.risk_of_score raw == clamp (((1 # 2) - raw) / 1) 0 1)%Q /\
  RiskAssessment.risk_of_score (1 # 2) = 0%Q /\
  RiskAssessment.risk_of_score (- (1 # 2)) = 1%Q /\
  RiskAssessment.risk_of_score (3 # 2) = 0%Q /\
  (0 <= RiskAssessment.risk_of_score raw <= 1)%Q /\
  (0 <= fst (snd (RiskAssessment.update_patient_model self pid features)) <= 1)%Q.
Proof.
  split.
  - rewrite update_result in Hok |- *. simpl in Hok |- *.
    destruct (_ <? _); [discriminate|].
    destruct (snd (RiskAssessment.fit_and_score _ pid)) as [raw'|]; [|discriminate].
    by exists raw'.
  - repeat split; try reflexivity.
    + apply py_clamp_eq.
    + apply risk_of_score_range.
    + apply risk_of_score_range.
    + apply update_risk_range.
    + apply update_risk_range.
Qed.

Lemma risk_score_affine_clamp_witness :
  snd (snd (RiskAssessment.update_patient_model (fst demo_fault) "p" (Demo.window 0)))
  = "ok" /\
  exists raw' : Q,
    snd (RiskAssessment.fit_and_score
           (RiskAssessment.append_history (fst demo_fault) "p" (Demo.window 0)) "p")
    = Some raw' /\
    fst (snd (RiskAssessment.update_patient_model (fst demo_fault) "p" (Demo.window 0)))
    = RiskAssessment.risk_of_score raw'.
Proof.
  assert (Hok : snd (snd (RiskAssessment.update_patient_model (fst demo_fault) "p"
                            (Demo.window 0))) = "ok") by (vm_compute; reflexivity).
  split; [exact Hok|].
  exact (proj1 (@risk_score_affine_clamp Demo.sklearn (fst demo_fault) "p"
                  (Demo.window 0) 0%Q Hok)).
Defined.

(** ** The message loop *)

Section ServiceFacts.
Context `{L : Librosa} `{S : Sklearn} `{B : Base64}.
Import BiomarkerService.
Implicit Types (self : t) (id : string) (message : Message.t).

(** [buffer_and_assess] in terms of the buffer and the session record the
    call works on: the stored ones, or fresh ones for an unseen id. *)
Lemma buffer_and_assess_eq (time_ : Q) self id (audio_data : list Q) (ts : option Q) :
  wf self ->
  let buffer := default AudioBuffer.default (audio_buffers self !! id) in
  let session := default (Session.mk time_ 0 0) (active_sessions self !! id) in
  let added := AudioBuffer.add_frame buffer audio_data in
  let session1 :=
    Session.mk (Session.start_time session)
               (Session.frame_count session + Z.of_nat (length audio_data))
               (Session.last_risk session) in
  buffer_and_assess time_ self id audio_data ts
  = if snd added then
      let result :=
        RiskAssessment.update_patient_model (risk_assessment self) id
          (FeatureExtractor.extract_basic_features (AudioBuffer.get_buffer (fst added))) in
      (mk (host self) (port self) (fst result)
          (<[id := AudioBuffer.clear (fst added)]> (audio_buffers self))
          (<[id := Session.mk (Session.start_time session1)
                              (Session.frame_count session1) (fst (snd result))]>
             (active_sessions self)),
       Some (Risk.mk "risk" (fst (snd result)) (snd (snd result))
               (Z.of_nat (length (RiskAssessment.history (fst result) id)))
               id (default time_ ts)))
    else
      (mk (host self) (port self) (risk_assessment self)
          (<[id := fst added]> (audio_buffers self))
          (<[id := session1]> (active_sessions self)),
       None).
Proof.
  intros Hwf buffer session added session1. unfold buffer_and_assess.
  specialize (Hwf id).
  destruct (audio_buffers self !! id) as [b|] eqn:Hb.
  - destruct Hwf as (_ & _ & [s Hs]).
    rewrite bool_decide_eq_false_2 by done. rewrite Hb, Hs.
    subst buffer session added session1. rewrite Hs.
    cbn [from_option Datatypes.id]. unfold Datatypes.id.
    destruct (AudioBuffer.add_frame b audio_data) as [b1 full].
    cbn [fst snd]. destruct full; [|done].
    by destruct (RiskAssessment.update_patient_model _ _ _) as [ra [risk status]].
  - rewrite bool_decide_eq_true_2 by done.
    cbn [audio_buffers active_sessions]. rewrite !lookup_insert_eq.
    subst buffer session added session1. rewrite Hwf.
    cbn [from_option Datatypes.id]. unfold Datatypes.id.
    destruct (AudioBuffer.add_frame AudioBuffer.default audio_data) as [b1 full].
    cbn [fst snd host port risk_assessment audio_buffers active_sessions].
    rewrite !insert_insert_eq.
    destruct full; [|done].
    destruct (RiskAssessment.update_patient_model _ _ _) as [ra [risk status]].
    cbn [fst snd]. by rewrite !insert_insert_eq.
Qed.
End ServiceFacts.

Section ServiceSteps.
Context `{L : Librosa} `{S : Sklearn} `{B : Base64}.
Import BiomarkerService.
Implicit Types (self : t) (id : string) (message : Message.t).

Lemma process_malformed (time_ : Q) self message :
  malformed message -> process_audio_message time_ self message = (self, None).
Proof.
  unfold malformed, process_audio_message.
  intros [Ht | [Hid | [Hid | [Ha | [Ha | (payload & Ha & Hp)]]]]].
  - by rewrite bool_decide_eq_false_2.
  - rewrite Hid. by destruct (negb _).
  - rewrite Hid. by destruct (negb _).
  - rewrite Ha. destruct (negb _); [done|].
    by destruct (Message.chainRunId message) as [[|? ?]|].
  - rewrite Ha. destruct (negb _); [done|].
    by destruct (Message.chainRunId message) as [[|? ?]|].
  - rewrite Ha. destruct (negb _); [done|].
    destruct (Message.chainRunId message) as [[|? ?]|]; [done| |done].
    cbn [from_option Datatypes.id].
    destruct payload as [|c payload]; [done|].
    destruct Hp as [Hp | (bytes & Hp & Hd)]; rewrite Hp; [done|].
    by rewrite Hd.
Qed.

Lemma process_valid (time_ : Q) self message id (payload : string) (bytes : list byte) :
  Message.type message = Some "audio" ->
  Message.chainRunId message = Some id -> id <> "" ->
  Message.audio message = Some payload -> payload <> "" ->
  b64decode payload = Some bytes -> bytes <> [] ->
  process_audio_message time_ self message
  = buffer_and_assess time_ self id (decode_mulaw bytes) (Message.timestamp message).
Proof.
  intros Ht Hid Hne Ha Hpe Hp Hb. unfold process_audio_message.
  rewrite bool_decide_eq_true_2 by done. rewrite Hid, Ha. cbn [negb from_option Datatypes.id].
  destruct id as [|c id']; [done|].
  destruct payload as [|c' payload']; [done|].
  rewrite Hp.
  unfold decode_mulaw. rewrite decode_mulaw_map.
  destruct bytes as [|b bytes]; [done|]. reflexivity.
Qed.

(** Either the message is dropped with the service as it was, or the call
    is [buffer_and_assess] on the session the message names. *)
Lemma process_cases (time_ : Q) self message :
  process_audio_message time_ self message = (self, None) \/
  exists id (audio_data : list Q),
    Message.chainRunId message = Some id /\
    process_audio_message time_ self message
    = buffer_and_assess time_ self id audio_data (Message.timestamp message).
Proof.
  unfold process_audio_message.
  destruct (negb _); [by left|].
  destruct (Message.chainRunId message) as [[|c id']|]; [by left| |by left].
  destruct (default "" (Message.audio message)) as [|c' payload]; [by left|].
  destruct (b64decode _) as [bytes|]; [|by left].
  destruct (_ =? _)%nat; [by left|].
  right. by eexists _, _.
Qed.

Lemma buffer_and_assess_other (time_ : Q) self id (audio_data : list Q)
    (ts : option Q) (other : string) :
  id <> other ->
  session_state (fst (buffer_and_assess time_ self id audio_data ts)) other
  = session_state self other.
Proof.
  intros Hne. unfold buffer_and_assess.
  set (self1 := if bool_decide (audio_buffers self !! id = None) then _ else self).
  assert (H1 : session_state self1 other = session_state self other).
  { unfold self1. case_bool_decide; [|done].
    unfold session_state; simpl. by rewrite !lookup_insert_ne. }
  destruct (audio_buffers self1 !! id) as [b|]; [|done].
  destruct (active_sessions self1 !! id) as [s|]; [|done].
  destruct (AudioBuffer.add_frame b audio_data) as [b1 full].
  destruct full.
  - pose proof (update_other (risk_assessment self1) id
                  (FeatureExtractor.extract_basic_features (AudioBuffer.get_buffer b1))
                  other Hne) as (Hh & Hs & Hm).
    destruct (RiskAssessment.update_patient_model _ _ _) as [ra [risk status]].
    simpl in Hh, Hs, Hm. rewrite <- H1.
    unfold session_state; simpl. rewrite !lookup_insert_ne by done.
    by rewrite Hh, Hs, Hm.
  - rewrite <- H1. unfold session_state; simpl. by rewrite !lookup_insert_ne.
Qed.

Lemma process_other (time_ : Q) self message (other : string) :
  Message.chainRunId message <> Some other ->
  session_state (fst (process_audio_message time_ self message)) other
  = session_state self other.
Proof.
  intros Hne.
  destruct (process_cases time_ self message) as [-> | (id & data & Hid & ->)]; [done|].
  apply buffer_and_assess_other. congruence.
Qed.
End ServiceSteps.

Section ServiceInvariant.
Context `{L : Librosa} `{S : Sklearn} `{B : Base64}.
Import BiomarkerService.
Implicit Types (self : t) (id : string) (message : Message.t).

Lemma init_wf (h : string) (p : Z) : wf (init h p).
Proof. intros id. unfold init; simpl. by rewrite !lookup_empty. Qed.

Lemma stored_buffer_wf self id :
  wf self ->
  let buffer := default AudioBuffer.default (audio_buffers self !! id) in
  AudioBuffer.wf buffer /\ AudioBuffer.buffer_size buffer = 24000.
Proof.
  intros Hwf. specialize (Hwf id).
  destruct (audio_buffers self !! id) as [b|]; simpl.
  - by destruct Hwf as (? & ? & _).
  - split; [apply default_wf | done].
Qed.

Lemma buffer_and_assess_wf (time_ : Q) self id (audio_data : list Q) (ts : option Q) :
  wf self -> wf (fst (buffer_and_assess time_ self id audio_data ts)).
Proof.
  intros Hwf. rewrite buffer_and_assess_eq by done.
  destruct (stored_buffer_wf self id Hwf) as [Hb Hsize].
  pose proof (add_frame_wf _ audio_data Hb) as Hb1.
  pose proof (add_frame_size (default AudioBuffer.default (audio_buffers self !! id))
                audio_data) as Hsize1.
  destruct (AudioBuffer.add_frame _ audio_data) as [b1 full]. simpl in Hb1, Hsize1.
  cbn [fst snd]. intros id'. specialize (Hwf id').
  destruct full; cbn [fst audio_buffers active_sessions];
    (destruct (decide (id = id')) as [<-|Hne];
     [rewrite !lookup_insert_eq | by rewrite !lookup_insert_ne]).
  - split; [apply clear_wf; lia|]. split; [simpl; lia | eauto].
  - split; [done|]. split; [lia | eauto].
Qed.

Lemma process_wf (time_ : Q) self message :
  wf self -> wf (fst (process_audio_message time_ self message)).
Proof.
  intros Hwf.
  destruct (process_cases time_ self message) as [-> | (id & data & _ & ->)]; [done|].
  by apply buffer_and_assess_wf.
Qed.

Lemma handle_client_wf (frames : list (Q * option Message.t)) self :
  wf self -> wf (fst (handle_client self frames)).
Proof.
  revert self. induction frames as [|[time_ [data|]] frames IH]; intros self Hwf; simpl.
  - done.
  - pose proof (process_wf time_ self data Hwf) as H1.
    destruct (process_audio_message time_ self data) as [self1 response].
    specialize (IH self1 H1). by destruct (handle_client self1 frames).
  - by apply IH.
Qed.

End ServiceInvariant.

(** *** Nothing is ever removed *)

Section NoRemoval.
Context `{L : Librosa} `{S : Sklearn} `{B : Base64}.
Import BiomarkerService.

Lemma fit_and_score_grows (ra : RiskAssessment.t) (pid : string) :
  dom (RiskAssessment.scalers ra)
    ⊆ dom (RiskAssessment.scalers (fst (RiskAssessment.fit_and_score ra pid))) /\
  dom (RiskAssessment.models ra)
    ⊆ dom (RiskAssessment.models (fst (RiskAssessment.fit_and_score ra pid))).
Proof.
  unfold RiskAssessment.fit_and_score.
  destruct (np_array _) as [X|]; [|done].
  destruct (fit_transform _ X) as [sc [Xs|]]; simpl;
    [|rewrite dom_insert_L; set_solver].
  destruct (fit _ Xs) as [fo [[]|]]; simpl;
    [|rewrite !dom_insert_L; set_solver].
  destruct (decision_function fo _); simpl; rewrite !dom_insert_L; set_solver.
Qed.

Lemma update_grows (ra : RiskAssessment.t) (pid : string) (features : PyDict.t) :
  let ra' := fst (RiskAssessment.update_patient_model ra pid features) in
  dom (RiskAssessment.feature_history ra) ⊆ dom (RiskAssessment.feature_history ra') /\
  dom (RiskAssessment.scalers ra) ⊆ dom (RiskAssessment.scalers ra') /\
  dom (RiskAssessment.models ra) ⊆ dom (RiskAssessment.models ra').
Proof.
  intros ra'. split.
  - unfold ra'. rewrite update_feature_history.
    unfold RiskAssessment.append_history; simpl. rewrite dom_insert_L. set_solver.
  - unfold ra', RiskAssessment.update_patient_model.
    destruct (_ <? _); [done|].
    pose proof (fit_and_score_grows
                  (RiskAssessment.append_history ra pid features) pid) as H.
    by destruct (RiskAssessment.fit_and_score _ pid) as [ra1 [raw|]].
Qed.

Lemma grows_refl (self : t) : grows self self.
Proof. by repeat split. Qed.

Lemma grows_trans (a b c : t) : grows a b -> grows b c -> grows a c.
Proof.
  intros (?&?&?&?&?) (?&?&?&?&?). repeat split; set_solver.
Qed.

Lemma buffer_and_assess_grows (time_ : Q) (self : t) (id : string)
    (audio_data : list Q) (ts : option Q) :
  grows self (fst (buffer_and_assess time_ self id audio_data ts)).
Proof.
  unfold buffer_and_assess.
  set (self1 := if bool_decide (audio_buffers self !! id = None) then _ else self).
  assert (H1 : grows self self1).
  { unfold self1. case_bool_decide; [|apply grows_refl].
    repeat split; simpl; try done; rewrite dom_insert_L; set_solver. }
  apply (grows_trans _ self1); [done|]. clear H1.
  destruct (audio_buffers self1 !! id) as [b|]; [|apply grows_refl].
  destruct (active_sessions self1 !! id) as [s|]; [|apply grows_refl].
  destruct (AudioBuffer.add_frame b audio_data) as [b1 full].
  destruct full.
  - pose proof (update_grows (risk_assessment self1) id
                  (FeatureExtractor.extract_basic_features (AudioBuffer.get_buffer b1)))
      as (Hh & Hs & Hm).
    destruct (RiskAssessment.update_patient_model _ _ _) as [ra [risk status]].
    simpl in Hh, Hs, Hm.
    repeat split; simpl; try done; rewrite dom_insert_L; set_solver.
  - repeat split; simpl; try done; rewrite dom_insert_L; set_solver.
Qed.

Lemma process_grows (time_ : Q) (self : t) (message : Message.t) :
  grows self (fst (process_audio_message time_ self message)).
Proof.
  destruct (process_cases time_ self message) as [-> | (id & data & _ & ->)].
  - apply grows_refl.
  - apply buffer_and_assess_grows.
Qed.

Lemma handle_client_grows (frames : list (Q * option Message.t)) (self : t) :
  grows self (fst (handle_client self frames)).
Proof.
  revert self. induction frames as [|[time_ [data|]] frames IH]; intros self; simpl.
  - apply grows_refl.
  - pose proof (process_grows time_ self data) as H1.
    destruct (process_audio_message time_ self data) as [self1 response].
    specialize (IH self1). destruct (handle_client self1 frames) as [self2 sent].
    by apply (grows_trans _ self1).
  - apply IH.
Qed.

Lemma handle_client_sent (frames : list (Q * option Message.t)) (self : t) :
  (length (snd (handle_client self frames)) <= length frames)%nat.
Proof.
  revert self. induction frames as [|[time_ [data|]] frames IH]; intros self; simpl.
  - done.
  - destruct (process_audio_message time_ self data) as [self1 response].
    specialize (IH self1). destruct (handle_client self1 frames) as [self2 sent].
    destruct response; simpl in *; lia.
  - specialize (IH self). lia.
Qed.
End NoRemoval.

(** C8: processing a message that names session [a] leaves the buffer, the
    session record, the feature history, the scaler and the model of any
    other session [b] as they were. *)
Theorem sessions_isolated `{L : Librosa} `{S : Sklearn} `{B : Base64}
    (time_ : Q) (self : BiomarkerService.t) (message : Message.t) (a b : string)
    (Ha : Message.chainRunId message = Some a) (Hne : a <> b) :
  BiomarkerService.session_state
    (fst (BiomarkerService.process_audio_message time_ self message)) b
  = BiomarkerService.session_state self b.
Proof. apply process_other. congruence. Qed.

Lemma sessions_isolated_witness :
  Message.chainRunId (one_sample "s2") = Some "s2" /\ "s2" <> "s1" /\
  BiomarkerService.session_state
    (fst (@BiomarkerService.process_audio_message Demo.librosa Demo.sklearn Demo.base64
            1 nearly_full (one_sample "s2"))) "s1"
  = BiomarkerService.session_state nearly_full "s1".
Proof.
  assert (Hne : "s2" <> "s1") by discriminate.
  split; [reflexivity|]. split; [exact Hne|].
  exact (@sessions_isolated Demo.librosa Demo.sklearn Demo.base64 1 nearly_full
           (one_sample "s2") "s2" "s1" eq_refl Hne).
Defined.

(** C2 fails on the code: [handle_client] removes nothing.  Its [finally]
    clause, headed "Cleanup session data", writes a log line only, and no
    other statement of the service deletes from a dictionary: every session
    id known before a connection is still known after it in each of the five
    dictionaries.  A connection that delivers one audio record for "s1" and
    closes leaves the buffer and the session record of "s1" behind; one that
    completes a window leaves its feature history behind as well. *)
Theorem handle_client_keeps_sessions `{L : Librosa} `{S : Sklearn} `{B : Base64}
    (self : BiomarkerService.t) (frames : list (Q * option Message.t)) :
  BiomarkerService.grows self (fst (BiomarkerService.handle_client self frames)) /\
  (let closed :=
     fst (@BiomarkerService.handle_client L S Demo.base64
            (BiomarkerService.init "127.0.0.1" 9091) [(0%Q, Some (one_sample "s1"))]) in
   BiomarkerService.audio_buffers closed !! "s1"
   = Some (AudioBuffer.mk 8000 24000 [(132 # 32768)%Q] 1) /\
   BiomarkerService.active_sessions closed !! "s1" = Some (Session.mk 0 1 0)) /\
  (let closed :=
     fst (@BiomarkerService.handle_client Demo.librosa_down Demo.sklearn Demo.base64
            nearly_full [(5%Q, Some (one_sample "s1"))]) in
   BiomarkerService.audio_buffers closed !! "s1" = Some (AudioBuffer.mk 8000 24000 [] 0) /\
   BiomarkerService.active_sessions closed !! "s1" = Some (Session.mk 0 24000 0) /\
   length (RiskAssessment.history (BiomarkerService.risk_assessment closed) "s1") = 1%nat).
Proof.
  split; [apply handle_client_grows|]. split.
  - vm_compute. split; reflexivity.
  - vm_compute. repeat split.
Qed.

(** *** What a call returns *)

Section ServiceResults.
Context `{L : Librosa} `{S : Sklearn} `{B : Base64}.
Import BiomarkerService.
Implicit Types (self : t) (id : string) (message : Message.t).

(** The flag of [add_frame] on the buffer of a well-formed service. *)
Lemma stored_buffer_flag self id (audio_data : list Q) :
  wf self ->
  let buffer := default AudioBuffer.default (audio_buffers self !! id) in
  snd (AudioBuffer.add_frame buffer audio_data)
  = (24000 <=? Z.of_nat (length (AudioBuffer.buffer buffer))
               + Z.of_nat (length audio_data)).
Proof.
  intros Hwf buffer. destruct (stored_buffer_wf self id Hwf) as [Hb Hsize].
  fold buffer in Hb, Hsize. by rewrite add_frame_flag, Hsize.
Qed.

Lemma buffer_and_assess_partial (time_ : Q) self id (audio_data : list Q) (ts : option Q) :
  wf self ->
  let buffer := default AudioBuffer.default (audio_buffers self !! id) in
  Z.of_nat (length (AudioBuffer.buffer buffer)) + Z.of_nat (length audio_data) < 24000 ->
  let result := buffer_and_assess time_ self id audio_data ts in
  snd result = None /\
  risk_assessment (fst result) = risk_assessment self /\
  audio_buffers (fst result) !! id = Some (fst (AudioBuffer.add_frame buffer audio_data)).
Proof.
  intros Hwf buffer Hlt result. unfold result.
  pose proof (stored_buffer_flag self id audio_data Hwf) as Hflag.
  cbv zeta in Hflag. fold buffer in Hflag.
  rewrite buffer_and_assess_eq by done. fold buffer.
  rewrite Hflag, (proj2 (Z.leb_gt _ _) Hlt). cbn [fst snd risk_assessment audio_buffers].
  by rewrite lookup_insert_eq.
Qed.

Lemma buffer_and_assess_full (time_ : Q) self id (audio_data : list Q) (ts : option Q) :
  wf self ->
  let buffer := default AudioBuffer.default (audio_buffers self !! id) in
  24000 <= Z.of_nat (length (AudioBuffer.buffer buffer)) + Z.of_nat (length audio_data) ->
  let result := buffer_and_assess time_ self id audio_data ts in
  (exists r : Risk.t,
      snd result = Some r /\ Risk.type r = "risk" /\ Risk.chainRunId r = id) /\
  audio_buffers (fst result) !! id
  = Some (AudioBuffer.clear (fst (AudioBuffer.add_frame buffer audio_data))).
Proof.
  intros Hwf buffer Hge result. unfold result.
  pose proof (stored_buffer_flag self id audio_data Hwf) as Hflag.
  cbv zeta in Hflag. fold buffer in Hflag.
  rewrite buffer_and_assess_eq by done. fold buffer.
  rewrite Hflag, (proj2 (Z.leb_le _ _) Hge). cbn [fst snd audio_buffers].
  split; [by eexists | by rewrite lookup_insert_eq].
Qed.

(** A record is sent only after [update_patient_model] ran for the session
    it names, and its [n] is the length of the history that call left. *)
Lemma buffer_and_assess_record (time_ : Q) self id (audio_data : list Q)
    (ts : option Q) (r : Risk.t) :
  snd (buffer_and_assess time_ self id audio_data ts) = Some r ->
  Risk.chainRunId r = id /\
  exists features : PyDict.t,
    let updated := RiskAssessment.update_patient_model (risk_assessment self) id features in
    risk_assessment (fst (buffer_and_assess time_ self id audio_data ts)) = fst updated /\
    (Risk.risk r, Risk.status r) = snd updated /\
    Risk.n r = Z.of_nat (length (RiskAssessment.history (fst updated) id)).
Proof.
  unfold buffer_and_assess.
  set (self1 := if bool_decide (audio_buffers self !! id = None) then _ else self).
  assert (H1 : risk_assessment self1 = risk_assessment self).
  { unfold self1. by case_bool_decide. }
  destruct (audio_buffers self1 !! id) as [b|]; [|done].
  destruct (active_sessions self1 !! id) as [s|]; [|done].
  destruct (AudioBuffer.add_frame b audio_data) as [b1 full].
  destruct full; [|done]. rewrite H1.
  destruct (RiskAssessment.update_patient_model _ _ _) as [ra [risk status]] eqn:Hup.
  cbn [fst snd]. intros [= <-]. split; [done|].
  eexists. rewrite Hup. done.
Qed.

Lemma process_record (time_ : Q) self message (r : Risk.t) :
  snd (process_audio_message time_ self message) = Some r ->
  Message.chainRunId message = Some (Risk.chainRunId r) /\
  exists features : PyDict.t,
    let updated := RiskAssessment.update_patient_model (risk_assessment self)
                     (Risk.chainRunId r) features in
    risk_assessment (fst (process_audio_message time_ self message)) = fst updated /\
    (Risk.risk r, Risk.status r) = snd updated /\
    Risk.n r = Z.of_nat (length (RiskAssessment.history (fst updated) (Risk.chainRunId r))).
Proof.
  destruct (process_cases time_ self message) as [-> | (id & data & Hid & ->)]; [done|].
  intros Hr. destruct (buffer_and_assess_record _ _ _ _ _ _ Hr) as [<- Hrest]. done.
Qed.
End ServiceResults.

Lemma malformed_or_valid `{B : Base64} (message : Message.t) :
  BiomarkerService.malformed message \/
  exists (id payload : string) (bytes : list byte),
    Message.type message = Some "audio" /\
    Message.chainRunId message = Some id /\ id <> "" /\
    Message.audio message = Some payload /\ payload <> "" /\
    b64decode payload = Some bytes /\ bytes <> [].
Proof.
  unfold BiomarkerService.malformed.
  destruct (decide (Message.type message = Some "audio")) as [Ht|Ht]; [|by left; left].
  destruct (Message.chainRunId message) as [id|] eqn:Hid; [|by left; right; left].
  destruct (decide (id = "")) as [->|Hne]; [by left; do 2 right; left|].
  destruct (Message.audio message) as [payload|] eqn:Ha; [|by left; do 3 right; left].
  destruct (decide (payload = "")) as [->|Hpe]; [by left; do 4 right; left|].
  destruct (b64decode payload) as [bytes|] eqn:Hp.
  - destruct bytes as [|b bytes].
    + left. do 5 right. exists payload. split; [done|]. right. by exists [].
    + right. by exists id, payload, (b :: bytes).
  - left. do 5 right. exists payload. by split; [|left].
Qed.

Lemma nearly_full_wf : BiomarkerService.wf nearly_full.
Proof.
  intros id. unfold nearly_full. cbn [BiomarkerService.audio_buffers
                                       BiomarkerService.active_sessions].
  destruct (decide (id = "s1")) as [->|Hne].
  - rewrite !lookup_singleton_eq. split; [|split; [done | eauto]].
    split; cbn [AudioBuffer.buffer_size AudioBuffer.buffer]; [lia|].
    rewrite length_replicate, Z2Nat.id; lia.
  - by rewrite !lookup_singleton_ne.
Qed.

(** C7: [process_audio_message] returns at most one record per message.  On
    a well-formed service a message that is not of type "audio", or lacks a
    non-empty session id or a non-empty payload, or whose payload is rejected
    by the base64 decoder or decodes to no sample, is dropped with the service
    exactly as it was, so no entry is created for it.  Every other message
    carries samples for its session: if with them the buffer holds fewer than
    24000 samples the call returns nothing, touches neither history, scaler
    nor model, and stores the extended buffer; if it holds 24000 the call
    returns exactly one record for that session and stores the cleared
    buffer.  A connection never sends more records than it received
    frames. *)
Theorem process_audio_message_drops `{L : Librosa} `{S : Sklearn} `{B : Base64}
    (time_ : Q) (self : BiomarkerService.t) (message : Message.t)
    (Hwf : BiomarkerService.wf self) :
  (BiomarkerService.malformed message ->
   BiomarkerService.process_audio_message time_ self message = (self, None)) /\
  (forall (id payload : string) (bytes : list byte),
      Message.type message = Some "audio" ->
      Message.chainRunId message = Some id -> id <> "" ->
      Message.audio message = Some payload -> payload <> "" ->
      b64decode payload = Some bytes -> bytes <> [] ->
      let buffer := default AudioBuffer.default
                      (BiomarkerService.audio_buffers self !! id) in
      let filled := Z.of_nat (length (AudioBuffer.buffer buffer))
                    + Z.of_nat (length bytes) in
      let result := BiomarkerService.process_audio_message time_ self message in
      (filled < 24000 ->
       snd result = None /\
       BiomarkerService.risk_assessment (fst result)
       = BiomarkerService.risk_assessment self /\
       BiomarkerService.audio_buffers (fst result) !! id
       = Some (fst (AudioBuffer.add_frame buffer (Mulaw.decode_mulaw bytes)))) /\
      (24000 <= filled ->
       (exists r : Risk.t,
           snd result = Some r /\ Risk.type r = "risk" /\ Risk.chainRunId r = id) /\
       BiomarkerService.audio_buffers (fst result) !! id
       = Some (AudioBuffer.clear
                 (fst (AudioBuffer.add_frame buffer (Mulaw.decode_mulaw bytes)))))) /\
  (BiomarkerService.malformed message \/
   exists (id payload : string) (bytes : list byte),
     Message.type message = Some "audio" /\
     Message.chainRunId message = Some id /\ id <> "" /\
     Message.audio message = Some payload /\ payload <> "" /\
     b64decode payload = Some bytes /\ bytes <> []) /\
  (forall frames : list (Q * option Message.t),
      (length (snd (BiomarkerService.handle_client self frames)) <= length frames)%nat) /\
  BiomarkerService.wf (fst (BiomarkerService.process_audio_message time_ self message)).
Proof.
  split; [apply process_malformed|].
  split; [|split; [apply malformed_or_valid|split;
                   [intros; apply handle_client_sent | by apply process_wf]]].
  intros id payload bytes Ht Hid Hne Ha Hpe Hp Hb buffer filled result.
  unfold result. rewrite (process_valid time_ self message id payload bytes) by done.
  unfold BiomarkerService.decode_mulaw.
  assert (Hlen : length (Mulaw.decode_mulaw bytes) = length bytes).
  { by rewrite decode_mulaw_map, length_map. }
  split; intros Hfill.
  - apply buffer_and_assess_partial; [done|]. by rewrite Hlen.
  - apply buffer_and_assess_full; [done|]. by rewrite Hlen.
Qed.

Lemma process_audio_message_drops_witness :
  let service := @BiomarkerService.init Demo.sklearn "127.0.0.1" 9091 in
  let ping := Message.mk (Some "ping") (Some "s1") (Some "/w==") None in
  (BiomarkerService.wf service /\ @BiomarkerService.malformed Demo.base64 ping /\
   @BiomarkerService.process_audio_message Demo.librosa Demo.sklearn Demo.base64
     0 service ping = (service, None)) /\
  (snd (@BiomarkerService.process_audio_message Demo.librosa Demo.sklearn Demo.base64
          0 service (one_sample "s1")) = None) /\
  (BiomarkerService.wf nearly_full /\
   exists r : Risk.t,
     snd (@BiomarkerService.process_audio_message Demo.librosa_down Demo.sklearn
            Demo.base64 5 nearly_full (one_sample "s1")) = Some r /\
     Risk.type r = "risk" /\ Risk.chainRunId r = "s1").
Proof.
  intros service ping.
  assert (Hwf : BiomarkerService.wf service) by apply init_wf.
  assert (Hping : @BiomarkerService.malformed Demo.base64 ping) by (left; discriminate).
  assert (Hs : "s1" <> "") by discriminate.
  assert (Hp : "/w==" <> "") by discriminate.
  assert (Hb : [xff] <> @nil byte) by discriminate.
  split; [|split].
  - split; [exact Hwf|]. split; [exact Hping|].
    exact (proj1 (@process_audio_message_drops Demo.librosa Demo.sklearn Demo.base64
                    0 service ping Hwf) Hping).
  - assert (Hfill : Z.of_nat (length (AudioBuffer.buffer
                      (default AudioBuffer.default
                         (BiomarkerService.audio_buffers service !! "s1"))))
                    + Z.of_nat (length [xff]) < 24000) by (vm_compute; reflexivity).
    exact (proj1 (proj1 (proj1 (proj2
             (@process_audio_message_drops Demo.librosa Demo.sklearn Demo.base64
                0 service (one_sample "s1") Hwf))
             "s1" "/w==" [xff] eq_refl eq_refl Hs eq_refl Hp eq_refl Hb) Hfill)).
  - split; [exact nearly_full_wf|].
    assert (Hfill : 24000 <= Z.of_nat (length (AudioBuffer.buffer
                      (default AudioBuffer.default
                         (BiomarkerService.audio_buffers nearly_full !! "s1"))))
                    + Z.of_nat (length [xff])) by (vm_compute; discriminate).
    exact (proj1 (proj2 (proj1 (proj2
             (@process_audio_message_drops Demo.librosa_down Demo.sklearn Demo.base64
                5 nearly_full (one_sample "s1") nearly_full_wf))
             "s1" "/w==" [xff] eq_refl eq_refl Hs eq_refl Hp eq_refl Hb) Hfill)).
Defined.

Lemma last_drop_snoc {A} (k : nat) (l : list A) (x : A) :
  (k <= length l)%nat -> last (drop k (l ++ [x])) = Some x.
Proof. intros Hk. rewrite drop_app_le by done. apply last_snoc. Qed.

(** C10: [update_patient_model] appends the vector before it fits or scores,
    and nothing afterwards touches the history: whatever the status returned,
    the history is the old one with the vector at its end, cut to its last
    100 rows, so its length is the old length plus one, capped at 100.  The
    [n] of a record sent for a session is the length of that history, one
    more (up to the cap) than before the window, whether or not the model
    call raised.  On the demonstration backend the window that returns
    "error" takes the history from 9 to 10 rows and the next window reports
    11. *)
Theorem history_kept_on_every_status `{L : Librosa} `{S : Sklearn} `{B : Base64}
    (ra : RiskAssessment.t) (pid : string) (features : PyDict.t)
    (time_ : Q) (self : BiomarkerService.t) (message : Message.t) (r : Risk.t)
    (Hsent : snd (BiomarkerService.process_audio_message time_ self message) = Some r) :
  let ra' := fst (RiskAssessment.update_patient_model ra pid features) in
  let sent := BiomarkerService.process_audio_message time_ self message in
  RiskAssessment.history ra' pid
  = drop (length (RiskAssessment.history ra pid ++ [PyDict.values features]) - 100)
         (RiskAssessment.history ra pid ++ [PyDict.values features]) /\
  last (RiskAssessment.history ra' pid) = Some (PyDict.values features) /\
  length (RiskAssessment.history ra' pid)
  = Nat.min 100 (length (RiskAssessment.history ra pid) + 1) /\
  Risk.n r
  = Z.of_nat (length (RiskAssessment.history
                        (BiomarkerService.risk_assessment (fst sent))
                        (Risk.chainRunId r))) /\
  Risk.n r
  = Z.of_nat (Nat.min 100
                (length (RiskAssessment.history
                           (BiomarkerService.risk_assessment self)
                           (Risk.chainRunId r)) + 1)) /\
  (snd demo_fault = (0%Q, "error") /\
   length (RiskAssessment.history demo_warm "p") = 9%nat /\
   length (RiskAssessment.history (fst demo_fault) "p") = 10%nat /\
   length (RiskAssessment.history (fst demo_next) "p") = 11%nat).
Proof.
  intros ra' sent. unfold ra', sent.
  split; [apply update_history|].
  split; [rewrite update_history; apply last_drop_snoc; rewrite length_app; cbn [length]; lia|].
  split; [apply update_history_length|].
  destruct (process_record time_ self message r Hsent) as (_ & features' & Hra & _ & Hn).
  cbv zeta in Hra, Hn.
  split; [by rewrite Hra|]. split; [by rewrite Hn, update_history_length|].
  pose proof demo_run as (H9 & _ & Hf & H10 & _ & H11 & _).
  exact (conj Hf (conj H9 (conj H10 H11))).
Qed.

Lemma history_kept_on_every_status_witness :
  let r := Risk.mk "risk" 0 "warming_up" 1 "s1" 5 in
  snd (@BiomarkerService.process_audio_message Demo.librosa_down Demo.sklearn Demo.base64
         5 nearly_full (one_sample "s1")) = Some r /\
  length (RiskAssessment.history (fst demo_fault) "p")
  = Nat.min 100 (length (RiskAssessment.history demo_warm "p") + 1) /\
  Risk.n r
  = Z.of_nat (Nat.min 100
                (length (RiskAssessment.history
                           (BiomarkerService.risk_assessment nearly_full) "s1") + 1)).
Proof.
  intros r.
  assert (Hsent : snd (@BiomarkerService.process_audio_message
                         Demo.librosa_down Demo.sklearn Demo.base64
                         5 nearly_full (one_sample "s1")) = Some r)
    by (vm_compute; reflexivity).
  pose proof (@history_kept_on_every_status Demo.librosa_down Demo.sklearn Demo.base64
                demo_warm "p" (Demo.window (-1)) 5 nearly_full (one_sample "s1") r Hsent)
    as (_ & _ & Hlen & _ & Hn & _).
  split; [exact Hsent|]. split; [exact Hlen | exact Hn].
Defined.

(** * Further properties of the code *)

(** ** The sample decoder, continued *)

Lemma in_all_bytes (b : byte) : In b all_bytes.
Proof.
  apply (nth_error_In all_bytes (N.to_nat (Byte.to_N b))).
  destruct b; reflexivity.
Qed.

Lemma all_pairs_checked :
  forallb (fun b1 => forallb (fun b2 => Bool.eqb (same_decoded b1 b2) (same_code b1 b2))
                       all_bytes) all_bytes = true.
Proof. vm_compute. reflexivity. Qed.

Lemma same_decoded_code (b1 b2 : byte) : same_decoded b1 b2 = same_code b1 b2.
Proof.
  pose proof all_pairs_checked as H.
  rewrite forallb_forall in H. specialize (H b1 (in_all_bytes b1)).
  rewrite forallb_forall in H. specialize (H b2 (in_all_bytes b2)).
  by apply Bool.eqb_prop.
Qed.

(** X1: decoding is chunk-insensitive: the samples of two byte strings put
    end to end are the samples of the first followed by those of the
    second. *)
Theorem decode_mulaw_app (a b : list byte) :
  Mulaw.decode_mulaw (a ++ b) = Mulaw.decode_mulaw a ++ Mulaw.decode_mulaw b.
Proof. rewrite !decode_mulaw_map. apply map_app. Qed.

(** X2: no byte decodes to silence or to full scale: the integer magnitude of
    every sample lies between the bias 132 and 10368, so every sample has a
    magnitude between 132/32768 and 10368/32768. *)
Theorem decode_sample_magnitude (b : byte) :
  132 <= Z.abs (Mulaw.decoded_val b) <= 10368 /\
  ((132 # 32768) <= Qabs (Mulaw.decode_sample b) <= (10368 # 32768))%Q /\
  ~ (Mulaw.decode_sample b == 0)%Q.
Proof.
  pose proof (decoded_val_range b) as H. split; [exact H|]. split.
  - unfold Mulaw.decode_sample, Qabs, Qle; simpl. lia.
  - unfold Mulaw.decode_sample, Qeq; simpl. lia.
Qed.

(** X3: bit 7 of the byte is the sign and nothing else: flipping it negates
    the sample. *)
Theorem decode_sample_sign_flip (b : byte) :
  Mulaw.decode_sample (Demo.byte_of_Z (Z.lxor (byte_Z b) 0x80))
  = (- Mulaw.decode_sample b)%Q.
Proof. destruct b; reflexivity. Qed.

(** X4: the decoder is not injective.  Two bytes decode to the same sample
    exactly when they are equal or differ in bit 4 alone with bits 6 and 5
    both set: the exponents 0 and 1 of the inverted byte give the same
    magnitude, so 32 of the 256 codes are duplicates. *)
Theorem decode_sample_collisions (b1 b2 : byte) :
  Mulaw.decode_sample b1 = Mulaw.decode_sample b2 <->
  (b1 = b2 \/
   (Z.lxor (byte_Z b1) (byte_Z b2) = 16 /\ Z.land (byte_Z b1) 0x60 = 0x60)).
Proof.
  pose proof (same_decoded_code b1 b2) as H.
  unfold same_decoded, same_code in H. split.
  - intros Heq. assert (Hv : Mulaw.decoded_val b1 = Mulaw.decoded_val b2).
    { unfold Mulaw.decode_sample in Heq. congruence. }
    rewrite (proj2 (Z.eqb_eq _ _) Hv) in H. symmetry in H.
    apply orb_true_iff in H as [H|H].
    + left. by apply Byte.byte_dec_bl.
    + right. apply andb_true_iff in H as [H1 H2].
      by apply Z.eqb_eq in H1, H2.
  - intros Hcode. assert (Hc : Byte.eqb b1 b2
        || ((Z.lxor (byte_Z b1) (byte_Z b2) =? 16) && (Z.land (byte_Z b1) 0x60 =? 0x60))
        = true).
    { apply orb_true_iff. destruct Hcode as [->|[H1 H2]].
      - left. by apply Byte.byte_dec_lb.
      - right. apply andb_true_iff. by split; apply Z.eqb_eq. }
    rewrite Hc in H. apply Z.eqb_eq in H.
    unfold Mulaw.decode_sample. by rewrite H.
Qed.
(** ** The audio buffer, continued *)

Lemma feed_frame_count (batches : list (list Q)) (b : AudioBuffer.t) :
  AudioBuffer.frame_count (fst (AudioBuffer.feed b batches))
  = AudioBuffer.frame_count b + AudioBuffer.total batches /\
  AudioBuffer.buffer_size (fst (AudioBuffer.feed b batches)) = AudioBuffer.buffer_size b.
Proof.
  unfold AudioBuffer.total. revert b.
  induction batches as [|xs rest IH]; intros b; [simpl; split; [lia|done]|].
  cbn [AudioBuffer.feed concat].
  destruct (AudioBuffer.add_frame b xs) as [b1 full] eqn:Hadd.
  specialize (IH b1). destruct (AudioBuffer.feed b1 rest) as [b2 flags].
  cbn [fst] in IH |- *. destruct IH as [IH1 IH2]. rewrite IH1, IH2.
  unfold AudioBuffer.add_frame in Hadd. injection Hadd as <- _. simpl.
  rewrite length_app. split; [lia|done].
Qed.

Lemma feed_buffer_length (batches : list (list Q)) (b : AudioBuffer.t) :
  AudioBuffer.wf b ->
  AudioBuffer.wf (fst (AudioBuffer.feed b batches)) /\
  Z.of_nat (length (AudioBuffer.buffer (fst (AudioBuffer.feed b batches))))
  = Z.min (Z.of_nat (length (AudioBuffer.buffer b)) + AudioBuffer.total batches)
          (AudioBuffer.buffer_size b).
Proof.
  unfold AudioBuffer.total. revert b.
  induction batches as [|xs rest IH]; intros b Hwf.
  - simpl. split; [done|]. destruct Hwf. lia.
  - cbn [AudioBuffer.feed concat].
    pose proof (add_frame_wf b xs Hwf) as Hwf1.
    pose proof (add_frame_buffer_length b xs Hwf) as Hlen1.
    pose proof (add_frame_size b xs) as Hsize1.
    destruct (AudioBuffer.add_frame b xs) as [b1 full]. cbn [fst] in Hwf1, Hlen1, Hsize1.
    specialize (IH b1 Hwf1). destruct (AudioBuffer.feed b1 rest) as [b2 flags].
    cbn [fst] in IH |- *. destruct IH as [IH1 IH2]. split; [done|].
    rewrite IH2, Hlen1, Hsize1, length_app. destruct Hwf. lia.
Qed.

(** X5: the buffer is a ring of capacity [buffer_size]: after [add_frame]
    it holds the most recent [buffer_size] samples of what it held followed by
    the new batch, never more than its capacity, and its capacity and sample
    rate are unchanged. *)
Theorem add_frame_keeps_most_recent (b : AudioBuffer.t) (xs : list Q)
    (Hwf : AudioBuffer.wf b) :
  let b' := fst (AudioBuffer.add_frame b xs) in
  AudioBuffer.buffer b'
  = drop (length (AudioBuffer.buffer b ++ xs) - Z.to_nat (AudioBuffer.buffer_size b))
         (AudioBuffer.buffer b ++ xs) /\
  Z.of_nat (length (AudioBuffer.buffer b'))
  = Z.min (Z.of_nat (length (AudioBuffer.buffer b)) + Z.of_nat (length xs))
          (AudioBuffer.buffer_size b) /\
  AudioBuffer.wf b' /\
  AudioBuffer.buffer_size b' = AudioBuffer.buffer_size b /\
  AudioBuffer.sample_rate b' = AudioBuffer.sample_rate b.
Proof.
  intros b'. destruct Hwf as [Hm Hd]. split.
  - unfold b'. simpl. by apply deque_extend_drop.
  - split; [by apply add_frame_buffer_length|].
    split; [by apply add_frame_wf|]. done.
Qed.

Lemma add_frame_keeps_most_recent_witness :
  let b := AudioBuffer.mk 8000 3 [1; 2; 3]%Q 3 in
  AudioBuffer.wf b /\
  AudioBuffer.buffer (fst (AudioBuffer.add_frame b [4; 5]%Q)) = [3; 4; 5]%Q.
Proof.
  intros b. assert (Hwf : AudioBuffer.wf b) by (split; simpl; lia).
  split; [exact Hwf|].
  exact (proj1 (add_frame_keeps_most_recent b [4; 5]%Q Hwf)).
Defined.

(** X6: [frame_count] counts every sample added since the last [clear],
    including those the ring has dropped: after a sequence of [add_frame]
    calls it has grown by the total number of samples, while the buffer holds
    at most its capacity. *)
Theorem frame_count_counts_dropped_samples (b : AudioBuffer.t)
    (batches : list (list Q)) (Hwf : AudioBuffer.wf b) :
  let b' := fst (AudioBuffer.feed b batches) in
  AudioBuffer.frame_count b' = AudioBuffer.frame_count b + AudioBuffer.total batches /\
  Z.of_nat (length (AudioBuffer.buffer b'))
  = Z.min (Z.of_nat (length (AudioBuffer.buffer b)) + AudioBuffer.total batches)
          (AudioBuffer.buffer_size b) /\
  AudioBuffer.frame_count (AudioBuffer.clear b') = 0 /\
  AudioBuffer.buffer (AudioBuffer.clear b') = [].
Proof.
  intros b'. split; [apply feed_frame_count|].
  split; [by apply feed_buffer_length|]. done.
Qed.

Lemma frame_count_counts_dropped_samples_witness :
  let b := AudioBuffer.mk 8000 3 [] 0 in
  let b' := fst (AudioBuffer.feed b [[1; 2]; [3; 4; 5]]%Q) in
  AudioBuffer.wf b /\ AudioBuffer.frame_count b' = 5 /\
  Z.of_nat (length (AudioBuffer.buffer b')) = 3.
Proof.
  intros b b'. assert (Hwf : AudioBuffer.wf b) by (split; simpl; lia).
  pose proof (frame_count_counts_dropped_samples b [[1; 2]; [3; 4; 5]]%Q Hwf)
    as (H1 & H2 & _).
  split; [exact Hwf|]. split; [exact H1 | exact H2].
Defined.

(** X7: the window taken when [add_frame] returns [True] is full: on a buffer
    of positive or zero capacity that respects it, a [True] flag means
    [get_buffer] returns exactly [buffer_size] samples, and after [clear] the
    next flag depends on the next batch alone. *)
Theorem ready_window_is_full (b : AudioBuffer.t) (xs ys : list Q)
    (Hwf : AudioBuffer.wf b) (Hfull : snd (AudioBuffer.add_frame b xs) = true) :
  let b' := fst (AudioBuffer.add_frame b xs) in
  Z.of_nat (length (AudioBuffer.get_buffer b')) = AudioBuffer.buffer_size b /\
  snd (AudioBuffer.add_frame (AudioBuffer.clear b') ys)
  = (AudioBuffer.buffer_size b <=? Z.of_nat (length ys)).
Proof.
  intros b'. rewrite add_frame_flag in Hfull by done. apply Z.leb_le in Hfull.
  split.
  - unfold AudioBuffer.get_buffer, b'. rewrite add_frame_buffer_length by done. lia.
  - rewrite add_frame_flag; [done|]. apply clear_wf. destruct Hwf. unfold b'. simpl. lia.
Qed.

Lemma ready_window_is_full_witness :
  let b := AudioBuffer.mk 8000 3 [1; 2]%Q 2 in
  AudioBuffer.wf b /\ snd (AudioBuffer.add_frame b [3; 4]%Q) = true /\
  Z.of_nat (length (AudioBuffer.get_buffer (fst (AudioBuffer.add_frame b [3; 4]%Q)))) = 3.
Proof.
  intros b. assert (Hwf : AudioBuffer.wf b) by (split; simpl; lia).
  assert (Hfull : snd (AudioBuffer.add_frame b [3; 4]%Q) = true) by reflexivity.
  split; [exact Hwf|]. split; [exact Hfull|].
  exact (proj1 (ready_window_is_full b [3; 4]%Q [] Hwf Hfull)).
Defined.




(** ** The feature extractor, continued *)

Lemma dict_get_set (k k' : string) (v : Q) (d : PyDict.t) :
  dict_get k (PyDict.set k' v d) = if String.eqb k k' then Some v else dict_get k d.
Proof.
  induction d as [|[k0 v0] d IH]; simpl; [done|].
  destruct (String.eqb_spec k' k0) as [->|Hne]; simpl.
  - by destruct (String.eqb k k0).
  - rewrite IH. destruct (String.eqb_spec k k0) as [->|Hne'];
      [|done]. destruct (String.eqb_spec k0 k') as [->|]; done.
Qed.

Lemma dict_get_set_eq (k : string) (v : Q) (d : PyDict.t) :
  dict_get k (PyDict.set k v d) = Some v.
Proof. by rewrite dict_get_set, String.eqb_refl. Qed.

Lemma dict_get_set_ne (k k' : string) (v : Q) (d : PyDict.t) :
  k <> k' -> dict_get k (PyDict.set k' v d) = dict_get k d.
Proof. intros Hne. rewrite dict_get_set. by destruct (String.eqb_spec k k'). Qed.

Lemma dict_get_keys (k : string) (d : PyDict.t) :
  is_Some (dict_get k d) <-> k ∈ PyDict.keys d.
Proof.
  induction d as [|[k0 v0] d IH]; simpl.
  - split; [by intros [? ?] | by intros ?%elem_of_nil].
  - destruct (String.eqb_spec k k0) as [->|Hne].
    + split; [intros _; left | eauto].
    + rewrite IH. split; [by right | by intros [?|?]%elem_of_cons].
Qed.

(** Assigning zero to a list of keys. *)
Lemma dict_get_update_zero (ks : list string) (d : PyDict.t) (k : string) :
  dict_get k (PyDict.update (map (fun k => (k, 0%Q)) ks) d)
  = if bool_decide (k ∈ ks) then Some 0%Q else dict_get k d.
Proof.
  unfold PyDict.update. revert d.
  induction ks as [|k0 ks IH]; intros d; simpl; [done|].
  rewrite IH. destruct (decide (k ∈ ks)) as [Hin|Hout].
  - rewrite !bool_decide_eq_true_2; [done | by right | done].
  - rewrite (bool_decide_eq_false_2 (k ∈ ks)) by done.
    rewrite dict_get_set. destruct (String.eqb_spec k k0) as [->|Hne].
    + by rewrite bool_decide_eq_true_2 by left.
    + rewrite bool_decide_eq_false_2; [done|]. by intros [?|?]%elem_of_cons.
Qed.

Lemma mfcc_zeros_update (range : list nat) (d : PyDict.t) :
  fold_left (fun features i =>
               PyDict.set (FeatureExtractor.mfcc_std_key i) 0%Q
                 (PyDict.set (FeatureExtractor.mfcc_mean_key i) 0%Q features))
            range d
  = PyDict.update
      (map (fun k => (k, 0%Q))
           (flat_map (fun i => [FeatureExtractor.mfcc_mean_key i;
                                FeatureExtractor.mfcc_std_key i]) range)) d.
Proof.
  unfold PyDict.update. revert d.
  induction range as [|i range IH]; intros d; simpl; [done|]. by rewrite IH.
Qed.

Section Leaves.
Import FeatureExtractor.

Lemma leaves_ret {A} (a : A) : leaves (ret a) [].
Proof. by intros d k _. Qed.

Lemma leaves_call {A} (r : option A) : leaves (call r) [].
Proof. by intros d k _. Qed.

Lemma leaves_assign (k' : string) (v : Q) : leaves (assign k' v) [k'].
Proof.
  intros d k Hk. simpl. apply dict_get_set_ne. intros ->. apply Hk. by left.
Qed.

Lemma leaves_bind {A B} (m : block A) (f : A -> block B) (p q r : list string) :
  leaves m p -> (forall a, leaves (f a) q) -> p ++ q = r -> leaves (bind m f) r.
Proof.
  intros Hm Hf <- d k Hk. unfold bind.
  specialize (Hm d k). destruct (m d) as [d1 [a|]]; simpl in *.
  - rewrite (Hf a d1 k); [apply Hm|]; set_solver.
  - apply Hm. set_solver.
Qed.

Lemma leaves_if {A} (c : bool) (m1 m2 : block A) (ks : list string) :
  leaves m1 ks -> leaves m2 ks -> leaves (if c then m1 else m2) ks.
Proof. by destruct c. Qed.

Lemma leaves_for_range (body : nat -> block unit) (f : nat -> list string)
    (range : list nat) :
  (forall i, leaves (body i) (f i)) -> leaves (for_range body range) (flat_map f range).
Proof.
  intros Hbody. induction range as [|i range IH]; simpl.
  - apply leaves_ret.
  - by eapply leaves_bind.
Qed.

Lemma try_except_leaves (body : block unit) (handler : PyDict.t -> PyDict.t)
    (ks : list string) (d : PyDict.t) (k : string) :
  leaves body ks ->
  (forall d', dict_get k (handler d') = dict_get k d') ->
  k ∉ ks ->
  dict_get k (try_except body handler d) = dict_get k d.
Proof.
  intros Hbody Hhandler Hk. unfold try_except. specialize (Hbody d k Hk).
  destruct (body d) as [d' [[]|]]; simpl in Hbody; [done|].
  by rewrite Hhandler.
Qed.

(** When the body raises, the handler decides every key it assigns. *)
Lemma try_except_raised (body : block unit) (handler : PyDict.t -> PyDict.t)
    (d : PyDict.t) :
  snd (body d) = None -> try_except body handler d = handler (fst (body d)).
Proof. unfold try_except. by destruct (body d) as [d' [[]|]]. Qed.
End Leaves.

Ltac solve_leaves :=
  cbv zeta;
  lazymatch goal with
  | |- leaves (FeatureExtractor.bind _ _) _ =>
      eapply leaves_bind; [solve_leaves | intros ?; solve_leaves | reflexivity]
  | |- leaves (FeatureExtractor.call _) _ => apply leaves_call
  | |- leaves (FeatureExtractor.assign _ _) _ => apply leaves_assign
  | |- leaves (FeatureExtractor.ret _) _ => apply leaves_ret
  | |- leaves (if _ then _ else _) _ => apply leaves_if; solve_leaves
  | |- leaves (FeatureExtractor.for_range _ _) _ =>
      eapply (leaves_for_range _
                (fun i => [FeatureExtractor.mfcc_mean_key i;
                           FeatureExtractor.mfcc_std_key i]));
      intros ?; solve_leaves
  end.

Section BlockValues.
Context `{L : Librosa}.
Import FeatureExtractor.

Lemma f0_block_body (audio : list Q) :
  f0_block audio = try_except (f0_body audio) f0_zeros.
Proof. reflexivity. Qed.

Lemma spectral_block_body (audio : list Q) :
  spectral_block audio = try_except (spectral_body audio) spectral_zeros.
Proof. reflexivity. Qed.

Lemma energy_block_body (audio : list Q) :
  energy_block audio = try_except (energy_body audio) energy_zeros.
Proof. reflexivity. Qed.

Lemma f0_zeros_update (d : PyDict.t) :
  f0_zeros d = PyDict.update (map (fun k => (k, 0%Q)) f0_keys) d.
Proof. reflexivity. Qed.

Lemma spectral_zeros_update (d : PyDict.t) :
  spectral_zeros d = PyDict.update (map (fun k => (k, 0%Q)) spectral_keys) d.
Proof.
  unfold spectral_zeros. rewrite mfcc_zeros_update.
  unfold spectral_keys, mfcc_keys, PyDict.update. by rewrite map_app, fold_left_app.
Qed.

Lemma energy_zeros_update (d : PyDict.t) :
  energy_zeros d = PyDict.update (map (fun k => (k, 0%Q)) energy_keys) d.
Proof. reflexivity. Qed.

Lemma f0_block_leaves (audio : list Q) (d : PyDict.t) (k : string) :
  k ∉ f0_keys -> dict_get k (f0_block audio d) = dict_get k d.
Proof.
  intros Hk. rewrite f0_block_body. apply (try_except_leaves _ _ f0_keys); [|
    |done].
  - unfold f0_body. solve_leaves.
  - intros d'. rewrite f0_zeros_update, dict_get_update_zero.
    by rewrite bool_decide_eq_false_2.
Qed.

Lemma spectral_block_leaves (audio : list Q) (d : PyDict.t) (k : string) :
  k ∉ spectral_keys -> dict_get k (spectral_block audio d) = dict_get k d.
Proof.
  intros Hk. rewrite spectral_block_body.
  apply (try_except_leaves _ _ spectral_keys); [| |done].
  - unfold spectral_body. solve_leaves.
  - intros d'. rewrite spectral_zeros_update, dict_get_update_zero.
    by rewrite bool_decide_eq_false_2.
Qed.

Lemma energy_block_leaves (audio : list Q) (d : PyDict.t) (k : string) :
  k ∉ energy_keys -> dict_get k (energy_block audio d) = dict_get k d.
Proof.
  intros Hk. rewrite energy_block_body.
  apply (try_except_leaves _ _ energy_keys); [| |done].
  - unfold energy_body. solve_leaves.
  - intros d'. rewrite energy_zeros_update, dict_get_update_zero.
    by rewrite bool_decide_eq_false_2.
Qed.
End BlockValues.
Lemma block_keys_disjoint :
  Forall (fun k => (k ∉ spectral_keys) /\ (k ∉ energy_keys)) f0_keys /\
  Forall (fun k => (k ∉ f0_keys) /\ (k ∉ energy_keys)) spectral_keys /\
  Forall (fun k => (k ∉ f0_keys) /\ (k ∉ spectral_keys)) energy_keys.
Proof.
  split; [|split]; apply (bool_decide_unpack _); vm_compute; exact I.
Qed.

Section ExtractValues.
Context `{L : Librosa}.
Import FeatureExtractor.

Lemma f0_features_survive (audio : list Q) (k : string) :
  k ∈ f0_keys -> dict_get k (extract_blocks audio) = dict_get k (f0_block audio []).
Proof.
  intros Hk. destruct block_keys_disjoint as (Hd & _ & _).
  rewrite Forall_forall in Hd. destruct (Hd k Hk) as [Hs He].
  unfold extract_blocks. by rewrite energy_block_leaves, spectral_block_leaves.
Qed.

Lemma spectral_features_survive (audio : list Q) (k : string) :
  k ∈ spectral_keys ->
  dict_get k (extract_blocks audio)
  = dict_get k (spectral_block audio (f0_block audio [])).
Proof.
  intros Hk. destruct block_keys_disjoint as (_ & Hd & _).
  rewrite Forall_forall in Hd. destruct (Hd k Hk) as [Hf He].
  unfold extract_blocks. by rewrite energy_block_leaves.
Qed.

Lemma spectral_body_raises (audio : list Q) (d : PyDict.t) :
  spectral_centroid audio sample_rate = None \/
  spectral_rolloff audio sample_rate = None \/
  zero_crossing_rate audio = None \/
  mfcc audio sample_rate 13 = None ->
  snd (spectral_body audio d) = None.
Proof.
  unfold spectral_body, bind, call, assign.
  intros [H | [H | [H | H]]].
  - by rewrite H.
  - destruct (spectral_centroid _ _); [|done]. by rewrite H.
  - destruct (spectral_centroid _ _); [|done].
    destruct (spectral_rolloff _ _); [|done]. by rewrite H.
  - destruct (spectral_centroid _ _); [|done].
    destruct (spectral_rolloff _ _); [|done].
    destruct (zero_crossing_rate _); [|done]. by rewrite H.
Qed.
End ExtractValues.

(** X9: a fault anywhere in the spectral block costs the whole block.  When
    one of its library calls raises, the handler overwrites all 31 spectral
    and cepstral features with 0.0, those computed before the fault
    included. *)
Theorem spectral_fault_zeroes_block `{L : Librosa} (audio : list Q) (k : string)
    (Hfault : snd (spectral_body audio (FeatureExtractor.f0_block audio [])) = None)
    (Hk : k ∈ spectral_keys) :
  dict_get k (FeatureExtractor.extract_blocks audio) = Some 0%Q /\
  (spectral_centroid audio FeatureExtractor.sample_rate = None \/
   spectral_rolloff audio FeatureExtractor.sample_rate = None \/
   zero_crossing_rate audio = None \/
   mfcc audio FeatureExtractor.sample_rate 13 = None ->
   forall d : PyDict.t, snd (spectral_body audio d) = None).
Proof.
  split; [|intros Hcall d; by apply spectral_body_raises].
  rewrite spectral_features_survive, spectral_block_body by done.
  rewrite try_except_raised by done.
  rewrite spectral_zeros_update, dict_get_update_zero.
  by rewrite bool_decide_eq_true_2.
Qed.

Lemma spectral_fault_zeroes_block_witness :
  snd (@spectral_body Demo.librosa_faulty [1%Q]
         (@FeatureExtractor.f0_block Demo.librosa_faulty [1%Q] [])) = None /\
  "spectral_centroid_mean" ∈ spectral_keys /\
  dict_get "spectral_centroid_mean"
    (@FeatureExtractor.extract_blocks Demo.librosa_faulty [1%Q]) = Some 0%Q.
Proof.
  assert (Hfault : snd (@spectral_body Demo.librosa_faulty [1%Q]
                          (@FeatureExtractor.f0_block Demo.librosa_faulty [1%Q] [])) = None)
    by reflexivity.
  assert (Hk : "spectral_centroid_mean" ∈ spectral_keys) by (left).
  split; [exact Hfault|]. split; [exact Hk|].
  exact (proj1 (@spectral_fault_zeroes_block Demo.librosa_faulty [1%Q]
                  "spectral_centroid_mean" Hfault Hk)).
Defined.

(** X10: each of the three blocks writes its own keys only, so a fault in a
    later block never alters an earlier one: the pitch features of the
    result are those the pitch block computed, the spectral features those
    the spectral block computed, and the result has an entry for each of the
    38 keys and for no other. *)
Theorem blocks_keep_to_their_keys `{L : Librosa} (audio : list Q) (k : string) :
  (k ∈ f0_keys ->
   dict_get k (FeatureExtractor.extract_blocks audio)
   = dict_get k (FeatureExtractor.f0_block audio [])) /\
  (k ∈ spectral_keys ->
   dict_get k (FeatureExtractor.extract_blocks audio)
   = dict_get k (FeatureExtractor.spectral_block audio
                   (FeatureExtractor.f0_block audio []))) /\
  (is_Some (dict_get k (FeatureExtractor.extract_blocks audio)) <-> k ∈ extraction_order).
Proof.
  split; [apply f0_features_survive|]. split; [apply spectral_features_survive|].
  by rewrite dict_get_keys, extract_blocks_keys.
Qed.

Lemma blocks_keep_to_their_keys_witness :
  "f0_mean" ∈ f0_keys /\
  dict_get "f0_mean" (@FeatureExtractor.extract_blocks Demo.librosa_faulty [1%Q])
  = dict_get "f0_mean" (@FeatureExtractor.f0_block Demo.librosa_faulty [1%Q] []) /\
  "zcr_std" ∈ spectral_keys /\
  dict_get "zcr_std" (@FeatureExtractor.extract_blocks Demo.librosa_faulty [1%Q])
  = dict_get "zcr_std" (@FeatureExtractor.spectral_block Demo.librosa_faulty [1%Q]
                          (@FeatureExtractor.f0_block Demo.librosa_faulty [1%Q] [])).
Proof.
  assert (H1 : "f0_mean" ∈ f0_keys) by left.
  assert (H2 : "zcr_std" ∈ spectral_keys) by (do 4 right; left).
  split; [exact H1|].
  split; [exact (proj1 (@blocks_keep_to_their_keys Demo.librosa_faulty [1%Q] "f0_mean") H1)|].
  split; [exact H2|].
  exact (proj1 (proj2 (@blocks_keep_to_their_keys Demo.librosa_faulty [1%Q] "zcr_std")) H2).
Defined.

(** X11: the pitch features describe voiced frames only.  When [yin] raises
    or returns no positive value all three are 0.0; otherwise the mean and
    the deviation are taken over the positive values alone and the range is
    their maximum minus their minimum. *)
Theorem f0_features_from_voiced_frames `{L : Librosa} (audio : list Q) :
  let result := FeatureExtractor.extract_blocks audio in
  let sr := FeatureExtractor.sample_rate in
  ((yin audio 50 400 sr = None \/
    exists f0, yin audio 50 400 sr = Some f0 /\
               List.filter (fun x => FeatureExtractor.Qltb 0 x) f0 = []) ->
   forall k, k ∈ f0_keys -> dict_get k result = Some 0%Q) /\
  (forall (f0 : list Q) (v : Q) (vs : list Q),
      yin audio 50 400 sr = Some f0 ->
      List.filter (fun x => FeatureExtractor.Qltb 0 x) f0 = v :: vs ->
      dict_get "f0_mean" result = Some (np_mean (v :: vs)) /\
      dict_get "f0_std" result = Some (np_std (v :: vs)) /\
      dict_get "f0_range" result
      = Some (fold_left Qmax vs v - fold_left Qmin vs v)%Q).
Proof.
  intros result sr. unfold result, sr. split.
  - intros Hun k Hk. rewrite f0_features_survive by done.
    assert (Hz : FeatureExtractor.f0_block audio []
                 = map (fun k => (k, 0%Q)) f0_keys).
    { unfold FeatureExtractor.f0_block, FeatureExtractor.try_except,
        FeatureExtractor.bind, FeatureExtractor.call.
      destruct Hun as [Hy | (f0 & Hy & Hf)]; rewrite Hy; [done|].
      cbv zeta. by rewrite Hf. }
    rewrite Hz. unfold f0_keys in Hk |- *.
    repeat (apply elem_of_cons in Hk as [->|Hk]; [reflexivity|]).
    by apply elem_of_nil in Hk.
  - intros f0 v vs Hy Hf.
    assert (Hz : FeatureExtractor.f0_block audio []
                 = [("f0_mean", np_mean (v :: vs)); ("f0_std", np_std (v :: vs));
                    ("f0_range", (fold_left Qmax vs v - fold_left Qmin vs v)%Q)]).
    { unfold FeatureExtractor.f0_block, FeatureExtractor.try_except,
        FeatureExtractor.bind, FeatureExtractor.call.
      rewrite Hy. cbv zeta. by rewrite Hf. }
    rewrite !f0_features_survive by (unfold f0_keys; set_solver).
    by rewrite Hz.
Qed.

Lemma f0_features_from_voiced_frames_witness :
  (@yin Demo.librosa_down [1%Q] 50 400 FeatureExtractor.sample_rate = None /\
   "f0_range" ∈ f0_keys /\
   dict_get "f0_range" (@FeatureExtractor.extract_blocks Demo.librosa_down [1%Q])
   = Some 0%Q) /\
  (@yin Demo.librosa [3; -1; 5]%Q 50 400 FeatureExtractor.sample_rate = Some [3; -1; 5]%Q /\
   List.filter (fun x => FeatureExtractor.Qltb 0 x) [3; -1; 5]%Q = [3; 5]%Q /\
   dict_get "f0_range" (@FeatureExtractor.extract_blocks Demo.librosa [3; -1; 5]%Q)
   = Some (fold_left Qmax [5%Q] 3 - fold_left Qmin [5%Q] 3)%Q).
Proof.
  assert (Hk : "f0_range" ∈ f0_keys) by (do 2 right; left).
  assert (Hy0 : @yin Demo.librosa_down [1%Q] 50 400 FeatureExtractor.sample_rate = None)
    by reflexivity.
  assert (Hy1 : @yin Demo.librosa [3; -1; 5]%Q 50 400 FeatureExtractor.sample_rate
                = Some [3; -1; 5]%Q) by reflexivity.
  assert (Hf : List.filter (fun x => FeatureExtractor.Qltb 0 x) [3; -1; 5]%Q = [3; 5]%Q)
    by reflexivity.
  split.
  - split; [exact Hy0|]. split; [exact Hk|].
    exact (proj1 (@f0_features_from_voiced_frames Demo.librosa_down [1%Q])
             (or_introl Hy0) "f0_range" Hk).
  - split; [exact Hy1|]. split; [exact Hf|].
    exact (proj2 (proj2 (proj2 (@f0_features_from_voiced_frames Demo.librosa [3; -1; 5]%Q)
                           [3; -1; 5]%Q 3%Q [5%Q] Hy1 Hf))).
Defined.
Lemma fold_Qmax_ge (l : list Q) (x : Q) :
  (x <= fold_left Qmax l x)%Q /\ Forall (fun y => (y <= fold_left Qmax l x)%Q) l.
Proof.
  revert x. induction l as [|y l IH]; intros x; simpl.
  - split; [apply Qle_refl | constructor].
  - destruct (IH (Qmax x y)) as [H1 H2]. split; [|constructor; [|done]].
    + eapply Qle_trans; [apply Q.le_max_l | exact H1].
    + eapply Qle_trans; [apply Q.le_max_r | exact H1].
Qed.

Lemma normalize_range (peak : Q) (audio : list Q) :
  Forall (fun x => (Qabs x <= peak)%Q) audio ->
  Forall (fun x => (-1 <= x <= 1)%Q) (normalize peak audio).
Proof.
  intros Hall. unfold normalize. apply List.Forall_forall.
  intros y Hy. apply in_map_iff in Hy as (x & <- & Hx).
  rewrite List.Forall_forall in Hall. specialize (Hall x Hx).
  pose proof (Qabs_nonneg x) as Hnn.
  apply Qabs_Qle_condition in Hall as [Hlo Hhi].
  assert (Hpos : (0 < peak + (1 # 100000000))%Q).
  { assert (0 < 1 # 100000000)%Q by reflexivity. lra. }
  split.
  - apply Qle_shift_div_l; [done|]. lra.
  - apply Qle_shift_div_r; [done|]. lra.
Qed.

(** X12: a window that passes the guard is scaled before any feature is
    computed: every sample is divided by the largest magnitude in the window
    plus 1e-8, so what the library calls see has the same number of samples,
    all within [-1, 1]. *)
Theorem window_is_peak_normalized `{L : Librosa} (audio : list Q)
    (Hloud : FeatureExtractor.silent audio = false) :
  exists peak : Q,
    FeatureExtractor.np_max (map Qabs audio) = Some peak /\
    Forall (fun x => (Qabs x <= peak)%Q) audio /\
    FeatureExtractor.extract_basic_features audio
    = FeatureExtractor.extract_blocks (normalize peak audio) /\
    length (normalize peak audio) = length audio /\
    Forall (fun x => (-1 <= x <= 1)%Q) (normalize peak audio).
Proof.
  unfold FeatureExtractor.extract_basic_features. rewrite Hloud.
  destruct audio as [|x audio]; [discriminate|].
  cbn [map FeatureExtractor.np_max].
  exists (fold_left Qmax (map Qabs audio) (Qabs x)).
  destruct (fold_Qmax_ge (map Qabs audio) (Qabs x)) as [H1 H2].
  assert (Hall : Forall (fun y => (Qabs y <= fold_left Qmax (map Qabs audio) (Qabs x))%Q)
                   (x :: audio)).
  { constructor; [done|]. apply List.Forall_forall. intros y Hy.
    rewrite List.Forall_forall in H2. apply H2. by apply in_map. }
  split; [done|]. split; [done|]. split; [done|].
  split; [apply length_map | by apply normalize_range].
Qed.

Lemma window_is_peak_normalized_witness :
  FeatureExtractor.silent [1 # 2; - (1 # 4)]%Q = false /\
  exists peak : Q,
    FeatureExtractor.np_max (map Qabs [1 # 2; - (1 # 4)]%Q) = Some peak /\
    Forall (fun x => (-1 <= x <= 1)%Q) (normalize peak [1 # 2; - (1 # 4)]%Q).
Proof.
  assert (Hloud : FeatureExtractor.silent [1 # 2; - (1 # 4)]%Q = false) by reflexivity.
  split; [exact Hloud|].
  destruct (@window_is_peak_normalized Demo.librosa [1 # 2; - (1 # 4)]%Q Hloud)
    as (peak & Hpeak & _ & _ & _ & Hrange).
  exists peak. split; [exact Hpeak | exact Hrange].
Defined.
(** ** History, scoring and the risk states, continued *)

Section ModelObjects.
Context `{S : Sklearn}.
Import RiskAssessment.

Lemma update_many_min_samples (windows : list PyDict.t) (self : t) (pid : string) :
  min_samples (update_many self pid windows) = min_samples self.
Proof.
  unfold update_many. revert self.
  induction windows as [|w windows IH]; intros self; simpl; [done|].
  by rewrite IH, update_min_samples.
Qed.

Lemma fit_and_score_scored (self : t) (pid : string) (raw : Q) :
  snd (fit_and_score self pid) = Some raw ->
  is_Some (scalers (fst (fit_and_score self pid)) !! pid) /\
  is_Some (models (fst (fit_and_score self pid)) !! pid).
Proof.
  unfold fit_and_score.
  destruct (np_array _) as [X|]; [|done].
  destruct (fit_transform _ X) as [sc [Xs|]]; [|done].
  destruct (fit _ Xs) as [fo [[]|]]; [|done].
  destruct (decision_function fo _); [|done].
  simpl. intros _. by rewrite !lookup_insert_eq.
Qed.
End ModelObjects.

(** X13: scalers and models are created lazily and survive faults.  A call
    that returns "warming_up" leaves both dictionaries as they were; so does
    one whose history numpy rejects; a call that returns "ok" leaves a scaler
    and a model for the patient; and when [fit_transform] raises, the scaler
    the call created or refitted is kept while the models are untouched. *)
Theorem model_objects_by_outcome `{S : Sklearn} (self : RiskAssessment.t)
    (pid : string) (features : PyDict.t) :
  let appended := RiskAssessment.append_history self pid features in
  let result := RiskAssessment.update_patient_model self pid features in
  (snd (snd result) = "warming_up" ->
   RiskAssessment.scalers (fst result) = RiskAssessment.scalers self /\
   RiskAssessment.models (fst result) = RiskAssessment.models self) /\
  (np_array (RiskAssessment.history appended pid) = None ->
   RiskAssessment.scalers (fst result) = RiskAssessment.scalers self /\
   RiskAssessment.models (fst result) = RiskAssessment.models self) /\
  (snd (snd result) = "ok" ->
   is_Some (RiskAssessment.scalers (fst result) !! pid) /\
   is_Some (RiskAssessment.models (fst result) !! pid)) /\
  (forall X : list (list Q),
      snd (snd result) = "error" ->
      np_array (RiskAssessment.history appended pid) = Some X ->
      snd (fit_transform (default StandardScaler (RiskAssessment.scalers self !! pid)) X)
      = None ->
      is_Some (RiskAssessment.scalers (fst result) !! pid) /\
      RiskAssessment.models (fst result) = RiskAssessment.models self).
Proof.
  intros appended result. unfold result, RiskAssessment.update_patient_model.
  fold appended. cbv zeta.
  destruct (_ <? _).
  - split; [done|]. split; [done|]. split; [discriminate|]. discriminate.
  - pose proof (fit_and_score_scored appended pid) as Hok.
    unfold RiskAssessment.fit_and_score in *.
    destruct (np_array _) as [X|]; [|by repeat split].
    change (RiskAssessment.scalers appended) with (RiskAssessment.scalers self) in *.
    change (RiskAssessment.models appended) with (RiskAssessment.models self) in *.
    destruct (fit_transform _ X) as [sc [Xs|]] eqn:Hft.
    + assert (Herr : forall (P : Prop) (X' : list (list Q)),
                 Some X = Some X' ->
                 snd (fit_transform
                        (default StandardScaler (RiskAssessment.scalers self !! pid)) X')
                 = None -> P).
      { intros P X' [= <-] Hnone. rewrite Hft in Hnone. discriminate. }
      destruct (fit _ Xs) as [fo [[]|]].
      * destruct (decision_function fo _) as [scores|].
        -- destruct (head scores) as [raw|]; simpl in *.
           ++ split; [discriminate|]. split; [discriminate|].
              split; [intros _; by apply (Hok raw)|].
              discriminate.
           ++ split; [discriminate|]. split; [discriminate|].
              split; [discriminate|]. intros X' _. apply Herr.
        -- simpl. split; [discriminate|]. split; [discriminate|].
           split; [discriminate|]. intros X' _. apply Herr.
      * simpl. split; [discriminate|]. split; [discriminate|].
        split; [discriminate|]. intros X' _. apply Herr.
    + simpl. split; [discriminate|]. split; [discriminate|].
      split; [discriminate|]. intros X' _ _ _.
      by rewrite lookup_insert_eq.
Qed.

Lemma model_objects_by_outcome_witness :
  let fresh := @RiskAssessment.init Demo.sklearn (1 # 10) in
  let first := RiskAssessment.update_patient_model fresh "p" (Demo.window 1) in
  let ragged := RiskAssessment.update_patient_model demo_warm "p" [("f0_mean", 1%Q)] in
  let failed := RiskAssessment.update_patient_model unscalable_warm "p" (Demo.window 1) in
  let scored := RiskAssessment.update_patient_model (fst demo_fault) "p" (Demo.window 0) in
  (snd (snd first) = "warming_up" /\
   RiskAssessment.scalers (fst first) = RiskAssessment.scalers fresh) /\
  (@np_array Demo.sklearn
     (RiskAssessment.history
        (RiskAssessment.append_history demo_warm "p" [("f0_mean", 1%Q)]) "p") = None /\
   RiskAssessment.models (fst ragged) = RiskAssessment.models demo_warm) /\
  (snd (snd scored) = "ok" /\
   is_Some (RiskAssessment.models (fst scored) !! "p")) /\
  (snd (snd failed) = "error" /\
   is_Some (RiskAssessment.scalers (fst failed) !! "p") /\
   RiskAssessment.models (fst failed) = RiskAssessment.models unscalable_warm).
Proof.
  intros fresh first ragged failed scored.
  assert (H1 : snd (snd first) = "warming_up") by (vm_compute; reflexivity).
  assert (H2 : @np_array Demo.sklearn
                 (RiskAssessment.history
                    (RiskAssessment.append_history demo_warm "p" [("f0_mean", 1%Q)]) "p")
               = None) by (vm_compute; reflexivity).
  assert (H3 : snd (snd scored) = "ok") by (vm_compute; reflexivity).
  assert (H4 : snd (snd failed) = "error") by (vm_compute; reflexivity).
  set (X := RiskAssessment.history
              (RiskAssessment.append_history unscalable_warm "p" (Demo.window 1)) "p").
  assert (H5 : @np_array sklearn_unscalable X = Some X) by (vm_compute; reflexivity).
  assert (H6 : snd (@fit_transform sklearn_unscalable
                      (default (@StandardScaler sklearn_unscalable)
                         (RiskAssessment.scalers unscalable_warm !! "p")) X) = None)
    by reflexivity.
  split; [|split; [|split]].
  - split; [exact H1|].
    exact (proj1 (proj1 (@model_objects_by_outcome Demo.sklearn fresh "p"
                           (Demo.window 1)) H1)).
  - split; [exact H2|].
    exact (proj2 (proj1 (proj2 (@model_objects_by_outcome Demo.sklearn demo_warm "p"
                                  [("f0_mean", 1%Q)])) H2)).
  - split; [exact H3|].
    exact (proj2 (proj1 (proj2 (proj2
             (@model_objects_by_outcome Demo.sklearn (fst demo_fault) "p"
                (Demo.window 0)))) H3)).
  - split; [exact H4|].
    exact (proj2 (proj2 (proj2
             (@model_objects_by_outcome sklearn_unscalable unscalable_warm "p"
                (Demo.window 1)))) X H4 H5 H6).
Defined.


Lemma update_many_length `{S : Sklearn} (c : Q) (pid : string) (windows : list PyDict.t) :
  length (RiskAssessment.history
            (RiskAssessment.update_many (RiskAssessment.init c) pid windows) pid)
  = Nat.min (length windows) 100.
Proof.
  rewrite update_many_history; rewrite init_history; [|simpl; lia].
  rewrite app_nil_l, length_drop, length_map. lia.
Qed.

(** X15: a new patient is warming up for exactly nine windows: after [k]
    windows the history holds min(k, 100) rows, and the next call returns
    "warming_up" if and only if k is below 9, whatever the windows hold and
    whatever the model library does. *)
Theorem warm_up_lasts_nine_windows `{S : Sklearn} (c : Q) (pid : string)
    (windows : list PyDict.t) (features : PyDict.t) :
  let self := RiskAssessment.update_many (RiskAssessment.init c) pid windows in
  length (RiskAssessment.history self pid) = Nat.min (length windows) 100 /\
  (snd (snd (RiskAssessment.update_patient_model self pid features)) = "warming_up"
   <-> (length windows < 9)%nat).
Proof.
  intros self. split; [apply update_many_length|].
  rewrite update_result. cbv zeta.
  unfold self at 2. rewrite update_many_min_samples. cbn [RiskAssessment.min_samples
                                                            RiskAssessment.init].
  rewrite append_history_lookup, length_drop, length_app. cbn [length].
  unfold self. rewrite update_many_length.
  destruct (Z.ltb_spec
              (Z.of_nat (Nat.min (length windows) 100 + 1
                         - (Nat.min (length windows) 100 + 1 - 100))) 10) as [Hlt|Hge].
  - split; [lia | done].
  - split; [|lia].
    by destruct (snd (RiskAssessment.fit_and_score _ pid)).
Qed.

(** ** The message loop, continued *)

Section ServiceMore.
Context `{L : Librosa} `{S : Sklearn} `{B : Base64}.
Import BiomarkerService.
Implicit Types (self : t) (id : string) (message : Message.t).

Lemma process_carries (time_ : Q) self message id (bytes : list byte) :
  carries message id bytes ->
  process_audio_message time_ self message
  = buffer_and_assess time_ self id (Mulaw.decode_mulaw bytes) (Message.timestamp message).
Proof.
  intros (Ht & Hid & Hne & payload & Ha & Hpe & Hp & Hb).
  by apply (process_valid time_ self message id payload bytes).
Qed.

Lemma buffer_and_assess_settled (time_ : Q) self id (audio_data : list Q) (ts : option Q) :
  settled self -> settled (fst (buffer_and_assess time_ self id audio_data ts)).
Proof.
  intros [Hwf Hroom]. split; [by apply buffer_and_assess_wf|].
  rewrite buffer_and_assess_eq by done.
  pose proof (stored_buffer_flag self id audio_data Hwf) as Hflag.
  destruct (stored_buffer_wf self id Hwf) as [Hb Hsize].
  pose proof (add_frame_buffer_length _ audio_data Hb) as Hlen.
  cbv zeta in Hflag, Hsize, Hlen. rewrite Hsize in Hlen.
  destruct (AudioBuffer.add_frame _ audio_data) as [b1 full].
  cbn [fst snd] in Hflag, Hlen |- *.
  intros id' buffer'. destruct full; cbn [fst audio_buffers];
    (destruct (decide (id = id')) as [<-|Hne];
     [rewrite lookup_insert_eq; intros [= <-] | rewrite lookup_insert_ne by done; apply Hroom]).
  - simpl. lia.
  - symmetry in Hflag. apply Z.leb_gt in Hflag. lia.
Qed.

Lemma process_settled (time_ : Q) self message :
  settled self -> settled (fst (process_audio_message time_ self message)).
Proof.
  intros Hs.
  destruct (process_cases time_ self message) as [-> | (id & data & _ & ->)]; [done|].
  by apply buffer_and_assess_settled.
Qed.

Lemma handle_client_settled (frames : list (Q * option Message.t)) self :
  settled self -> settled (fst (handle_client self frames)).
Proof.
  revert self. induction frames as [|[time_ [data|]] frames IH]; intros self Hs; simpl.
  - done.
  - pose proof (process_settled time_ self data Hs) as H1.
    destruct (process_audio_message time_ self data) as [self1 response].
    specialize (IH self1 H1). by destruct (handle_client self1 frames).
  - by apply IH.
Qed.

Lemma init_settled (h : string) (p : Z) : settled (init h p).
Proof. split; [apply init_wf|]. intros id buffer. unfold init; simpl. by rewrite lookup_empty. Qed.

Lemma extracted_width (audio : list Q) :
  length (PyDict.values (FeatureExtractor.extract_basic_features audio)) = 38%nat.
Proof.
  unfold PyDict.values. rewrite length_map.
  rewrite <- (length_map fst). change (map fst ?d) with (PyDict.keys d).
  rewrite extract_basic_features_keys. by destruct (FeatureExtractor.silent audio).
Qed.

Lemma append_rectangular (ra : RiskAssessment.t) (pid : string) (features : PyDict.t) :
  rectangular ra -> length (PyDict.values features) = 38%nat ->
  rectangular (fst (RiskAssessment.update_patient_model ra pid features)).
Proof.
  intros Hrect Hwidth pid' rows. rewrite update_feature_history.
  unfold RiskAssessment.append_history. cbn [RiskAssessment.feature_history].
  destruct (decide (pid = pid')) as [<-|Hne].
  - rewrite lookup_insert_eq. intros [= <-].
    assert (Hall : Forall (fun row => length row = 38%nat)
                     (RiskAssessment.history ra pid ++ [PyDict.values features])).
    { apply Forall_app. split; [|by constructor].
      unfold RiskAssessment.history.
      destruct (RiskAssessment.feature_history ra !! pid) as [h|] eqn:Hh; simpl;
        [by apply (Hrect pid) | constructor]. }
    destruct (_ <? _)%nat; [by apply Forall_drop | done].
  - rewrite lookup_insert_ne by done. apply Hrect.
Qed.

Lemma buffer_and_assess_rectangular (time_ : Q) self id (audio_data : list Q)
    (ts : option Q) :
  rectangular (risk_assessment self) ->
  rectangular (risk_assessment (fst (buffer_and_assess time_ self id audio_data ts))).
Proof.
  intros Hrect. unfold buffer_and_assess.
  set (self1 := if bool_decide (audio_buffers self !! id = None) then _ else self).
  assert (H1 : risk_assessment self1 = risk_assessment self).
  { unfold self1. by case_bool_decide. }
  destruct (audio_buffers self1 !! id) as [b|]; [|cbn [fst]; by rewrite H1].
  destruct (active_sessions self1 !! id) as [s|]; [|cbn [fst]; by rewrite H1].
  destruct (AudioBuffer.add_frame b audio_data) as [b1 full].
  destruct full; [|by cbn [fst risk_assessment]; rewrite H1].
  pose proof (append_rectangular (risk_assessment self) id
                (FeatureExtractor.extract_basic_features (AudioBuffer.get_buffer b1))
                Hrect (extracted_width _)) as Hnew.
  rewrite H1.
  by destruct (RiskAssessment.update_patient_model _ _ _) as [ra [risk status]].
Qed.

Lemma process_rectangular (time_ : Q) self message :
  rectangular (risk_assessment self) ->
  rectangular (risk_assessment (fst (process_audio_message time_ self message))).
Proof.
  intros Hs.
  destruct (process_cases time_ self message) as [-> | (id & data & _ & ->)]; [done|].
  by apply buffer_and_assess_rectangular.
Qed.

Lemma handle_client_rectangular (frames : list (Q * option Message.t)) self :
  rectangular (risk_assessment self) ->
  rectangular (risk_assessment (fst (handle_client self frames))).
Proof.
  revert self. induction frames as [|[time_ [data|]] frames IH]; intros self Hs; simpl.
  - done.
  - pose proof (process_rectangular time_ self data Hs) as H1.
    destruct (process_audio_message time_ self data) as [self1 response].
    specialize (IH self1 H1). by destruct (handle_client self1 frames).
  - by apply IH.
Qed.
End ServiceMore.

(** X16: between two messages no buffer is ever full.  The service starts
    with no buffer, and after every message, and so after every connection,
    each stored buffer has the default capacity 24000, holds fewer than 24000
    samples, and has a session record beside it: a window is consumed in
    the call that completes it. *)
Theorem service_stays_settled `{L : Librosa} `{S : Sklearn} `{B : Base64}
    (h : string) (p : Z) (time_ : Q) (self : BiomarkerService.t) (message : Message.t)
    (frames : list (Q * option Message.t)) (Hs : settled self) :
  settled (BiomarkerService.init h p) /\
  settled (fst (BiomarkerService.process_audio_message time_ self message)) /\
  settled (fst (BiomarkerService.handle_client self frames)) /\
  settled (fst (BiomarkerService.handle_client (BiomarkerService.init h p) frames)).
Proof.
  split; [apply init_settled|]. split; [by apply process_settled|].
  split; [by apply handle_client_settled|]. apply handle_client_settled, init_settled.
Qed.

Lemma service_stays_settled_witness :
  let service := @BiomarkerService.init Demo.sklearn "127.0.0.1" 9091 in
  settled service /\
  settled (fst (@BiomarkerService.process_audio_message Demo.librosa Demo.sklearn
                  Demo.base64 0 service (one_sample "s1"))).
Proof.
  intros service. assert (Hs : settled service) by apply init_settled.
  split; [exact Hs|].
  exact (proj1 (proj2 (@service_stays_settled Demo.librosa Demo.sklearn Demo.base64
                         "127.0.0.1" 9091 0 service (one_sample "s1") [] Hs))).
Defined.

(** X17: every feature vector the service appends has 38 entries, so the
    histories it builds are rectangular: starting from an empty service, after
    any sequence of frames every row of every history has length 38, on
    whichever path, fault or guard the features were produced. *)
Theorem service_histories_are_rectangular `{L : Librosa} `{S : Sklearn} `{B : Base64}
    (h : string) (p : Z) (time_ : Q) (self : BiomarkerService.t) (message : Message.t)
    (frames : list (Q * option Message.t)) (audio : list Q)
    (Hrect : rectangular (BiomarkerService.risk_assessment self)) :
  length (PyDict.values (FeatureExtractor.extract_basic_features audio)) = 38%nat /\
  rectangular (BiomarkerService.risk_assessment
                 (fst (BiomarkerService.process_audio_message time_ self message))) /\
  rectangular (BiomarkerService.risk_assessment
                 (fst (BiomarkerService.handle_client self frames))) /\
  rectangular (BiomarkerService.risk_assessment
                 (fst (BiomarkerService.handle_client (BiomarkerService.init h p) frames))).
Proof.
  split; [apply extracted_width|]. split; [by apply process_rectangular|].
  split; [by apply handle_client_rectangular|].
  apply handle_client_rectangular. intros pid rows.
  unfold BiomarkerService.init; simpl. by rewrite lookup_empty.
Qed.

Lemma nearly_full_rectangular :
  rectangular (BiomarkerService.risk_assessment nearly_full).
Proof. intros pid rows. unfold nearly_full; simpl. by rewrite lookup_empty. Qed.

Lemma service_histories_are_rectangular_witness :
  rectangular (BiomarkerService.risk_assessment nearly_full) /\
  rectangular (BiomarkerService.risk_assessment
                 (fst (@BiomarkerService.process_audio_message Demo.librosa_down
                         Demo.sklearn Demo.base64 5 nearly_full (one_sample "s1")))).
Proof.
  split; [exact nearly_full_rectangular|].
  exact (proj1 (proj2 (@service_histories_are_rectangular Demo.librosa_down Demo.sklearn
                         Demo.base64 "127.0.0.1" 9091 5 nearly_full (one_sample "s1")
                         [] [] nearly_full_rectangular))).
Defined.
Section ServiceRecords.
Context `{L : Librosa} `{S : Sklearn} `{B : Base64}.
Import BiomarkerService.
Implicit Types (self : t) (id : string) (message : Message.t).

Lemma buffer_and_assess_fields (time_ : Q) self id (audio_data : list Q)
    (ts : option Q) (r : Risk.t) :
  snd (buffer_and_assess time_ self id audio_data ts) = Some r ->
  Risk.type r = "risk" /\ Risk.timestamp r = default time_ ts.
Proof.
  unfold buffer_and_assess.
  set (self1 := if bool_decide (audio_buffers self !! id = None) then _ else self).
  destruct (audio_buffers self1 !! id) as [b|]; [|done].
  destruct (active_sessions self1 !! id) as [s|]; [|done].
  destruct (AudioBuffer.add_frame b audio_data) as [b1 full].
  destruct full; [|done].
  destruct (RiskAssessment.update_patient_model _ _ _) as [ra [risk status]].
  cbn [snd]. by intros [= <-].
Qed.

Lemma process_fields (time_ : Q) self message (r : Risk.t) :
  snd (process_audio_message time_ self message) = Some r ->
  Risk.type r = "risk" /\ Risk.timestamp r = default time_ (Message.timestamp message).
Proof.
  destruct (process_cases time_ self message) as [-> | (id & data & Hid & ->)]; [done|].
  apply buffer_and_assess_fields.
Qed.

Lemma update_status_cases (ra : RiskAssessment.t) (pid : string) (features : PyDict.t) :
  let result := snd (RiskAssessment.update_patient_model ra pid features) in
  (snd result = "warming_up" /\ fst result = 0%Q) \/
  snd result = "ok" \/
  (snd result = "error" /\ fst result = 0%Q).
Proof.
  cbv zeta. rewrite update_result. cbv zeta.
  destruct (_ <? _); [by left|].
  destruct (snd (RiskAssessment.fit_and_score _ pid)); [right; by left | by right; right].
Qed.

Lemma handle_client_app (frames1 frames2 : list (Q * option Message.t)) self :
  handle_client self (frames1 ++ frames2)
  = (fst (handle_client (fst (handle_client self frames1)) frames2),
     snd (handle_client self frames1)
     ++ snd (handle_client (fst (handle_client self frames1)) frames2)).
Proof.
  revert self. induction frames1 as [|[time_ [data|]] frames1 IH]; intros self.
  - simpl. by destruct (handle_client self frames2).
  - cbn [app handle_client].
    destruct (process_audio_message time_ self data) as [self1 response].
    rewrite (IH self1).
    destruct (handle_client self1 frames1) as [self2 sent]. cbn [fst snd].
    destruct (handle_client self2 frames2) as [self3 sent']. cbn [fst snd].
    by destruct response.
  - cbn [app handle_client]. apply IH.
Qed.

Lemma handle_client_filter (frames : list (Q * option Message.t)) self :
  handle_client self frames
  = handle_client self (List.filter (fun f => bool_decide (is_Some (snd f))) frames).
Proof.
  revert self. induction frames as [|[time_ [data|]] frames IH]; intros self.
  - done.
  - cbn [List.filter snd]. rewrite bool_decide_eq_true_2 by eauto.
    cbn [handle_client].
    destruct (process_audio_message time_ self data) as [self1 response].
    by rewrite (IH self1).
  - cbn [List.filter snd]. rewrite bool_decide_eq_false_2 by (by intros [? ?]).
    cbn [handle_client]. apply IH.
Qed.
End ServiceRecords.

(** X18: an outbound record is always well formed.  Whenever
    [process_audio_message] returns a record, its type is "risk", its risk
    lies in [0, 1] and is 0.0 unless the status is "ok", its status is one of
    "warming_up", "ok" and "error", its [n] lies between 1 and 100, its
    session id is the one of the message, the message was of type "audio", and
    its timestamp is the message's, or the clock reading when the message has
    none. *)
Theorem risk_record_is_well_formed `{L : Librosa} `{S : Sklearn} `{B : Base64}
    (time_ : Q) (self : BiomarkerService.t) (message : Message.t) (r : Risk.t)
    (Hsent : snd (BiomarkerService.process_audio_message time_ self message) = Some r) :
  Risk.type r = "risk" /\
  (0 <= Risk.risk r <= 1)%Q /\
  ((Risk.status r = "warming_up" /\ Risk.risk r = 0%Q) \/
   Risk.status r = "ok" \/
   (Risk.status r = "error" /\ Risk.risk r = 0%Q)) /\
  1 <= Risk.n r <= 100 /\
  Message.chainRunId message = Some (Risk.chainRunId r) /\
  Message.type message = Some "audio" /\
  Risk.timestamp r = default time_ (Message.timestamp message).
Proof.
  destruct (process_fields time_ self message r Hsent) as [Htype Hts].
  destruct (process_record time_ self message r Hsent)
    as (Hid & features & _ & Hrs & Hn). cbv zeta in Hrs, Hn.
  pose proof (update_risk_range (BiomarkerService.risk_assessment self)
                (Risk.chainRunId r) features) as Hrange.
  pose proof (update_status_cases (BiomarkerService.risk_assessment self)
                (Risk.chainRunId r) features) as Hcases.
  cbv zeta in Hcases. rewrite <- Hrs in Hrange, Hcases. cbn [fst snd] in Hrange, Hcases.
  rewrite update_history_length in Hn.
  split; [done|]. split; [done|]. split; [done|]. split; [lia|]. split; [done|].
  split; [|done].
  destruct (decide (Message.type message = Some "audio")) as [Ha|Ha]; [done|].
  unfold BiomarkerService.process_audio_message in Hsent.
  by rewrite bool_decide_eq_false_2 in Hsent.
Qed.

Lemma risk_record_is_well_formed_witness :
  let r := Risk.mk "risk" 0 "warming_up" 1 "s1" 5 in
  snd (@BiomarkerService.process_audio_message Demo.librosa_down Demo.sklearn Demo.base64
         5 nearly_full (one_sample "s1")) = Some r /\
  1 <= Risk.n r <= 100 /\ (0 <= Risk.risk r <= 1)%Q.
Proof.
  intros r.
  assert (Hsent : snd (@BiomarkerService.process_audio_message
                         Demo.librosa_down Demo.sklearn Demo.base64
                         5 nearly_full (one_sample "s1")) = Some r)
    by (vm_compute; reflexivity).
  pose proof (@risk_record_is_well_formed Demo.librosa_down Demo.sklearn Demo.base64
                5 nearly_full (one_sample "s1") r Hsent) as (_ & Hrisk & _ & Hn & _).
  split; [exact Hsent|]. split; [exact Hn | exact Hrisk].
Defined.

(** X19: frames that are not valid JSON, and records the service drops as
    malformed, leave no trace: a connection gives the same service and the
    same records with them as without them. *)
Theorem handle_client_ignores_bad_frames `{L : Librosa} `{S : Sklearn} `{B : Base64}
    (self : BiomarkerService.t) (frames : list (Q * option Message.t))
    (time_ : Q) (message : Message.t) (Hbad : BiomarkerService.malformed message) :
  BiomarkerService.handle_client self frames
  = BiomarkerService.handle_client self
      (List.filter (fun f => bool_decide (is_Some (snd f))) frames) /\
  BiomarkerService.handle_client self ((time_, None) :: frames)
  = BiomarkerService.handle_client self frames /\
  BiomarkerService.handle_client self ((time_, Some message) :: frames)
  = BiomarkerService.handle_client self frames.
Proof.
  split; [apply handle_client_filter|]. split; [done|].
  cbn [BiomarkerService.handle_client]. rewrite process_malformed by done.
  by destruct (BiomarkerService.handle_client self frames).
Qed.

Lemma handle_client_ignores_bad_frames_witness :
  let ping := Message.mk (Some "ping") (Some "s1") (Some "/w==") None in
  @BiomarkerService.malformed Demo.base64 ping /\
  @BiomarkerService.handle_client Demo.librosa Demo.sklearn Demo.base64
    nearly_full [(1%Q, Some ping); (2%Q, Some (one_sample "s2"))]
  = @BiomarkerService.handle_client Demo.librosa Demo.sklearn Demo.base64
      nearly_full [(2%Q, Some (one_sample "s2"))].
Proof.
  intros ping.
  assert (Hbad : @BiomarkerService.malformed Demo.base64 ping) by (left; discriminate).
  split; [exact Hbad|].
  exact (proj2 (proj2 (@handle_client_ignores_bad_frames Demo.librosa Demo.sklearn
                         Demo.base64 nearly_full [(2%Q, Some (one_sample "s2"))]
                         1 ping Hbad))).
Defined.

(** X20: session state outlives the connection.  Handling a sequence of
    frames on one connection gives the same service and the same records as
    handling a first part on one connection and the rest on a later one: the
    second connection continues the buffers, histories and models the first
    one left. *)
Theorem handle_client_continues_across_connections
    `{L : Librosa} `{S : Sklearn} `{B : Base64}
    (self : BiomarkerService.t) (frames1 frames2 : list (Q * option Message.t)) :
  let first := BiomarkerService.handle_client self frames1 in
  let second := BiomarkerService.handle_client (fst first) frames2 in
  BiomarkerService.handle_client self (frames1 ++ frames2)
  = (fst second, snd first ++ snd second).
Proof. apply handle_client_app. Qed.
(** X21: the session record keeps a running total.  For a record that
    carries samples, on a service whose buffers and session records were
    created together, the session's [start_time] stays what it was (the clock
    reading of the first record for a new session), its [frame_count] grows
    by the number of samples carried and is not reset when the buffer is
    cleared, and its [last_risk] becomes the risk of the record sent, or stays
    as it was when none is sent. *)
Theorem session_record_accumulates `{L : Librosa} `{S : Sklearn} `{B : Base64}
    (time_ : Q) (self : BiomarkerService.t) (message : Message.t) (id : string)
    (bytes : list byte)
    (Hwf : BiomarkerService.wf self) (Hc : carries message id bytes) :
  let before := default (Session.mk time_ 0 0)
                  (BiomarkerService.active_sessions self !! id) in
  let result := BiomarkerService.process_audio_message time_ self message in
  exists after : Session.t,
    BiomarkerService.active_sessions (fst result) !! id = Some after /\
    Session.start_time after = Session.start_time before /\
    Session.frame_count after = Session.frame_count before + Z.of_nat (length bytes) /\
    Session.last_risk after
    = match snd result with
      | Some r => Risk.risk r
      | None => Session.last_risk before
      end.
Proof.
  intros before result. unfold result.
  rewrite (process_carries time_ self message id bytes Hc).
  rewrite buffer_and_assess_eq by done. fold before.
  assert (Hlen : length (Mulaw.decode_mulaw bytes) = length bytes)
    by (by rewrite decode_mulaw_map, length_map).
  destruct (snd (AudioBuffer.add_frame _ (Mulaw.decode_mulaw bytes)));
    cbn [fst snd BiomarkerService.active_sessions]; rewrite lookup_insert_eq;
    eexists; (split; [reflexivity|]); cbn [Session.start_time Session.frame_count
                                           Session.last_risk Risk.risk];
    by rewrite Hlen.
Qed.

Lemma session_record_accumulates_witness :
  BiomarkerService.wf nearly_full /\
  @carries Demo.base64 (one_sample "s1") "s1" [xff] /\
  exists after : Session.t,
    BiomarkerService.active_sessions
      (fst (@BiomarkerService.process_audio_message Demo.librosa_down Demo.sklearn
              Demo.base64 5 nearly_full (one_sample "s1"))) !! "s1" = Some after /\
    Session.start_time after
    = Session.start_time (default (Session.mk 5 0 0)
                            (BiomarkerService.active_sessions nearly_full !! "s1")) /\
    Session.frame_count after
    = Session.frame_count (default (Session.mk 5 0 0)
                             (BiomarkerService.active_sessions nearly_full !! "s1"))
      + Z.of_nat (length [xff]).
Proof.
  assert (Hc : @carries Demo.base64 (one_sample "s1") "s1" [xff]).
  { split; [reflexivity|]. split; [reflexivity|]. split; [discriminate|].
    exists "/w==". split; [reflexivity|]. split; [discriminate|].
    split; [reflexivity | discriminate]. }
  split; [exact nearly_full_wf|]. split; [exact Hc|].
  destruct (@session_record_accumulates Demo.librosa_down Demo.sklearn Demo.base64
              5 nearly_full (one_sample "s1") "s1" [xff] nearly_full_wf Hc)
    as (after & Hlook & Hstart & Hcount & _).
  exists after. split; [exact Hlook|]. split; [exact Hstart | exact Hcount].
Defined.

Section StreamFacts.
Context `{L : Librosa} `{S : Sklearn} `{B : Base64}.
Import BiomarkerService.

Lemma stream_records (frames : list (Q * option Message.t)) (chunks : list (list byte))
    (id : string) (self : t) :
  wf self -> stream_of id frames chunks ->
  length (snd (handle_client self frames))
  = snd (AudioBuffer.feed_windows
           (default AudioBuffer.default (audio_buffers self !! id))
           (map Mulaw.decode_mulaw chunks)) /\
  Forall (fun r => Risk.chainRunId r = id) (snd (handle_client self frames)).
Proof.
  intros Hwf Hstream. revert self Hwf.
  induction Hstream as [|[time_ data] bytes frames chunks (message & Hm & Hc) _ IH];
    intros self Hwf; [by split|].
  cbn [snd] in Hm. subst data. cbn [handle_client map AudioBuffer.feed_windows].
  pose proof (buffer_and_assess_wf time_ self id (Mulaw.decode_mulaw bytes)
                (Message.timestamp message) Hwf) as Hwf1.
  rewrite (process_carries time_ self message id bytes Hc).
  rewrite buffer_and_assess_eq in Hwf1 |- * by done.
  destruct (AudioBuffer.add_frame _ (Mulaw.decode_mulaw bytes)) as [b1 full].
  cbn [fst snd] in Hwf1 |- *. destruct full; cbv zeta in Hwf1 |- *;
    cbn [fst snd] in Hwf1 |- *.
  - specialize (IH _ Hwf1). cbn [audio_buffers] in IH. rewrite lookup_insert_eq in IH.
    cbn [from_option] in IH. unfold Datatypes.id in IH.
    destruct (handle_client _ frames) as [self2 sent].
    destruct (AudioBuffer.feed_windows (AudioBuffer.clear b1) _) as [b2 n].
    cbn [fst snd] in IH |- *. destruct IH as [IH1 IH2].
    split; [simpl; by rewrite IH1 | by constructor].
  - specialize (IH _ Hwf1). cbn [audio_buffers] in IH. rewrite lookup_insert_eq in IH.
    cbn [from_option] in IH. unfold Datatypes.id in IH.
    destruct (handle_client _ frames) as [self2 sent]. by cbn [fst snd] in IH |- *.
Qed.
End StreamFacts.

Lemma chunks_uniform (s : Z) (chunks : list (list byte)) :
  Forall (fun c => Z.of_nat (length c) = s) chunks ->
  Forall (fun xs => Z.of_nat (length xs) = s) (map Mulaw.decode_mulaw chunks).
Proof.
  intros Hall. apply List.Forall_forall. intros xs Hxs.
  apply in_map_iff in Hxs as (c & <- & Hc).
  rewrite List.Forall_forall in Hall.
  rewrite decode_mulaw_map, length_map. by apply Hall.
Qed.

(** X22: the records of a connection are the windows of its buffer.  On a
    service whose buffers and session records were created together, a
    connection that carries one session's audio in chunks sends one record
    per [True] of [add_frame] in the add-then-clear loop over the decoded
    chunks, each for that session.  For a session without a buffer and chunks
    of one size that divides 24000, that is one record per 24000 bytes
    received. *)
Theorem records_follow_windows `{L : Librosa} `{S : Sklearn} `{B : Base64}
    (self : BiomarkerService.t) (id : string) (frames : list (Q * option Message.t))
    (chunks : list (list byte))
    (Hwf : BiomarkerService.wf self) (Hstream : stream_of id frames chunks) :
  let sent := snd (BiomarkerService.handle_client self frames) in
  length sent
  = snd (AudioBuffer.feed_windows
           (default AudioBuffer.default (BiomarkerService.audio_buffers self !! id))
           (map Mulaw.decode_mulaw chunks)) /\
  Forall (fun r => Risk.chainRunId r = id) sent /\
  (forall s : Z,
      BiomarkerService.audio_buffers self !! id = None ->
      0 < s -> (s | 24000) ->
      Forall (fun c => Z.of_nat (length c) = s) chunks ->
      Z.of_nat (length sent) = s * Z.of_nat (length chunks) / 24000).
Proof.
  intros sent. destruct (stream_records frames chunks id self Hwf Hstream) as [H1 H2].
  split; [exact H1|]. split; [exact H2|].
  intros s Hnew Hs Hdiv Hall. unfold sent. rewrite H1, Hnew. cbn [from_option].
  rewrite (feed_windows_uniform s); [by rewrite length_map | done | done | | |].
  - apply Z.divide_0_r.
  - simpl. lia.
  - by apply chunks_uniform.
Qed.

Lemma records_follow_windows_witness :
  let frames := [(5%Q, Some (one_sample "s1")); (6%Q, Some (one_sample "s1"))] in
  BiomarkerService.wf nearly_full /\
  @stream_of Demo.base64 "s1" frames [[xff]; [xff]] /\
  length (snd (@BiomarkerService.handle_client Demo.librosa_down Demo.sklearn Demo.base64
                 nearly_full frames))
  = snd (AudioBuffer.feed_windows
           (default AudioBuffer.default
              (BiomarkerService.audio_buffers nearly_full !! "s1"))
           (map Mulaw.decode_mulaw [[xff]; [xff]])).
Proof.
  intros frames.
  assert (Hc : @carries Demo.base64 (one_sample "s1") "s1" [xff]).
  { split; [reflexivity|]. split; [reflexivity|]. split; [discriminate|].
    exists "/w==". split; [reflexivity|]. split; [discriminate|].
    split; [reflexivity | discriminate]. }
  assert (Hstream : @stream_of Demo.base64 "s1" frames [[xff]; [xff]]).
  { repeat constructor; by exists (one_sample "s1"). }
  split; [exact nearly_full_wf|]. split; [exact Hstream|].
  exact (proj1 (@records_follow_windows Demo.librosa_down Demo.sklearn Demo.base64
                  nearly_full "s1" frames [[xff]; [xff]] nearly_full_wf Hstream)).
Defined.
Section DequeForall.
Context {A : Type} (P : A -> Prop).

Lemma deque_extend_Forall (m : Z) (xs d : list A) :
  Forall P d -> Forall P xs -> Forall P (Deque.extend m d xs).
Proof.
  unfold Deque.extend. revert d.
  induction xs as [|x xs IH]; intros d Hd Hxs; [done|].
  apply Forall_cons in Hxs as [Hx Hxs]. simpl. apply IH; [|done].
  unfold Deque.append.
  assert (Hall : Forall P (d ++ [x])) by (apply Forall_app; split; [done | by constructor]).
  destruct (_ <? _); [|done].
  destruct (d ++ [x]) as [|y l]; [done|]. by apply Forall_cons in Hall as [_ ?].
Qed.
End DequeForall.

Lemma decode_mulaw_audible (bytes : list byte) :
  Forall (fun x => Qeq_bool x 0 = false) (Mulaw.decode_mulaw bytes).
Proof.
  rewrite decode_mulaw_map. apply List.Forall_forall. intros x Hx.
  apply in_map_iff in Hx as (b & <- & _). apply decode_sample_nonzero.
Qed.

Lemma audible_not_silent (audio : list Q) :
  audio <> [] -> Forall (fun x => Qeq_bool x 0 = false) audio ->
  FeatureExtractor.silent audio = false.
Proof.
  destruct audio as [|x audio]; [done|]. intros _ Hall.
  apply Forall_cons in Hall as [Hx _].
  unfold FeatureExtractor.silent. simpl. by rewrite Hx.
Qed.

Section ServiceAudible.
Context `{L : Librosa} `{S : Sklearn} `{B : Base64}.
Import BiomarkerService.

Lemma stored_buffer_audible (self : t) (id : string) :
  audible self ->
  Forall (fun x => Qeq_bool x 0 = false)
         (AudioBuffer.buffer (default AudioBuffer.default (audio_buffers self !! id))).
Proof.
  intros Haud. destruct (audio_buffers self !! id) as [b|] eqn:Hb; simpl.
  - by apply (Haud id).
  - constructor.
Qed.

Lemma buffer_and_assess_audible (time_ : Q) (self : t) (id : string)
    (bytes : list byte) (ts : option Q) :
  wf self -> audible self ->
  audible (fst (buffer_and_assess time_ self id (Mulaw.decode_mulaw bytes) ts)).
Proof.
  intros Hwf Haud. rewrite buffer_and_assess_eq by done.
  pose proof (stored_buffer_audible self id Haud) as Hold.
  assert (Hnew : Forall (fun x => Qeq_bool x 0 = false)
                   (AudioBuffer.buffer
                      (fst (AudioBuffer.add_frame
                              (default AudioBuffer.default (audio_buffers self !! id))
                              (Mulaw.decode_mulaw bytes))))).
  { simpl. apply deque_extend_Forall; [done | apply decode_mulaw_audible]. }
  destruct (AudioBuffer.add_frame _ (Mulaw.decode_mulaw bytes)) as [b1 full].
  cbn [fst snd] in Hnew |- *. intros id' buffer'.
  destruct full; cbv zeta; cbn [fst audio_buffers];
    (destruct (decide (id = id')) as [<-|Hne];
     [rewrite lookup_insert_eq; intros [= <-] | rewrite lookup_insert_ne by done; apply Haud]).
  - constructor.
  - done.
Qed.

Lemma process_audible (time_ : Q) (self : t) (message : Message.t) :
  wf self -> audible self -> audible (fst (process_audio_message time_ self message)).
Proof.
  intros Hwf Haud.
  destruct (malformed_or_valid message)
    as [Hbad | (id & payload & bytes & Ht & Hid & Hne & Ha & Hpe & Hp & Hb)].
  - by rewrite process_malformed.
  - rewrite (process_valid time_ self message id payload bytes) by done.
    by apply buffer_and_assess_audible.
Qed.

Lemma handle_client_audible (frames : list (Q * option Message.t)) (self : t) :
  wf self -> audible self -> audible (fst (handle_client self frames)).
Proof.
  revert self. induction frames as [|[time_ [data|]] frames IH]; intros self Hwf Haud; simpl.
  - done.
  - pose proof (process_audible time_ self data Hwf Haud) as H1.
    pose proof (process_wf time_ self data Hwf) as H2.
    destruct (process_audio_message time_ self data) as [self1 response].
    specialize (IH self1 H2 H1). by destruct (handle_client self1 frames).
  - by apply IH.
Qed.
End ServiceAudible.

(** X23: inside the service the zero vector is never produced by the guard.
    Decoded samples are never zero, so starting from a new service no stored
    sample is ever zero; the window handed to [extract_basic_features] when a
    record carrying samples fills the buffer is therefore neither empty nor
    all-zero, and its features come out in extraction order. *)
Theorem service_windows_are_never_silent `{L : Librosa} `{S : Sklearn} `{B : Base64}
    (h : string) (p : Z) (frames : list (Q * option Message.t))
    (self : BiomarkerService.t) (id : string) (bytes : list byte)
    (Hwf : BiomarkerService.wf self) (Haud : audible self) (Hbytes : bytes <> []) :
  let buffer := default AudioBuffer.default (BiomarkerService.audio_buffers self !! id) in
  let window := AudioBuffer.get_buffer
                  (fst (AudioBuffer.add_frame buffer (Mulaw.decode_mulaw bytes))) in
  audible (fst (BiomarkerService.handle_client (BiomarkerService.init h p) frames)) /\
  audible (fst (BiomarkerService.handle_client self frames)) /\
  FeatureExtractor.silent window = false /\
  PyDict.keys (FeatureExtractor.extract_basic_features window) = extraction_order.
Proof.
  intros buffer window.
  split.
  { apply handle_client_audible; [apply init_wf|].
    intros id' b. unfold BiomarkerService.init; simpl. by rewrite lookup_empty. }
  split; [by apply handle_client_audible|].
  assert (Hsilent : FeatureExtractor.silent window = false).
  { apply audible_not_silent.
    - destruct (stored_buffer_wf self id Hwf) as [Hb Hsize]. fold buffer in Hb, Hsize.
      pose proof (add_frame_buffer_length buffer (Mulaw.decode_mulaw bytes) Hb) as Hlen.
      assert (Hdl : length (Mulaw.decode_mulaw bytes) = length bytes)
        by (by rewrite decode_mulaw_map, length_map).
      rewrite Hsize, Hdl in Hlen.
      unfold window, AudioBuffer.get_buffer. intros Hnil.
      rewrite Hnil in Hlen. cbn [length] in Hlen.
      destruct bytes; [done|]. cbn [length] in Hlen. lia.
    - unfold window, AudioBuffer.get_buffer. simpl.
      apply deque_extend_Forall; [by apply stored_buffer_audible
                                 | apply decode_mulaw_audible]. }
  split; [exact Hsilent|]. by rewrite extract_basic_features_keys, Hsilent.
Qed.

Lemma nearly_full_audible : audible nearly_full.
Proof.
  intros id b. unfold nearly_full. cbn [BiomarkerService.audio_buffers].
  destruct (decide (id = "s1")) as [->|Hne].
  - rewrite lookup_singleton_eq. intros Heq. apply (inj Some) in Heq.
    rewrite <- Heq. cbn [AudioBuffer.buffer]. apply Forall_replicate. reflexivity.
  - by rewrite lookup_singleton_ne.
Qed.

Lemma service_windows_are_never_silent_witness :
  BiomarkerService.wf nearly_full /\ audible nearly_full /\ [xff] <> @nil byte /\
  FeatureExtractor.silent
    (AudioBuffer.get_buffer
       (fst (AudioBuffer.add_frame
               (default AudioBuffer.default
                  (BiomarkerService.audio_buffers nearly_full !! "s1"))
               (Mulaw.decode_mulaw [xff])))) = false.
Proof.
  assert (Hb : [xff] <> @nil byte) by discriminate.
  split; [exact nearly_full_wf|]. split; [exact nearly_full_audible|]. split; [exact Hb|].
  exact (proj1 (proj2 (proj2
           (@service_windows_are_never_silent Demo.librosa Demo.sklearn Demo.base64
              "127.0.0.1" 9091 [] nearly_full "s1" [xff]
              nearly_full_wf nearly_full_audible Hb)))).
Defined.

Section ConnectionFrame.
Context `{L : Librosa} `{S : Sklearn} `{B : Base64}.
Import BiomarkerService.

Lemma handle_client_other (frames : list (Q * option Message.t)) (self : t)
    (other : string) :
  Forall (fun frame => forall message,
              snd frame = Some message -> Message.chainRunId message <> Some other)
         frames ->
  session_state (fst (handle_client self frames)) other = session_state self other.
Proof.
  intros Hall. revert self.
  induction Hall as [|[time_ [data|]] frames Hframe _ IH]; intros self; simpl.
  - done.
  - pose proof (process_other time_ self data other (Hframe data eq_refl)) as H1.
    destruct (process_audio_message time_ self data) as [self1 response].
    specialize (IH self1). destruct (handle_client self1 frames) as [self2 sent].
    cbn [fst] in *. by rewrite IH.
  - apply IH.
Qed.
End ConnectionFrame.

(** X24: a whole connection that never names a session leaves that session
    alone: if no record it delivers carries the id [other], then buffer,
    session record, history, scaler and model of [other] are after the
    connection what they were before it. *)
Theorem connection_leaves_other_sessions `{L : Librosa} `{S : Sklearn} `{B : Base64}
    (self : BiomarkerService.t) (frames : list (Q * option Message.t)) (other : string)
    (Hall : Forall (fun frame => forall message,
                        snd frame = Some message ->
                        Message.chainRunId message <> Some other) frames) :
  BiomarkerService.session_state (fst (BiomarkerService.handle_client self frames)) other
  = BiomarkerService.session_state self other.
Proof. by apply handle_client_other. Qed.

Lemma connection_leaves_other_sessions_witness :
  let frames := [(1%Q, Some (one_sample "s2")); (2%Q, None);
                 (3%Q, Some (one_sample "s3"))] in
  Forall (fun frame => forall message,
              snd frame = Some message -> Message.chainRunId message <> Some "s1") frames /\
  BiomarkerService.session_state
    (fst (@BiomarkerService.handle_client Demo.librosa Demo.sklearn Demo.base64
            nearly_full frames)) "s1"
  = BiomarkerService.session_state nearly_full "s1".
Proof.
  intros frames.
  assert (Hall : Forall (fun frame => forall message,
                     snd frame = Some message ->
                     Message.chainRunId message <> Some "s1") frames).
  { repeat constructor; intros message [= <-]; discriminate. }
  split; [exact Hall|].
  exact (@connection_leaves_other_sessions Demo.librosa Demo.sklearn Demo.base64
           nearly_full frames "s1" Hall).
Defined.
Lemma silent_iff (audio : list Q) :
  FeatureExtractor.silent audio = true <-> Forall (fun x => (x == 0)%Q) audio.
Proof.
  unfold FeatureExtractor.silent. split.
  - intros H. destruct audio as [|x audio]; [constructor|].
    cbn [length Nat.eqb orb] in H. rewrite forallb_forall in H.
    apply List.Forall_forall. intros y Hy. by apply Qeq_bool_iff, H.
  - intros Hall. destruct audio as [|x audio]; [done|].
    cbn [length Nat.eqb orb]. rewrite forallb_forall. intros y Hy.
    rewrite List.Forall_forall in Hall. by apply Qeq_bool_iff, Hall.
Qed.

(** X25: an empty window and a window of zeros are answered without any
    library call: the result is the zero vector of [_get_zero_features], 38
    entries all 0.0, whatever the signal-processing library would do; and the
    guard fires for exactly these windows. *)
Theorem silent_window_gives_zero_vector `{L : Librosa} (audio : list Q)
    (Hzero : Forall (fun x => (x == 0)%Q) audio) :
  FeatureExtractor.extract_basic_features audio = FeatureExtractor._get_zero_features /\
  PyDict.values (FeatureExtractor.extract_basic_features audio) = replicate 38 0%Q /\
  (forall window : list Q,
      FeatureExtractor.silent window = true <-> Forall (fun x => (x == 0)%Q) window).
Proof.
  assert (Hs : FeatureExtractor.silent audio = true) by (by apply silent_iff).
  unfold FeatureExtractor.extract_basic_features. rewrite Hs.
  split; [done|]. split; [apply zero_features_values | apply silent_iff].
Qed.

Lemma silent_window_gives_zero_vector_witness :
  Forall (fun x => (x == 0)%Q) [0; 0 # 5]%Q /\
  PyDict.values (@FeatureExtractor.extract_basic_features Demo.librosa [0; 0 # 5]%Q)
  = replicate 38 0%Q.
Proof.
  assert (Hzero : Forall (fun x => (x == 0)%Q) [0; 0 # 5]%Q)
    by (repeat constructor).
  split; [exact Hzero|].
  exact (proj1 (proj2 (@silent_window_gives_zero_vector Demo.librosa [0; 0 # 5]%Q Hzero))).
Defined.

Section RecordCounter.
Context `{L : Librosa} `{S : Sklearn} `{B : Base64}.
Import BiomarkerService.

Lemma counter_shift (h k : nat) :
  map (fun i => Z.of_nat (Nat.min 100 (Nat.min 100 (h + 1) + i))) (seq 1 k)
  = map (fun i => Z.of_nat (Nat.min 100 (h + i))) (seq 2 k).
Proof.
  rewrite <- (seq_shift k 1), map_map. apply map_ext. intros i. f_equal. lia.
Qed.

Lemma stream_counters (frames : list (Q * option Message.t)) (chunks : list (list byte))
    (id : string) (self : t) :
  wf self -> stream_of id frames chunks ->
  map Risk.n (snd (handle_client self frames))
  = map (fun i => Z.of_nat
                    (Nat.min 100
                       (length (RiskAssessment.history (risk_assessment self) id) + i)))
        (seq 1 (length (snd (handle_client self frames)))).
Proof.
  intros Hwf Hstream. revert self Hwf.
  induction Hstream as [|[time_ data] bytes frames chunks (message & Hm & Hc) _ IH];
    intros self Hwf; [done|].
  cbn [snd] in Hm. subst data. cbn [handle_client].
  pose proof (buffer_and_assess_wf time_ self id (Mulaw.decode_mulaw bytes)
                (Message.timestamp message) Hwf) as Hwf1.
  rewrite (process_carries time_ self message id bytes Hc).
  rewrite buffer_and_assess_eq in Hwf1 |- * by done.
  destruct (AudioBuffer.add_frame _ (Mulaw.decode_mulaw bytes)) as [b1 full].
  cbn [fst snd] in Hwf1 |- *. destruct full; cbv zeta in Hwf1 |- *;
    cbn [fst snd] in Hwf1 |- *.
  - specialize (IH _ Hwf1). cbn [risk_assessment] in IH.
    rewrite update_history_length in IH |- *.
    destruct (handle_client _ frames) as [self2 sent]. cbn [fst snd] in IH |- *.
    cbn [map length seq Risk.n]. rewrite IH, counter_shift. done.
  - specialize (IH _ Hwf1). cbn [risk_assessment] in IH.
    destruct (handle_client _ frames) as [self2 sent]. by cbn [fst snd] in IH |- *.
Qed.
End RecordCounter.

(** X26: the [n] of consecutive records of a session counts its windows.  On
    a service whose buffers and session records were created together, the
    records a connection sends for one session carry h+1, h+2, ... capped at
    100, where h is the length of the session's history before the
    connection, whatever the status of each window. *)
Theorem record_counter_counts_windows `{L : Librosa} `{S : Sklearn} `{B : Base64}
    (self : BiomarkerService.t) (id : string) (frames : list (Q * option Message.t))
    (chunks : list (list byte))
    (Hwf : BiomarkerService.wf self) (Hstream : stream_of id frames chunks) :
  let sent := snd (BiomarkerService.handle_client self frames) in
  let h := length (RiskAssessment.history (BiomarkerService.risk_assessment self) id) in
  map Risk.n sent
  = map (fun i => Z.of_nat (Nat.min 100 (h + i))) (seq 1 (length sent)).
Proof. by apply (stream_counters frames chunks). Qed.

Lemma record_counter_counts_windows_witness :
  let frames := [(5%Q, Some (one_sample "s1")); (6%Q, Some (one_sample "s1"))] in
  let sent := snd (@BiomarkerService.handle_client Demo.librosa_down Demo.sklearn
                     Demo.base64 nearly_full frames) in
  BiomarkerService.wf nearly_full /\
  @stream_of Demo.base64 "s1" frames [[xff]; [xff]] /\
  map Risk.n sent
  = map (fun i => Z.of_nat
                    (Nat.min 100
                       (length (RiskAssessment.history
                                  (BiomarkerService.risk_assessment nearly_full) "s1") + i)))
        (seq 1 (length sent)).
Proof.
  intros frames sent.
  assert (Hstream : @stream_of Demo.base64 "s1" frames [[xff]; [xff]]).
  { repeat constructor; exists (one_sample "s1"); (split; [reflexivity|]);
      (split; [reflexivity|]); (split; [reflexivity|]); (split; [discriminate|]);
      exists "/w=="; (split; [reflexivity|]); (split; [discriminate|]);
      (split; [reflexivity | discriminate]). }
  split; [exact nearly_full_wf|]. split; [exact Hstream|].
  exact (@record_counter_counts_windows Demo.librosa_down Demo.sklearn Demo.base64
           nearly_full "s1" frames [[xff]; [xff]] nearly_full_wf Hstream).
Defined.
